(** * WMS expiry analyzer: a shallow embedding of [data_processor.py]

    The development follows [WMSDataProcessor]: the date parser
    ([parse_date]), the column resolver ([_find_column]), the aggregation
    loop and the classifier of [process_data], the filter extraction
    ([_extrair_filtros]) and the recommendation generator
    ([_gerar_recomendacoes]).

    Modelling conventions.
    - A Python [str] is a [string] whose characters are code points below 256;
      among those the decimal digits are ['0'..'9'] only.  Message literals
      of the program are given by their UTF-8 bytes.
    - A DataFrame cell read with [dtype=str] is a string or the missing
      value [NaN] (a float, hence truthy, and printed ["nan"] by [str()]).
    - A Python float is an exact rational, [inf], [-inf] or [nan]: rounding
      to binary64, overflow and underflow are not modelled.
    - Exceptions are values: fallible operations return a [result].
    - [self.hoje], the reference day fixed when the processor is created, is
      the parameter [hoje] of the functions that use it. *)

From Stdlib Require Import ZArith QArith Qround Qabs Bool List Ascii String Lia Lqa.
From Stdlib Require Import Sorting.Sorted Sorting.Permutation DecimalString.
Import ListNotations.

Local Open Scope string_scope.
Local Open Scope list_scope.
Local Open Scope Z_scope.

(** ** Python values and exceptions *)

Module Py.

Inductive exn : Type :=
| ValueError (msg : string)
| OverflowError
| TypeError.

Inductive result (A : Type) : Type :=
| Ok (a : A)
| Raise (e : exn).
Arguments Ok {A} a.
Arguments Raise {A} e.

Definition bind {A B : Type} (r : result A) (k : A -> result B) : result B :=
  match r with
  | Ok a => k a
  | Raise e => Raise e
  end.

(** [try: body  except ValueError: handler] *)
Definition except_ValueError {A : Type} (body : result A) (handler : result A) : result A :=
  match body with
  | Raise (ValueError _) => handler
  | other => other
  end.

(** A cell of a DataFrame loaded with [dtype=str]. *)
Inductive cell : Type :=
| NaN
| Str (s : string).

Definition cell_eqb (a b : cell) : bool :=
  match a, b with
  | NaN, NaN => true
  | Str s, Str t => String.eqb s t
  | _, _ => false
  end.

(** [pd.isna(x)] *)
Definition isna (x : cell) : bool :=
  match x with NaN => true | Str _ => false end.

(** [str(x)] *)
Definition str (x : cell) : string :=
  match x with NaN => "nan" | Str s => s end.

(** [bool(x)]: [nan] is a non-zero float, a string is true when non-empty. *)
Definition truthy (x : cell) : bool :=
  match x with NaN => true | Str s => negb (String.eqb s "") end.

(** *** Characters *)

Definition code (c : ascii) : N := N_of_ascii c.

Definition is_digit (c : ascii) : bool :=
  ((48 <=? code c) && (code c <=? 57))%N.

(** [c.isspace()], the characters that [str.strip()] removes. *)
Definition is_space (c : ascii) : bool :=
  (((9 <=? code c) && (code c <=? 13)) || ((28 <=? code c) && (code c <=? 32))
   || (code c =? 133) || (code c =? 160))%N.

(** The blanks that [int()] and [float()] skip around a literal: the ASCII
    ones of C's [isspace] and the non-ASCII Unicode spaces. *)
Definition is_space_num (c : ascii) : bool :=
  (((9 <=? code c) && (code c <=? 13)) || (code c =? 32)
   || (code c =? 133) || (code c =? 160))%N.

Definition digit_val (c : ascii) : Z := Z.of_N (code c) - 48.

Definition to_lower (c : ascii) : ascii :=
  if ((65 <=? code c) && (code c <=? 90))%N then ascii_of_N (code c + 32) else c.

(** *** Strings *)

Fixpoint lstrip_by (p : ascii -> bool) (s : string) : string :=
  match s with
  | String c r => if p c then lstrip_by p r else s
  | EmptyString => EmptyString
  end.

Fixpoint rstrip_by (p : ascii -> bool) (s : string) : string :=
  match s with
  | String c r =>
      match rstrip_by p r with
      | EmptyString => if p c then EmptyString else String c EmptyString
      | r' => String c r'
      end
  | EmptyString => EmptyString
  end.

(** [s.strip()] *)
Definition strip (s : string) : string := rstrip_by is_space (lstrip_by is_space s).

(** [s.replace(a, b)] for one-character [a] and [b]. *)
Fixpoint replace (a b : ascii) (s : string) : string :=
  match s with
  | String c r => String (if Ascii.eqb c a then b else c) (replace a b r)
  | EmptyString => EmptyString
  end.

(** [s.split(sep)] for a one-character separator: never the empty list. *)
Fixpoint split (sep : ascii) (s : string) : list string :=
  match s with
  | EmptyString => [EmptyString]
  | String c r =>
      if Ascii.eqb c sep then EmptyString :: split sep r
      else match split sep r with
           | p :: ps => String c p :: ps
           | [] => [String c EmptyString]
           end
  end.

Fixpoint all_digits (s : string) : bool :=
  match s with
  | String c r => is_digit c && all_digits r
  | EmptyString => true
  end.

(** Every character of [s] satisfies [q]. *)
Fixpoint string_all (q : ascii -> bool) (s : string) : bool :=
  match s with
  | String c r => q c && string_all q r
  | EmptyString => true
  end.

(** Longest prefix of digits, and what follows it. *)
Fixpoint span_digits (s : string) : string * string :=
  match s with
  | String c r =>
      if is_digit c then let '(d, rest) := span_digits r in (String c d, rest)
      else (EmptyString, s)
  | EmptyString => (EmptyString, EmptyString)
  end.

Fixpoint digits_value_from (acc : Z) (s : string) : Z :=
  match s with
  | String c r => digits_value_from (10 * acc + digit_val c) r
  | EmptyString => acc
  end.

(** Value of a string of decimal digits. *)
Definition digits_value (s : string) : Z := digits_value_from 0 s.

(** [name in col] on strings: [name] occurs in [col]. *)
Fixpoint is_substring (name col : string) : bool :=
  String.prefix name col
  || match col with
     | String _ r => is_substring name r
     | EmptyString => false
     end.

(** [x in names] on a list of strings. *)
Definition in_list (x : string) (names : list string) : bool :=
  existsb (String.eqb x) names.

(** *** Numeric literals *)

Definition is_underscore (prev : option ascii) : bool :=
  match prev with
  | Some p => Ascii.eqb p "_"
  | None => false
  end.

Definition is_digit_opt (prev : option ascii) : bool :=
  match prev with
  | Some p => is_digit p
  | None => false
  end.

(** Underscores of a numeric literal: each one stands between two digits.
    Returns the literal without them, or [None] when one is misplaced;
    [prev] is the character just read. *)
Fixpoint drop_underscores (prev : option ascii) (s : string) : option string :=
  match s with
  | EmptyString => if is_underscore prev then None else Some EmptyString
  | String c r =>
      if Ascii.eqb c "_" then
        if is_digit_opt prev then drop_underscores (Some c) r else None
      else if is_underscore prev && negb (is_digit c) then None
      else option_map (String c) (drop_underscores (Some c) r)
  end.

Definition strip_num (s : string) : string :=
  rstrip_by is_space_num (lstrip_by is_space_num s).

(** Optional sign: [(negative, rest)]. *)
Definition take_sign (s : string) : bool * string :=
  match s with
  | String "+" r => (false, r)
  | String "-" r => (true, r)
  | _ => (false, s)
  end.

(** [sys.int_info.default_max_str_digits]: a longer literal is a
    [ValueError] for [int()]. *)
Definition max_str_digits : nat := 4300.

(** [int(s)] on a string; [None] is [ValueError]. *)
Definition int_of_str (s : string) : option Z :=
  match drop_underscores None (strip_num s) with
  | None => None
  | Some t =>
      let '(neg, body) := take_sign t in
      if all_digits body && negb (String.eqb body "")
         && (String.length body <=? max_str_digits)%nat
      then Some (if neg then - digits_value body else digits_value body)
      else None
  end.

Inductive float : Type :=
| FNan
| FInf (negative : bool)
| FFin (q : Q).

Definition lower (s : string) : string :=
  string_of_list_ascii (map to_lower (list_ascii_of_string s)).

(** [m * 10^e] *)
Definition scale10 (m e : Z) : Q := Qred (inject_Z m * Qpower (10 # 1) e).

(** Unsigned decimal literal [digits [. digits] [e [sign] digits]] with at
    least one digit in the mantissa. *)
Definition decimal_literal (s : string) : option Q :=
  let '(ip, r1) := span_digits s in
  let '(fp, r2) :=
    match r1 with
    | String "." r => span_digits r
    | _ => (EmptyString, r1)
    end in
  if String.eqb ip "" && String.eqb fp "" then None
  else
    let mant := digits_value (ip ++ fp)%string in
    let fl := Z.of_nat (String.length fp) in
    match r2 with
    | EmptyString => Some (scale10 mant (- fl))
    | String c r3 =>
        if Ascii.eqb (to_lower c) "e" then
          let '(eneg, r4) := take_sign r3 in
          let '(ep, r5) := span_digits r4 in
          if String.eqb ep "" || negb (String.eqb r5 "") then None
          else
            let e := if eneg then - digits_value ep else digits_value ep in
            Some (scale10 mant (e - fl))
        else None
    end.

(** [float(s)] on a string; [None] is [ValueError]. *)
Definition float_of_str (s : string) : option float :=
  match drop_underscores None (strip_num s) with
  | None => None
  | Some t =>
      let '(neg, body) := take_sign t in
      let lb := lower body in
      if String.eqb lb "inf" || String.eqb lb "infinity" then Some (FInf neg)
      else if String.eqb lb "nan" then Some FNan
      else match decimal_literal body with
           | Some q => Some (FFin (if neg then Qred (- q) else q))
           | None => None
           end
  end.

Definition fzero : float := FFin 0.

(** [a + b] on floats (the integer [0] behaves as [0.0]). *)
Definition fadd (a b : float) : float :=
  match a, b with
  | FNan, _ | _, FNan => FNan
  | FInf s, FInf t => if Bool.eqb s t then FInf s else FNan
  | FInf s, FFin _ | FFin _, FInf s => FInf s
  | FFin p, FFin q => FFin (Qred (p + q))
  end.

(** [abs(a)] *)
Definition fabs (a : float) : float :=
  match a with
  | FNan => FNan
  | FInf _ => FInf false
  | FFin q => FFin (Qabs q)
  end.

Definition Qltb (p q : Q) : bool := negb (Qle_bool q p).

(** [a > n] for an integer [n]. *)
Definition fgt (a : float) (n : Z) : bool :=
  match a with
  | FNan => false
  | FInf negative => negb negative
  | FFin q => Qltb (inject_Z n) q
  end.

(** [sum(l)]: left to right from [0]. *)
Definition fsum (l : list float) : float := fold_left fadd l fzero.

End Py.

(** ** Calendar dates: [datetime.datetime] *)

Module Datetime.
Import Py.

(** A [datetime]: a calendar date and the microseconds elapsed since
    midnight (hour, minute, second and microsecond in one number). *)
Record datetime : Type := mk_datetime {
  year : Z;
  month : Z;
  day : Z;
  micro : Z
}.

Definition MINYEAR : Z := 1.
Definition MAXYEAR : Z := 9999.
Definition INT_MAX : Z := 2147483647.
Definition INT_MIN : Z := -2147483648.
Definition US_PER_DAY : Z := 86400000000.

Definition is_leap (y : Z) : bool :=
  (y mod 4 =? 0) && (negb (y mod 100 =? 0) || (y mod 400 =? 0)).

Definition days_in_month (y m : Z) : Z :=
  if m =? 2 then (if is_leap y then 29 else 28)
  else if (m =? 4) || (m =? 6) || (m =? 9) || (m =? 11) then 30
  else 31.

(** Days in the months of a common year before month [m]. *)
Definition DAYS_BEFORE_MONTH (m : Z) : Z :=
  match m with
  | 1 => 0 | 2 => 31 | 3 => 59 | 4 => 90 | 5 => 120 | 6 => 151
  | 7 => 181 | 8 => 212 | 9 => 243 | 10 => 273 | 11 => 304 | 12 => 334
  | _ => 365
  end.

Definition days_before_year (y : Z) : Z :=
  let p := y - 1 in p * 365 + p / 4 - p / 100 + p / 400.

Definition days_before_month (y m : Z) : Z :=
  DAYS_BEFORE_MONTH m + (if (2 <? m) && is_leap y then 1 else 0).

(** The dates the [datetime] type holds. *)
Definition valid_date (y m d : Z) : bool :=
  (MINYEAR <=? y) && (y <=? MAXYEAR) && (1 <=? m) && (m <=? 12)
  && (1 <=? d) && (d <=? days_in_month y m).

Definition fits_int (z : Z) : bool := (INT_MIN <=? z) && (z <=? INT_MAX).

(** [datetime(y, m, d)]: the arguments are first converted to C [int]
    ([OverflowError]) and then checked against the calendar ([ValueError]). *)
Definition datetime_new (y m d : Z) : result datetime :=
  if negb (fits_int y && fits_int m && fits_int d) then Raise OverflowError
  else if valid_date y m d then Ok (mk_datetime y m d 0)
  else Raise (ValueError "date value out of range").

(** [d.toordinal()]: day number, 0001-01-01 being day 1. *)
Definition toordinal (d : datetime) : Z :=
  days_before_year (year d) + days_before_month (year d) (month d) + day d.

Definition DI400Y : Z := 146097.
Definition DI100Y : Z := 36524.
Definition DI4Y : Z := 1461.

(** [date.fromordinal(n)] as [(year, month, day)]. *)
Definition ord2ymd (n : Z) : Z * Z * Z :=
  let n := n - 1 in
  let n400 := n / DI400Y in
  let n := n mod DI400Y in
  let n100 := n / DI100Y in
  let n := n mod DI100Y in
  let n4 := n / DI4Y in
  let n := n mod DI4Y in
  let n1 := n / 365 in
  let n := n mod 365 in
  let y := n400 * 400 + 1 + n100 * 100 + n4 * 4 + n1 in
  if (n1 =? 4) || (n100 =? 4) then (y - 1, 12, 31)
  else
    let leapyear := (n1 =? 3) && (negb (n4 =? 24) || (n100 =? 3)) in
    let m := Z.shiftr (n + 50) 5 in
    let preceding := DAYS_BEFORE_MONTH m + (if (2 <? m) && leapyear then 1 else 0) in
    if n <? preceding then
      let m' := m - 1 in
      let preceding' :=
        preceding - (days_in_month 1 m' + (if (m' =? 2) && leapyear then 1 else 0)) in
      (y, m', n - preceding' + 1)
    else (y, m, n - preceding + 1).

(** Microseconds since the start of day 0. *)
Definition instant (d : datetime) : Z := toordinal d * US_PER_DAY + micro d.

Definition MAX_ORDINAL : Z := 3652059.

Definition of_instant (t : Z) : datetime :=
  let '(y, m, d) := ord2ymd (t / US_PER_DAY) in
  mk_datetime y m d (t mod US_PER_DAY).

(** Rounding to the nearest integer, ties to even: Python's [round]. *)
Definition round_half_even (q : Q) : Z :=
  let f := Qfloor q in
  match Qcompare (q - inject_Z f) (1 # 2) with
  | Lt => f
  | Gt => f + 1
  | Eq => if Z.even f then f else f + 1
  end.

(** [timedelta(days=x)] in microseconds, for a finite [x]. *)
Definition timedelta_days (x : Q) : Z :=
  round_half_even (x * inject_Z US_PER_DAY).

(** [d + delta] where [delta] is a number of microseconds. *)
Definition datetime_add (d : datetime) (delta : Z) : result datetime :=
  let t := instant d + delta in
  let o := t / US_PER_DAY in
  if (1 <=? o) && (o <=? MAX_ORDINAL) then Ok (of_instant t)
  else Raise OverflowError.

(** [(a - b).days]: whole days, rounded down. *)
Definition days_between (a b : datetime) : Z := (instant a - instant b) / US_PER_DAY.


End Datetime.

(** ** Ordered dictionaries and stable sorting *)

Module Dict.

Section Dict.
Context {K V : Type}.
Variable eqb : K -> K -> bool.

(** A [dict]: keys in insertion order, each key once. *)
Definition dict : Type := list (K * V).

(** [d.get(k)] *)
Fixpoint get (k : K) (d : dict) : option V :=
  match d with
  | [] => None
  | (k', v) :: r => if eqb k' k then Some v else get k r
  end.

(** [d[k] = v]: a new key goes last, a known key keeps its place. *)
Fixpoint set (k : K) (v : V) (d : dict) : dict :=
  match d with
  | [] => [(k, v)]
  | (k', v') :: r => if eqb k' k then (k, v) :: r else (k', v') :: set k v r
  end.

(** [d.values()] *)
Definition values (d : dict) : list V := map snd d.

End Dict.

End Dict.

Module Sort.

Section Sort.
Context {A : Type}.
Variable le : A -> A -> bool.

Fixpoint insert (x : A) (l : list A) : list A :=
  match l with
  | [] => [x]
  | y :: r => if le x y then x :: y :: r else y :: insert x r
  end.

(** [l.sort(key=...)] / [sorted(l)]: a stable sort, [le] comparing keys. *)
Fixpoint sort (l : list A) : list A :=
  match l with
  | [] => []
  | x :: r => insert x (sort r)
  end.

End Sort.

End Sort.

(** ** The processor *)

Module WMSDataProcessor.
Import Py Datetime.

(** *** [parse_date] *)

Definition null_dates : list string := [""; "NULL"; "null"; "NaN"; "Invalid Date"].

Definition digits_len (lo hi : nat) (s : string) : bool :=
  all_digits s && (lo <=? String.length s)%nat && (String.length s <=? hi)%nat.

(** [re.match(r'^\d{1,2}SEP\d{1,2}SEP\d{4}$', s)] on a stripped string,
    [SEP] being ["/"] or ["-"]. *)
Definition re_dmy (sep : ascii) (s : string) : bool :=
  match split sep s with
  | [d; m; y] => digits_len 1 2 d && digits_len 1 2 m && digits_len 4 4 y
  | _ => false
  end.

(** [re.match(r'^\d{4}-\d{1,2}-\d{1,2}', s)]: a prefix match. *)
Definition re_iso (s : string) : bool :=
  let '(y, r1) := span_digits s in
  (String.length y =? 4)%nat
  && match r1 with
     | String "-" r2 =>
         let '(m, r3) := span_digits r2 in
         (1 <=? String.length m)%nat && (String.length m <=? 2)%nat
         && match r3 with
            | String "-" (String c _) => is_digit c
            | _ => false
            end
     | _ => false
     end.

(** [a, b, c = map(int, pieces)]: a bad literal or a wrong number of
    pieces is a [ValueError]. *)
Definition unpack_ints (pieces : list string) : result (Z * Z * Z) :=
  match map int_of_str pieces with
  | [Some a; Some b; Some c] => Ok (a, b, c)
  | _ => Raise (ValueError "invalid literal or wrong number of values to unpack")
  end.

Definition EXCEL_EPOCH : datetime := mk_datetime 1899 12 30 0.

(** The last attempt of [parse_date]: an Excel serial number. *)
Definition parse_excel (str_date : string) : result (option datetime) :=
  match float_of_str str_date with
  | Some (FFin excel_num) =>
      if Qltb 0 excel_num && Qltb excel_num (inject_Z 50000) then
        except_ValueError
          (bind (datetime_add EXCEL_EPOCH (timedelta_days excel_num))
                (fun date => Ok (Some date)))
          (Ok None)
      else Ok None
  | Some _ => Ok None
  | None => Ok None
  end.

Definition parse_date (date_string : cell) : result (option datetime) :=
  if isna date_string || in_list (str date_string) null_dates then Ok None
  else
    let str_date := strip (str date_string) in
    if re_dmy "/" str_date then
      except_ValueError
        (bind (unpack_ints (split "/" str_date)) (fun '(day, month, year) =>
         bind (datetime_new year month day) (fun date => Ok (Some date))))
        (parse_excel str_date)
    else if re_dmy "-" str_date then
      except_ValueError
        (bind (unpack_ints (split "-" str_date)) (fun '(day, month, year) =>
         bind (datetime_new year month day) (fun date => Ok (Some date))))
        (parse_excel str_date)
    else if re_iso str_date then
      except_ValueError
        (let date_part := hd EmptyString (split " " str_date) in
         bind (unpack_ints (split "-" date_part)) (fun '(year, month, day) =>
         bind (datetime_new year month day) (fun date => Ok (Some date))))
        (parse_excel str_date)
    else parse_excel str_date.

(** *** [detect_delimiter] *)

Definition detect_delimiter (first_line : string) : string :=
  if is_substring "|" first_line then "|"
  else if is_substring ";" first_line then ";"
  else ",".

(** *** [_find_column] *)

Definition _find_column (columns possible_names : list string) : option string :=
  match find (fun col => in_list col possible_names) columns with
  | Some col => Some col
  | None =>
      find (fun col => existsb (fun name => is_substring name col) possible_names)
           columns
  end.

(** *** The loaded table *)

(** [df]: the column labels (upper-cased and stripped by [load_data]) and
    the data rows.  A row shorter than the header reads as [NaN] in the
    missing columns, as pandas fills it. *)
Record DataFrame : Type := mk_df {
  columns : list string;
  rows : list (list cell)
}.

(** A row as [iterrows] yields it: the cells labelled by the columns. *)
Definition Series : Type := list (string * cell).

Fixpoint label (cols : list string) (cells : list cell) : Series :=
  match cols with
  | [] => []
  | c :: cs => (c, hd NaN cells) :: label cs (tl cells)
  end.

Definition iterrows (df : DataFrame) : list Series :=
  map (label (columns df)) (rows df).

(** [row[c]] for a label [c] of the header; the labels of a loaded table
    are taken to be distinct, so the first cell under [c] is the cell. *)
Definition loc (row : Series) (c : string) : cell :=
  match Dict.get String.eqb c row with
  | Some v => v
  | None => NaN
  end.

(** [col_mapping] *)
Record ColMapping : Type := mk_cols {
  col_qt : option string;
  col_cod_prod : option string;
  col_descricao : option string;
  col_dt_val : option string;
  col_peso : option string;
  col_cod_fornec : option string;
  col_fornecedor : option string;
  col_cod_endereco : option string;
  col_deposito : option string;
  col_rua : option string;
  col_predio : option string;
  col_nivel : option string;
  col_apto : option string;
  col_status : option string;
  col_fator : option string;
  col_unidade : option string;
  col_capacidade : option string;
  col_qttotpal : option string;
  col_pesototal : option string;
  col_est : option string
}.

Definition names_qt := ["QT"; "QUANTIDADE"; "QUANTITY"; "QTD"].
Definition names_cod_prod := ["CODPROD"; "COD_PROD"; "PRODUTO"; "CODIGO"; "COD"].
Definition names_descricao := ["DESCRICAO"; "PRODUTO"; "NOME"; "DESCR"].
Definition names_dt_val := ["DTVAL"; "VALIDADE"; "VENCIMENTO"; "DATA"].
Definition names_peso := ["PESOLIQUN"; "PESO"; "PESO_LIQUIDO"].
Definition names_cod_fornec := ["CODFORNEC"; "FORNECEDOR_COD"; "COD_FORNECEDOR"].
Definition names_fornecedor := ["FORNECEDOR"; "FORNEC"; "FORNECEDOR_NOME"].
Definition names_cod_endereco := ["CODENDERECO"; "ENDERECO"; "LOCAL"].
Definition names_deposito := ["DEPOSITO"; "DEPOSITO_COD"].
Definition names_rua := ["RUA"; "RUA_COD"].
Definition names_predio := ["PREDIO"; "PREDIO_COD"].
Definition names_nivel := ["NIVEL"; "NIVEL_COD"].
Definition names_apto := ["APTO"; "APARTAMENTO"].
Definition names_status := ["STATUS"; "STATUS_PROD"].
Definition names_fator := ["FATOR"; "FATOR_EMB"].
Definition names_unidade := ["UNIDADE"; "UNID_MED"].
Definition names_capacidade := ["CAPACIDADE"; "CAPAC"].
Definition names_qttotpal := ["QTTOTPAL"; "TOTAL_PALETE"].
Definition names_pesototal := ["PESOTOTAL"; "PESO_TOTAL"].
Definition names_est := ["EST"; "ESTOQUE"; "LOTE"].

Definition find_columns (cols : list string) : ColMapping :=
  {| col_qt := _find_column cols names_qt;
     col_cod_prod := _find_column cols names_cod_prod;
     col_descricao := _find_column cols names_descricao;
     col_dt_val := _find_column cols names_dt_val;
     col_peso := _find_column cols names_peso;
     col_cod_fornec := _find_column cols names_cod_fornec;
     col_fornecedor := _find_column cols names_fornecedor;
     col_cod_endereco := _find_column cols names_cod_endereco;
     col_deposito := _find_column cols names_deposito;
     col_rua := _find_column cols names_rua;
     col_predio := _find_column cols names_predio;
     col_nivel := _find_column cols names_nivel;
     col_apto := _find_column cols names_apto;
     col_status := _find_column cols names_status;
     col_fator := _find_column cols names_fator;
     col_unidade := _find_column cols names_unidade;
     col_capacidade := _find_column cols names_capacidade;
     col_qttotpal := _find_column cols names_qttotpal;
     col_pesototal := _find_column cols names_pesototal;
     col_est := _find_column cols names_est |}.

(** The truth value of a mapped column: [None] and [''] are false. *)
Definition mapped (c : option string) : option string :=
  match c with
  | Some s => if String.eqb s "" then None else Some s
  | None => None
  end.

(** [row[col_mapping[f]] if col_mapping[f] else default] *)
Definition field (row : Series) (c : option string) (default : cell) : cell :=
  match mapped c with
  | Some s => loc row s
  | None => default
  end.

(** *** Aggregates *)

Inductive Criticidade : Type := vencido | alta | media | baixa.

(** [menor_dias_restantes] while rows are read: [float('inf')] or an int. *)
Inductive Dias : Type :=
| inf
| dias (n : Z).

Record Item : Type := mk_item {
  cod_endereco : cell;
  deposito : cell;
  rua : cell;
  predio : cell;
  nivel : cell;
  apto : cell;
  status : cell;
  quantidade : float;
  data_validade : datetime;
  dias_restantes : Z;
  fator : cell;
  unidade : cell;
  capacidade : cell;
  qttotpal : cell;
  pesototal : cell;
  est : cell
}.

(** The key ['%m/%Y'] of a month bucket, kept as (month, year). *)
Definition MesAno : Type := (Z * Z)%type.

Definition mes_ano_eqb (a b : MesAno) : bool :=
  (fst a =? fst b) && (snd a =? snd b).

Record Vencimento : Type := mk_venc {
  mes_ano : MesAno;
  venc_quantidade : float;
  venc_dias_restantes : Z
}.

(** A product while the rows are read. *)
Record Acumulado : Type := mk_acc {
  ac_cod_prod : string;
  ac_nome : cell;
  ac_fornecedor : cell;
  ac_cod_fornec : cell;
  ac_peso_liqun : cell;
  ac_vencimentos_por_mes : list (MesAno * Vencimento);
  ac_quantidade_total : float;
  ac_menor_dias_restantes : Dias;
  ac_quantidade_original : float;
  ac_itens_detalhados : list Item
}.

(** A product of the result. *)
Record Produto : Type := mk_prod {
  cod_prod : string;
  nome : cell;
  fornecedor : cell;
  cod_fornec : cell;
  peso_liqun : cell;
  vencimentos_por_mes : list Vencimento;
  quantidade_total : float;
  menor_dias_restantes : Z;
  quantidade_original : float;
  itens_detalhados : list Item;
  criticidade : Criticidade
}.

Record Estatisticas : Type := mk_est {
  total_linhas : nat;
  linhas_processadas : nat;
  linhas_ignoradas : nat;
  datas_invalidas : nat
}.

Record Resumo : Type := mk_resumo {
  total_produtos : nat;
  total_itens : float;
  produtos_vencendo_30_dias : nat;
  produtos_vencendo_60_dias : nat;
  produtos_vencidos : nat
}.

(** The state of the row loop. *)
Record Estado : Type := mk_estado {
  produtos : list (string * Acumulado);
  estatisticas_ : Estatisticas
}.

Definition ignorada (st : Estado) : Estado :=
  let e := estatisticas_ st in
  mk_estado (produtos st)
    (mk_est (total_linhas e) (linhas_processadas e) (S (linhas_ignoradas e))
            (datas_invalidas e)).

Definition data_invalida (st : Estado) : Estado :=
  let e := estatisticas_ st in
  mk_estado (produtos st)
    (mk_est (total_linhas e) (linhas_processadas e) (S (linhas_ignoradas e))
            (S (datas_invalidas e))).

(** [float(str(qt_str).replace(',', '.')) if qt_str else 0], [0] on
    [ValueError]. *)
Definition converter_quantidade (qt_str : cell) : float :=
  if truthy qt_str then
    match float_of_str (replace "," "." (str qt_str)) with
    | Some qt => qt
    | None => fzero
    end
  else fzero.

Definition dias_ltb (d : Z) (menor : Dias) : bool :=
  match menor with
  | inf => true
  | dias m => d <? m
  end.

Definition novo_produto (cm : ColMapping) (row : Series) (cod : string) (qt : float)
  : Acumulado :=
  {| ac_cod_prod := cod;
     ac_nome := field row (col_descricao cm) (Str ("Produto " ++ cod)%string);
     ac_fornecedor := field row (col_fornecedor cm) (Str "Sem fornecedor");
     ac_cod_fornec := field row (col_cod_fornec cm) (Str "");
     ac_peso_liqun := field row (col_peso cm) (Str "");
     ac_vencimentos_por_mes := [];
     ac_quantidade_total := fzero;
     ac_menor_dias_restantes := inf;
     ac_quantidade_original := qt;
     ac_itens_detalhados := [] |}.

Definition novo_item (cm : ColMapping) (row : Series) (qt : float)
  (dt_val : datetime) (dias_rest : Z) : Item :=
  {| cod_endereco := field row (col_cod_endereco cm) (Str "");
     deposito := field row (col_deposito cm) (Str "");
     rua := field row (col_rua cm) (Str "");
     predio := field row (col_predio cm) (Str "");
     nivel := field row (col_nivel cm) (Str "");
     apto := field row (col_apto cm) (Str "");
     status := field row (col_status cm) (Str "");
     quantidade := qt;
     data_validade := dt_val;
     dias_restantes := dias_rest;
     fator := field row (col_fator cm) (Str "");
     unidade := field row (col_unidade cm) (Str "");
     capacidade := field row (col_capacidade cm) (Str "");
     qttotpal := field row (col_qttotpal cm) (Str "");
     pesototal := field row (col_pesototal cm) (Str "");
     est := field row (col_est cm) (Str "") |}.

(** The month bucket of the item: created on first sight with this item's
    days, then its quantity grows. *)
Definition acumular_mes (key : MesAno) (qt : float) (dias_rest : Z)
  (vs : list (MesAno * Vencimento)) : list (MesAno * Vencimento) :=
  let v := match Dict.get mes_ano_eqb key vs with
           | Some v => v
           | None => mk_venc key fzero dias_rest
           end in
  Dict.set mes_ano_eqb key
    (mk_venc (mes_ano v) (fadd (venc_quantidade v) qt) (venc_dias_restantes v)) vs.

Definition acumular (p : Acumulado) (item : Item) : Acumulado :=
  let qt := quantidade item in
  let d := dias_restantes item in
  let dt := data_validade item in
  {| ac_cod_prod := ac_cod_prod p;
     ac_nome := ac_nome p;
     ac_fornecedor := ac_fornecedor p;
     ac_cod_fornec := ac_cod_fornec p;
     ac_peso_liqun := ac_peso_liqun p;
     ac_vencimentos_por_mes :=
       acumular_mes (month dt, year dt) qt d (ac_vencimentos_por_mes p);
     ac_quantidade_total := fadd (ac_quantidade_total p) qt;
     ac_menor_dias_restantes :=
       if dias_ltb d (ac_menor_dias_restantes p) then dias d
       else ac_menor_dias_restantes p;
     ac_quantidade_original := ac_quantidade_original p;
     ac_itens_detalhados := ac_itens_detalhados p ++ [item] |}.

(** The body of the row loop, with its [except Exception] handler.  The
    only call that can raise is [parse_date], before anything is stored. *)
Definition processar_linha (hoje : datetime) (cm : ColMapping)
  (c_cod c_dt : string) (st : Estado) (row : Series) : Estado :=
  let cod := loc row c_cod in
  let qt_str := field row (col_qt cm) (Str "0") in
  let data := loc row c_dt in
  if isna cod || String.eqb (strip (str cod)) "" then ignorada st
  else
    let qt := converter_quantidade qt_str in
    match parse_date data with
    | Raise _ => ignorada st
    | Ok None => data_invalida st
    | Ok (Some dt_val) =>
        let dias_rest := days_between dt_val hoje in
        let key := str cod in
        let p := match Dict.get String.eqb key (produtos st) with
                 | Some p => p
                 | None => novo_produto cm row key qt
                 end in
        let item := novo_item cm row qt dt_val dias_rest in
        let e := estatisticas_ st in
        mk_estado (Dict.set String.eqb key (acumular p item) (produtos st))
          (mk_est (total_linhas e) (S (linhas_processadas e)) (linhas_ignoradas e)
                  (datas_invalidas e))
    end.

Definition estado_inicial (df : DataFrame) : Estado :=
  mk_estado [] (mk_est (List.length (rows df)) 0 0 0).

(** [for idx, row in df.iterrows(): ...] *)
Definition processar_linhas (hoje : datetime) (cm : ColMapping)
  (c_cod c_dt : string) (df : DataFrame) : Estado :=
  fold_left (processar_linha hoje cm c_cod c_dt) (iterrows df) (estado_inicial df).

(** *** Classification and ordering *)

Definition menor_ltb (m : Dias) (n : Z) : bool :=
  match m with inf => false | dias d => d <? n end.

Definition menor_leb (m : Dias) (n : Z) : bool :=
  match m with inf => false | dias d => d <=? n end.

(** The tier chosen by the [if]/[elif] chain of the classifier. *)
Definition calcular_criticidade (menor : Dias) : Criticidade :=
  if menor_ltb menor 0 then vencido
  else if menor_leb menor 30 then alta
  else if menor_leb menor 60 then media
  else baixa.

Definition item_le (a b : Item) : bool := dias_restantes a <=? dias_restantes b.

Definition venc_le (a b : Vencimento) : bool :=
  venc_dias_restantes a <=? venc_dias_restantes b.

(** What the classifier leaves in the product's dictionary. *)
Definition finalizar (p : Acumulado) : Produto :=
  {| cod_prod := ac_cod_prod p;
     nome := ac_nome p;
     fornecedor := ac_fornecedor p;
     cod_fornec := ac_cod_fornec p;
     peso_liqun := ac_peso_liqun p;
     vencimentos_por_mes :=
       Sort.sort venc_le (Dict.values (ac_vencimentos_por_mes p));
     quantidade_total := ac_quantidade_total p;
     menor_dias_restantes :=
       match ac_menor_dias_restantes p with
       | inf => 999
       | dias n => n
       end;
     quantidade_original := ac_quantidade_original p;
     itens_detalhados := Sort.sort item_le (ac_itens_detalhados p);
     criticidade := calcular_criticidade (ac_menor_dias_restantes p) |}.

Definition resumo_inicial : Resumo := mk_resumo 0 fzero 0 0 0.

(** One turn of [for produto in produtos.values()]. *)
Definition classificar (acc : list Produto * Resumo) (p : Acumulado)
  : list Produto * Resumo :=
  let '(lista, r) := acc in
  let c := calcular_criticidade (ac_menor_dias_restantes p) in
  let r1 :=
    match c with
    | vencido =>
        mk_resumo (total_produtos r) (total_itens r) (produtos_vencendo_30_dias r)
                  (produtos_vencendo_60_dias r) (S (produtos_vencidos r))
    | alta =>
        mk_resumo (total_produtos r) (total_itens r) (S (produtos_vencendo_30_dias r))
                  (produtos_vencendo_60_dias r) (produtos_vencidos r)
    | media =>
        mk_resumo (total_produtos r) (total_itens r) (produtos_vencendo_30_dias r)
                  (S (produtos_vencendo_60_dias r)) (produtos_vencidos r)
    | baixa => r
    end in
  (lista ++ [finalizar p],
   mk_resumo (total_produtos r1) (fadd (total_itens r1) (fabs (ac_quantidade_total p)))
             (produtos_vencendo_30_dias r1) (produtos_vencendo_60_dias r1)
             (produtos_vencidos r1)).

Definition classificar_todos (ps : list Acumulado) : list Produto * Resumo :=
  let '(lista, r) := fold_left classificar ps ([], resumo_inicial) in
  (lista,
   mk_resumo (List.length lista) (total_itens r) (produtos_vencendo_30_dias r)
             (produtos_vencendo_60_dias r) (produtos_vencidos r)).

(** First component of the sort key of the product list. *)
Definition ordem (menor : Z) : Z :=
  if menor <? 0 then 0 else if menor <=? 30 then 1 else if menor <=? 60 then 2 else 3.

(** Comparison of the key tuples [(ordem, menor_dias_restantes)]. *)
Definition chave_le (a b : Produto) : bool :=
  let ka := ordem (menor_dias_restantes a) in
  let kb := ordem (menor_dias_restantes b) in
  (ka <? kb) || ((ka =? kb) && (menor_dias_restantes a <=? menor_dias_restantes b)).

Definition ordenar (ps : list Produto) : list Produto := Sort.sort chave_le ps.

(** *** [_extrair_filtros] *)

Record Filtros : Type := mk_filtros {
  fornecedores : list cell;
  cods_fornecedor : list string;
  pesos_liquidos : list string;
  cods_produto : list string
}.

(** [s.add(x)] on a set kept as a duplicate-free list.  All missing cells
    are the one [nan] object, so [NaN] is added once. *)
Definition set_add {A : Type} (eqb : A -> A -> bool) (x : A) (s : list A) : list A :=
  if existsb (eqb x) s then s else s ++ [x].

Definition cell_le (a b : cell) : bool :=
  match a, b with
  | Str s, Str t => String.leb s t
  | _, _ => true
  end.

(** [sorted(list(s))] on a set of cells: comparing the float [nan] with a
    string is a [TypeError]. *)
Definition sorted_cells (s : list cell) : result (list cell) :=
  if existsb isna s && existsb (fun c => negb (isna c)) s then Raise TypeError
  else Ok (Sort.sort cell_le s).

(** [sorted(list(s))] on a set of strings. *)
Definition sorted_strings (s : list string) : list string := Sort.sort String.leb s.

Definition coletar_fornecedores (ps : list Produto) : list cell :=
  fold_left (fun s p =>
    if truthy (fornecedor p) then set_add cell_eqb (fornecedor p) s else s) ps [].

Definition coletar_str (f : Produto -> cell) (ps : list Produto) : list string :=
  fold_left (fun s p =>
    if truthy (f p) then set_add String.eqb (str (f p)) s else s) ps [].

Definition _extrair_filtros (ps : list Produto) : result Filtros :=
  let s_fornecedores := coletar_fornecedores ps in
  let s_cods_fornecedor := coletar_str cod_fornec ps in
  let s_pesos_liquidos := coletar_str peso_liqun ps in
  let s_cods_produto := coletar_str (fun p => Str (cod_prod p)) ps in
  bind (sorted_cells s_fornecedores) (fun l =>
  Ok {| fornecedores := l;
        cods_fornecedor := sorted_strings s_cods_fornecedor;
        pesos_liquidos := sorted_strings s_pesos_liquidos;
        cods_produto := sorted_strings s_cods_produto |}).

(** *** [_gerar_recomendacoes] *)

Definition criticidade_eqb (a b : Criticidade) : bool :=
  match a, b with
  | vencido, vencido | alta, alta | media, media | baixa, baixa => true
  | _, _ => false
  end.

(** [str(n)] for a length. *)
Definition str_nat (n : nat) : string := NilEmpty.string_of_uint (Nat.to_uint n).

Definition msg_vencidos (n : nat) : string :=
  ("⚠️ " ++ str_nat n ++ " produtos já vencidos - necessário descarte imediato")%string.

Definition msg_criticos (n : nat) : string :=
  ("🔴 " ++ str_nat n ++ " produtos vencem em até 30 dias - priorizar venda/uso")%string.

Definition msg_medios (n : nat) : string :=
  ("🟡 " ++ str_nat n ++ " produtos vencem em 31-60 dias - atenção necessária")%string.

Definition msg_grandes (n : nat) : string :=
  ("📦 " ++ str_nat n
   ++ " produtos com grandes quantidades próximas do vencimento - considerar promoções")%string.

Definition msg_controle : string :=
  "✅ Situação sob controle - estoque com boa validade".

Definition e_vencido (p : Produto) : bool := menor_dias_restantes p <? 0.
Definition e_critico (p : Produto) : bool := criticidade_eqb (criticidade p) alta.
Definition e_medio (p : Produto) : bool := criticidade_eqb (criticidade p) media.
Definition e_grande (p : Produto) : bool :=
  fgt (quantidade_total p) 100 && negb (criticidade_eqb (criticidade p) baixa).

(** [if xs: recomendacoes.append(msg(len(xs)))] *)
Definition recomendar (xs : list Produto) (msg : nat -> string)
  (recomendacoes : list string) : list string :=
  match xs with
  | [] => recomendacoes
  | _ => recomendacoes ++ [msg (List.length xs)]
  end.

Definition _gerar_recomendacoes (ps : list Produto) : list string :=
  let vencidos := filter e_vencido ps in
  let criticos := filter e_critico ps in
  let medios := filter e_medio ps in
  let grandes_quantidades := filter e_grande ps in
  let r := recomendar vencidos msg_vencidos [] in
  let r := recomendar criticos msg_criticos r in
  let r := recomendar medios msg_medios r in
  let r := recomendar grandes_quantidades msg_grandes r in
  match r with
  | [] => [msg_controle]
  | _ => r
  end.

(** *** [process_data] *)

Record Analise : Type := mk_analise {
  resumo : Resumo;
  produtos_criticos : list Produto;
  filtros : Filtros;
  recomendacoes : list string;
  estatisticas : Estatisticas;
  colunas_mapeadas : ColMapping
}.

Definition erro_dtval : exn := ValueError "Coluna DTVAL não encontrada no arquivo".
Definition erro_codprod : exn := ValueError "Coluna CODPROD não encontrada no arquivo".

(** The sorted product list and the summary, once the columns are known. *)
Definition agregar (hoje : datetime) (cm : ColMapping) (c_cod c_dt : string)
  (df : DataFrame) : list Produto * Resumo * Estatisticas :=
  let st := processar_linhas hoje cm c_cod c_dt df in
  let '(lista, r) := classificar_todos (Dict.values (produtos st)) in
  (ordenar lista, r, estatisticas_ st).

(** [hoje] is [self.hoje], the reference day at midnight. *)
Definition process_data (hoje : datetime) (df : DataFrame) : result Analise :=
  let cm := find_columns (columns df) in
  match mapped (col_dt_val cm) with
  | None => Raise erro_dtval
  | Some c_dt =>
      match mapped (col_cod_prod cm) with
      | None => Raise erro_codprod
      | Some c_cod =>
          let '(lista, r, e) := agregar hoje cm c_cod c_dt df in
          bind (_extrair_filtros lista) (fun f =>
          Ok {| resumo := r;
                produtos_criticos := lista;
                filtros := f;
                recomendacoes := _gerar_recomendacoes lista;
                estatisticas := e;
                colunas_mapeadas := cm |})
      end
  end.

End WMSDataProcessor.


(** ** Vocabulary of the specification *)

Module Spec.
Import Py Datetime WMSDataProcessor.

(** [name] occurs in [col]. *)
Definition occurs (name col : string) : Prop :=
  exists pre post, col = (pre ++ name ++ post)%string.

(** [h] is the first element of [cols] that satisfies [P]. *)
Definition first_such (P : string -> Prop) (cols : list string) (h : string) : Prop :=
  exists before after,
    cols = before ++ h :: after /\ P h /\ forall x, In x before -> ~ P x.

(** The header [col] equals one of the candidates. *)
Definition exact_match (names : list string) (col : string) : Prop := In col names.

(** The header [col] contains one of the candidates. *)
Definition partial_match (names : list string) (col : string) : Prop :=
  exists name, In name names /\ occurs name col.

(** The boundary rules of the classifier on an integer number of days. *)
Definition tier (menor : Z) : Criticidade :=
  if menor <? 0 then vencido
  else if menor <=? 30 then alta
  else if menor <=? 60 then media
  else baixa.

(** Rank of a tier in the ordering of the product list. *)
Definition rank (c : Criticidade) : Z :=
  match c with vencido => 0 | alta => 1 | media => 2 | baixa => 3 end.

(** Number of products of a tier. *)
Definition count_tier (c : Criticidade) (ps : list Produto) : nat :=
  List.length (filter (fun p => criticidade_eqb (criticidade p) c) ps).

(** The tier of the product is the one its minimum days-remaining gives. *)
Definition classified (p : Produto) : Prop :=
  criticidade p = tier (menor_dias_restantes p).

(** Order of two adjacent products of the result. *)
Definition in_order (p q : Produto) : Prop :=
  rank (criticidade p) <= rank (criticidade q)
  /\ (rank (criticidade p) = rank (criticidade q) ->
      menor_dias_restantes p <= menor_dias_restantes q).

(** Row statistics that add up. *)
Definition conserved (e : Estatisticas) : Prop :=
  total_linhas e = (linhas_processadas e + linhas_ignoradas e)%nat
  /\ (datas_invalidas e <= linhas_ignoradas e)%nat.

(** The quantity of a row as the specification words it: the decimal comma
    of the raw value becomes a point, the text is parsed as a float, and a
    failed parse gives 0. *)
Definition quantity_of (raw : cell) : float :=
  match float_of_str (replace "," "." (str raw)) with
  | Some q => q
  | None => fzero
  end.



(** [m] is the least element of [l]. *)
Definition is_minimum (m : Z) (l : list Z) : Prop :=
  In m l /\ forall x, In x l -> m <= x.

(** The minimum kept while rows are read, over the days of the items. *)
Definition menor_de (l : list Z) : Dias :=
  fold_left (fun m d => if dias_ltb d m then dias d else m) l inf.

(** Total and minimum of an aggregate agree with its line items. *)
Definition consistent (p : Acumulado) : Prop :=
  ac_quantidade_total p = fsum (map quantidade (ac_itens_detalhados p))
  /\ ac_menor_dias_restantes p = menor_de (map dias_restantes (ac_itens_detalhados p)).

(** Every aggregate of the loop state has line items that account for it. *)
Definition estado_ok (st : Estado) : Prop :=
  forall k p, In (k, p) (produtos st) -> consistent p /\ ac_itens_detalhados p <> [].

(** A float in lowest terms, as every operation of the model returns it. *)
Definition normal (x : float) : Prop :=
  match x with
  | FFin q => Qred q = q
  | _ => True
  end.

(** None of the four advisory rules applies: no expired, high or medium
    product, and no product above 100 units outside the low tier. *)
Definition no_rule_fires (ps : list Produto) : Prop :=
  forall p, In p ps ->
    criticidade p <> vencido /\ criticidade p <> alta /\ criticidade p <> media
    /\ ~ (fgt (quantidade_total p) 100 = true /\ criticidade p <> baixa).


End Spec.

(** ** Sample inputs *)

Module Exemplos.
Import Py Datetime WMSDataProcessor.

Definition hoje_ex : datetime := mk_datetime 2024 1 1 0.

(** Two rows of product [A] (the second with a malformed quantity), an
    expired product [B], a row without product code and a row without a
    readable date. *)
Definition df_ex : DataFrame :=
  mk_df ["CODPROD"; "DESCRICAO"; "DTVAL"; "QT"]
    [[Str "A"; Str "Leite"; Str "31/01/2024"; Str "1,5"];
     [Str "A"; Str "Leite"; Str "15/03/2024"; Str "abc"];
     [Str "B"; Str "Queijo"; Str "01/12/2023"; Str "200"];
     [NaN; Str "Sem codigo"; Str "01/02/2024"; Str "3"];
     [Str "C"; Str "Iogurte"; Str "amanha"; Str "7"]].

Definition cols_ex : list string := ["CODPROD"; "DESCRICAO"; "DTVAL"; "QT"].



(** One product whose supplier cell is empty in the file. *)
Definition df_sem_fornecedor : DataFrame :=
  mk_df ["CODPROD"; "DTVAL"; "FORNECEDOR"]
    [[Str "A"; Str "01/03/2024"; NaN]].

(** The same, next to a product with a supplier name. *)
Definition df_fornecedor_misto : DataFrame :=
  mk_df ["CODPROD"; "DTVAL"; "FORNECEDOR"]
    [[Str "A"; Str "01/03/2024"; NaN];
     [Str "B"; Str "01/03/2024"; Str "ACME"]].

End Exemplos.

(** ** Vocabulary of the further properties *)

Module Invariantes.
Import Py Datetime WMSDataProcessor Spec.

(** Number of line items held by the aggregates of the loop state. *)
Definition conta_itens (d : list (string * Acumulado)) : nat :=
  list_sum (map (fun kv => List.length (ac_itens_detalhados (snd kv))) d).

(** Number of line items of a list of products. *)
Definition conta_itens_produtos (ps : list Produto) : nat :=
  list_sum (map (fun p => List.length (itens_detalhados p)) ps).

(** The month bucket a line item falls in. *)
Definition mes_do_item (i : Item) : MesAno :=
  (month (data_validade i), year (data_validade i)).

(** The row has a product code and a date that parses: the loop turns it
    into a line item. *)
Definition processavel (c_cod c_dt : string) (row : Series) : bool :=
  negb (isna (loc row c_cod) || String.eqb (strip (str (loc row c_cod))) "")
  && match parse_date (loc row c_dt) with
     | Ok (Some _) => true
     | _ => false
     end.

(** The keys of the product dictionary are distinct, non-blank, and each
    aggregate carries its key as product code. *)
Definition chaves_ok (d : list (string * Acumulado)) : Prop :=
  NoDup (map fst d)
  /\ forall k p, In (k, p) d -> ac_cod_prod p = k /\ strip k <> "".

(** The month buckets of an aggregate: one per month of its items, keyed by
    that month, their quantities adding up to the total. *)
Definition meses_ok (p : Acumulado) : Prop :=
  NoDup (map fst (ac_vencimentos_por_mes p))
  /\ (forall k v, In (k, v) (ac_vencimentos_por_mes p) -> mes_ano v = k)
  /\ (forall k, In k (map fst (ac_vencimentos_por_mes p))
                <-> In k (map mes_do_item (ac_itens_detalhados p)))
  /\ fsum (map venc_quantidade (Dict.values (ac_vencimentos_por_mes p)))
     = ac_quantidade_total p
  /\ Forall (fun i => normal (quantidade i)) (ac_itens_detalhados p).

(** [fromordinal] gives a date of the calendar on the [fuel] day numbers
    from [n]. *)
Fixpoint check_valid_ordinals (fuel : nat) (n : Z) : bool :=
  match fuel with
  | O => true
  | S f =>
      (let '(y, m, d) := ord2ymd n in valid_date y m d) && check_valid_ordinals f (n + 1)
  end.

(** The date held by a [datetime] exists in the calendar and its time of
    day is within the day. *)
Definition well_formed (d : datetime) : Prop :=
  valid_date (year d) (month d) (day d) = true /\ 0 <= micro d < US_PER_DAY.

(** The message of a rule that selected [n] products. *)
Definition msg_se (n : nat) (msg : nat -> string) : list string :=
  match n with
  | O => []
  | S _ => [msg n]
  end.

(** The line item carries a date of the calendar and the whole days from
    the reference date to it. *)
Definition item_ok (hoje : datetime) (i : Item) : Prop :=
  well_formed (data_validade i)
  /\ dias_restantes i = days_between (data_validade i) hoje.

End Invariantes.

(** ** The interface, [app.py] *)

Module WMSAnalyzerApp.
Import Py Datetime WMSDataProcessor.

(** *** Python slices and [strftime] *)

(** A bound of [l[a:b]] brought into [0 .. len(l)]: a negative bound counts
    from the end. *)
Definition slice_index (len i : Z) : Z :=
  if i <? 0 then Z.max (i + len) 0 else Z.min i len.

(** [l[a:b]] *)
Definition slice {A : Type} (a b : Z) (l : list A) : list A :=
  let len := Z.of_nat (List.length l) in
  let lo := slice_index len a in
  let hi := slice_index len b in
  firstn (Z.to_nat (hi - lo)) (skipn (Z.to_nat lo) l).

(** [str(n)] for a non-negative integer. *)
Definition str_Z (n : Z) : string := NilEmpty.string_of_uint (N.to_uint (Z.to_N n)).

(** The field [%d] or [%m]: two digits, zero-padded. *)
Definition pad2 (n : Z) : string :=
  if (String.length (str_Z n) <? 2)%nat then ("0" ++ str_Z n)%string else str_Z n.

(** [d.strftime('%d/%m/%Y')]; the C library writes the year without
    padding. *)
Definition strftime_dmY (d : datetime) : string :=
  (pad2 (day d) ++ "/" ++ pad2 (month d) ++ "/" ++ str_Z (year d))%string.

(** *** [display_results]: the page of products shown *)

Definition page_size : Z := 10.

Definition total_pages {A : Type} (filtered_products : list A) : Z :=
  (Z.of_nat (List.length filtered_products) + page_size - 1) / page_size.

(** The products shown on page [page]; the page number is asked for only
    when there is more than one page. *)
Definition products_to_show {A : Type} (page : Z) (filtered_products : list A) : list A :=
  if 1 <? total_pages filtered_products then
    let start_idx := (page - 1) * page_size in
    let end_idx := Z.min (start_idx + page_size) (Z.of_nat (List.length filtered_products)) in
    slice start_idx end_idx filtered_products
  else filtered_products.

(** *** [display_filters]: the filter loop *)

(** The options of the select box "Dias Restantes": none, "Vencidos (<0)",
    "Críticos (0-30)", "Atenção (31-60)" and "Normais (>60)". *)
Inductive DiasFilter : Type :=
  | sem_filtro_dias
  | vencidos_lt_0
  | criticos_0_30
  | atencao_31_60
  | normais_gt_60.

(** [x not in s] with a string [s]: a float on the left is a [TypeError]. *)
Definition not_in (x : cell) (s : string) : result bool :=
  match x with
  | NaN => Raise TypeError
  | Str t => Ok (negb (is_substring t s))
  end.

(** The test of the chain under [if dias_filter:] that ends in
    [continue]. *)
Definition fora_da_faixa (dias_filter : DiasFilter) (menor : Z) : bool :=
  match dias_filter with
  | sem_filtro_dias => false
  | vencidos_lt_0 => menor >=? 0
  | criticos_0_30 => (menor <? 0) || (menor >? 30)
  | atencao_31_60 => (menor <=? 30) || (menor >? 60)
  | normais_gt_60 => menor <=? 60
  end.

(** One turn of the loop: [Ok true] when the product is appended, [Ok false]
    when a test ends in [continue].  The criticality filter is one of the
    four tier names or the empty option. *)
Definition mantido (fornecedor_filter : cell) (cod_prod_filter : string)
  (criticidade_filter : option Criticidade) (dias_filter : DiasFilter)
  (produto : Produto) : result bool :=
  bind (if truthy fornecedor_filter
        then not_in fornecedor_filter (str (fornecedor produto))
        else Ok false) (fun fora =>
  if fora then Ok false
  else if truthy (Str cod_prod_filter)
          && negb (is_substring cod_prod_filter (cod_prod produto)) then Ok false
  else if match criticidade_filter with
          | Some c => negb (criticidade_eqb (criticidade produto) c)
          | None => false
          end then Ok false
  else if fora_da_faixa dias_filter (menor_dias_restantes produto) then Ok false
  else Ok true).

Fixpoint aplicar_filtros (fornecedor_filter : cell) (cod_prod_filter : string)
  (criticidade_filter : option Criticidade) (dias_filter : DiasFilter)
  (produtos : list Produto) : result (list Produto) :=
  match produtos with
  | [] => Ok []
  | produto :: resto =>
      bind (mantido fornecedor_filter cod_prod_filter criticidade_filter dias_filter
              produto) (fun m =>
      bind (aplicar_filtros fornecedor_filter cod_prod_filter criticidade_filter
              dias_filter resto) (fun filtered =>
      Ok (if m then produto :: filtered else filtered)))
  end.

(** *** [display_product_details]: the figures of one product *)

(** [min(...)] and [max(...)] over the days of the items; an empty
    sequence is a [ValueError]. *)
Definition dias_min (itens : list Item) : result Z :=
  match map dias_restantes itens with
  | [] => Raise (ValueError "min() arg is an empty sequence")
  | d :: r => Ok (fold_left Z.min r d)
  end.

Definition dias_max (itens : list Item) : result Z :=
  match map dias_restantes itens with
  | [] => Raise (ValueError "max() arg is an empty sequence")
  | d :: r => Ok (fold_left Z.max r d)
  end.

(** The items listed: all of them, or the first twenty. *)
Definition items_to_show (mostrar_todos : bool) (itens : list Item) : list Item :=
  if mostrar_todos then itens else slice 0 20 itens.

(** [sum(1 for item in itens if item['quantidade'] > 0)] *)
Definition quantidade_positiva (itens : list Item) : nat :=
  List.length (filter (fun item => fgt (quantidade item) 0) itens).

End WMSAnalyzerApp.

(** ** The workbook, [excel_exporter.py] *)

Module ExcelExporter.
Import Py Datetime WMSDataProcessor WMSAnalyzerApp.


(** A row of the sheet "Produtos Críticos". *)
Record LinhaCritica : Type := mk_linha_critica {
  lc_codigo : string;
  lc_produto : cell;
  lc_fornecedor : cell;
  lc_cod_fornecedor : cell;
  lc_endereco : cell;
  lc_deposito : cell;
  lc_rua : cell;
  lc_predio : cell;
  lc_nivel : cell;
  lc_apto : cell;
  lc_status : cell;
  lc_quantidade : float;
  lc_data_validade : string;
  lc_dias_restantes : Z;
  lc_fator : cell;
  lc_unidade : cell;
  lc_peso_liquido : cell;
  lc_criticidade : Criticidade
}.


Definition linha_critica (produto : Produto) (item : Item) : LinhaCritica :=
  {| lc_codigo := cod_prod produto;
     lc_produto := nome produto;
     lc_fornecedor := fornecedor produto;
     lc_cod_fornecedor := cod_fornec produto;
     lc_endereco := cod_endereco item;
     lc_deposito := deposito item;
     lc_rua := rua item;
     lc_predio := predio item;
     lc_nivel := nivel item;
     lc_apto := apto item;
     lc_status := status item;
     lc_quantidade := quantidade item;
     lc_data_validade := strftime_dmY (data_validade item);
     lc_dias_restantes := dias_restantes item;
     lc_fator := fator item;
     lc_unidade := unidade item;
     lc_peso_liquido := peso_liqun produto;
     lc_criticidade := criticidade produto |}.


(** [produto['criticidade'] in ['vencido', 'alta']] *)
Definition e_critica (c : Criticidade) : bool :=
  criticidade_eqb c vencido || criticidade_eqb c alta.

(** The rows gathered by [_create_critical_products_sheet]: one per line
    item of the expired and high-tier products. *)
Definition dados_criticos (produtos : list Produto) : list LinhaCritica :=
  flat_map (fun produto =>
              if e_critica (criticidade produto)
              then map (linha_critica produto) (itens_detalhados produto)
              else [])
           produtos.

(** A sheet is written only [if data]. *)
Definition planilha {A : Type} (data : list A) : option (list A) :=
  match data with
  | [] => None
  | _ => Some data
  end.

End ExcelExporter.

(** ** Vocabulary for the interface and the workbook *)

Module InvariantesApp.
Import Py Datetime WMSDataProcessor WMSAnalyzerApp ExcelExporter.

(** The days-remaining option that names the range of a tier. *)
Definition faixa (c : Criticidade) : DiasFilter :=
  match c with
  | vencido => vencidos_lt_0
  | alta => criticos_0_30
  | media => atencao_31_60
  | baixa => normais_gt_60
  end.

(** The page numbers the number input offers. *)
Definition paginas {A : Type} (l : list A) : list Z :=
  map Z.of_nat (seq 1 (Z.to_nat (total_pages l))).

(** [fmt] writes each of the [fuel] numbers from [n] with [lo] to [hi]
    digits that read back as the number. *)
Fixpoint check_digits (fmt : Z -> string) (lo hi : nat) (fuel : nat) (n : Z) : bool :=
  match fuel with
  | O => true
  | S f =>
      digits_len lo hi (fmt n) && (digits_value (fmt n) =? n)
      && check_digits fmt lo hi f (n + 1)
  end.


(** The product passes the four tests of the filter loop, the supplier
    filter being a string. *)
Definition selecionado (fornecedor_filter cod_prod_filter : string)
  (criticidade_filter : option Criticidade) (dias_filter : DiasFilter)
  (p : Produto) : bool :=
  (String.eqb fornecedor_filter "" || is_substring fornecedor_filter (str (fornecedor p)))
  && (String.eqb cod_prod_filter "" || is_substring cod_prod_filter (cod_prod p))
  && match criticidade_filter with
     | Some c => criticidade_eqb (criticidade p) c
     | None => true
     end
  && negb (fora_da_faixa dias_filter (menor_dias_restantes p)).

End InvariantesApp.

(** * Properties *)

Import Py Datetime WMSDataProcessor Spec Exemplos.

(** ** Stable sorting *)

Section SortFacts.
Context {A : Type}.
Variable le : A -> A -> bool.
Hypothesis le_total : forall a b, le a b = true \/ le b a = true.

Lemma insert_perm (x : A) (l : list A) : Permutation (x :: l) (Sort.insert le x l).
Proof using Type.
  induction l as [|y r IH]; simpl.
  - apply Permutation_refl.
  - destruct (le x y).
    + apply Permutation_refl.
    + apply perm_trans with (y :: x :: r).
      * apply perm_swap.
      * apply perm_skip, IH.
Qed.

Lemma sort_perm (l : list A) : Permutation l (Sort.sort le l).
Proof using Type.
  induction l as [|x r IH]; simpl.
  - apply perm_nil.
  - apply perm_trans with (x :: Sort.sort le r).
    + apply perm_skip, IH.
    + apply insert_perm.
Qed.

Lemma insert_hdrel (a x : A) (l : list A) :
  le a x = true ->
  HdRel (fun a b => le a b = true) a l ->
  HdRel (fun a b => le a b = true) a (Sort.insert le x l).
Proof using Type.
  intros Hax Hal. destruct l as [|y r]; simpl.
  - constructor. exact Hax.
  - destruct (le x y).
    + constructor. exact Hax.
    + constructor. inversion Hal; assumption.
Qed.

Lemma insert_sorted (x : A) (l : list A) :
  Sorted (fun a b => le a b = true) l ->
  Sorted (fun a b => le a b = true) (Sort.insert le x l).
Proof using le_total.
  induction 1 as [|y r Hs IH Hhd]; simpl.
  - repeat constructor.
  - destruct (le x y) eqn:Hxy.
    + constructor.
      * constructor; assumption.
      * constructor. exact Hxy.
    + constructor.
      * exact IH.
      * apply insert_hdrel; [|exact Hhd].
        destruct (le_total x y) as [H|H]; [congruence|exact H].
Qed.

Lemma sort_sorted (l : list A) : Sorted (fun a b => le a b = true) (Sort.sort le l).
Proof using le_total.
  induction l as [|x r IH]; simpl.
  - constructor.
  - apply insert_sorted, IH.
Qed.
End SortFacts.

Lemma sort_length {A : Type} (le : A -> A -> bool) (l : list A) :
  List.length (Sort.sort le l) = List.length l.
Proof.
  symmetry. apply Permutation_length, sort_perm.
Qed.

Lemma sort_in {A : Type} (le : A -> A -> bool) (l : list A) (x : A) :
  In x (Sort.sort le l) <-> In x l.
Proof.
  split; intro H.
  - eapply Permutation_in; [apply Permutation_sym, sort_perm | exact H].
  - eapply Permutation_in; [apply sort_perm | exact H].
Qed.

Lemma sort_nil_inv {A : Type} (le : A -> A -> bool) (l : list A) :
  Sort.sort le l = [] -> l = [].
Proof.
  intro H. apply (f_equal (@List.length A)) in H.
  rewrite sort_length in H. destruct l; [reflexivity | discriminate].
Qed.

(** ** Strings *)

Lemma prefix_spec (p s : string) :
  String.prefix p s = true <-> exists post, s = (p ++ post)%string.
Proof.
  revert s. induction p as [|c p IH]; intro s.
  - split; [intros _; exists s; reflexivity | intros _; destruct s; reflexivity].
  - destruct s as [|d s]; simpl.
    + split; [discriminate | intros [post H]; discriminate].
    + destruct (Ascii.ascii_dec c d) as [->|Hne].
      * rewrite IH. split; intros [post H]; exists post.
        -- now rewrite H.
        -- now inversion H.
      * split; [discriminate | intros [post H]; inversion H; congruence].
Qed.

Lemma is_substring_cons (name : string) (c : ascii) (col : string) :
  is_substring name (String c col)
  = String.prefix name (String c col) || is_substring name col.
Proof. reflexivity. Qed.

Lemma is_substring_spec (name col : string) :
  is_substring name col = true <-> occurs name col.
Proof.
  induction col as [|c col IH].
  - destruct name as [|a name]; simpl.
    + split; [intros _; exists EmptyString, EmptyString; reflexivity | reflexivity].
    + split; [discriminate|]. intros [pre [post H]]. destruct pre; discriminate.
  - rewrite is_substring_cons, orb_true_iff, IH, prefix_spec. split.
    + intros [[post H] | [pre [post H]]].
      * exists EmptyString, post. exact H.
      * exists (String c pre), post. simpl. now rewrite H.
    + intros [pre [post H]]. destruct pre as [|d pre]; simpl in H.
      * left. exists post. exact H.
      * right. inversion H. exists pre, post. reflexivity.
Qed.

Lemma in_list_spec (x : string) (names : list string) :
  in_list x names = true <-> In x names.
Proof.
  unfold in_list. rewrite existsb_exists. split.
  - intros [y [Hin Heq]]. apply String.eqb_eq in Heq. now subst.
  - intro Hin. exists x. split; [exact Hin | apply String.eqb_refl].
Qed.

(** ** Column resolution *)

Lemma find_first_such (f : string -> bool) (P : string -> Prop) (cols : list string)
  (h : string) :
  (forall x, f x = true <-> P x) ->
  (find f cols = Some h <-> first_such P cols h).
Proof.
  intro HfP.
  assert (Hneg : forall x, f x = false <-> ~ P x).
  { intro x. rewrite <- HfP. destruct (f x); split; congruence. }
  unfold first_such. induction cols as [|c cols IH]; simpl.
  - split; [discriminate | intros [b [a [H _]]]; destruct b; discriminate].
  - destruct (f c) eqn:Hc.
    + split.
      * intros [= ->]. exists [], cols. repeat split; [now apply HfP | intros x []].
      * intros [b [a [Heq [Hh Hb]]]]. destruct b as [|b0 b]; simpl in Heq.
        -- now inversion Heq.
        -- inversion Heq; subst. exfalso. apply (Hb b0 (or_introl eq_refl)).
           now apply HfP.
    + rewrite IH. split.
      * intros [b [a [Heq [Hh Hb]]]]. exists (c :: b), a. subst. repeat split.
        -- exact Hh.
        -- intros x [<-|Hx]; [now apply Hneg | apply Hb, Hx].
      * intros [b [a [Heq [Hh Hb]]]]. destruct b as [|b0 b]; simpl in Heq.
        -- inversion Heq; subst. apply HfP in Hh. congruence.
        -- inversion Heq; subst. exists b, a. repeat split; [exact Hh|].
           intros x Hx. apply Hb. right. exact Hx.
Qed.

Lemma find_none_iff (f : string -> bool) (P : string -> Prop) (cols : list string) :
  (forall x, f x = true <-> P x) ->
  (find f cols = None <-> forall x, In x cols -> ~ P x).
Proof.
  intro HfP. split.
  - intros H x Hx HP. apply HfP in HP.
    rewrite (find_none f cols H x Hx) in HP. discriminate.
  - intro H. induction cols as [|c cols IH]; simpl; [reflexivity|].
    destruct (f c) eqn:Hc.
    + exfalso. apply (H c (or_introl eq_refl)). now apply HfP.
    + apply IH. intros x Hx. apply H. now right.
Qed.

Lemma exact_match_spec (names : list string) (col : string) :
  in_list col names = true <-> exact_match names col.
Proof. apply in_list_spec. Qed.

Lemma partial_match_spec (names : list string) (col : string) :
  existsb (fun name => is_substring name col) names = true <-> partial_match names col.
Proof.
  unfold partial_match. rewrite existsb_exists.
  split; intros [n [Hin H]]; exists n; (split; [exact Hin|]); now apply is_substring_spec.
Qed.

Lemma first_such_unique (P : string -> Prop) (cols : list string) (h h' : string) :
  first_such P cols h -> first_such P cols h' -> h = h'.
Proof.
  intros [b [a [Heq [Hh Hb]]]] [b' [a' [Heq' [Hh' Hb']]]].
  subst cols. revert b' Heq' Hb'.
  induction b as [|x b IH]; intros b' Heq' Hb'; destruct b' as [|x' b']; simpl in Heq'.
  - now inversion Heq'.
  - inversion Heq'; subst. exfalso. apply (Hb' x' (or_introl eq_refl)). exact Hh.
  - inversion Heq'; subst. exfalso. apply (Hb h' (or_introl eq_refl)). exact Hh'.
  - inversion Heq'; subst. apply (IH (fun y Hy => Hb y (or_intror Hy)) b').
    + assumption.
    + intros y Hy. apply Hb'. now right.
Qed.

(** C3: [_find_column] returns the first header, in header order, that equals
    a candidate; when no header equals a candidate it returns the first
    header that contains a candidate as a substring; it returns [None]
    exactly when no header matches in either way.  An exact match anywhere in
    the header therefore wins over every substring match. *)
Theorem find_column_exact_then_partial (cols names : list string) :
  (forall h, _find_column cols names = Some h <->
     first_such (exact_match names) cols h
     \/ ((forall c, In c cols -> ~ exact_match names c)
         /\ first_such (partial_match names) cols h))
  /\ (_find_column cols names = None <->
      forall c, In c cols -> ~ exact_match names c /\ ~ partial_match names c).
Proof.
  unfold _find_column.
  pose proof (exact_match_spec names) as He.
  pose proof (partial_match_spec names) as Hp.
  destruct (find (fun col => in_list col names) cols) as [e|] eqn:Hfe.
  - apply (find_first_such _ _ cols e He) in Hfe. split.
    + intro h. split.
      * intros [= <-]. left. exact Hfe.
      * intros [Hfs | [Hno _]].
        -- f_equal. eapply first_such_unique; eassumption.
        -- exfalso. destruct Hfe as [b [a [Heq [Hh _]]]].
           apply (Hno e); [subst; apply in_elt | exact Hh].
    + split; [discriminate|]. intro Hno. exfalso.
      destruct Hfe as [b [a [Heq [Hh _]]]].
      apply (proj1 (Hno e ltac:(subst; apply in_elt))). exact Hh.
  - pose proof (proj1 (find_none_iff (fun col => in_list col names) _ cols He) Hfe)
      as Hno. clear Hfe. rename Hno into Hfe. split.
    + intro h. rewrite (find_first_such _ _ cols h Hp). split.
      * intro Hfs. right. split; assumption.
      * intros [[b [a [Heq [Hh _]]]] | [_ Hfs]]; [|exact Hfs].
        exfalso. apply (Hfe h); [subst; apply in_elt | exact Hh].
    + rewrite (find_none_iff _ _ cols Hp). split.
      * intros Hnp c Hc. split; [apply Hfe | apply Hnp]; exact Hc.
      * intros H c Hc. apply (H c Hc).
Qed.

(** On the header of the specification's example the quantity column is
    found by name, and [QTD_TOTAL] is found through the candidate [QTD]. *)
Lemma find_column_exact_then_partial_witness :
  _find_column ["CODPROD"; "QTD_TOTAL"; "QT"] names_qt = Some "QT"
  /\ _find_column ["CODPROD"; "QTD_TOTAL"] names_qt = Some "QTD_TOTAL"
  /\ _find_column ["CODPROD"; "DTVAL"] names_qt = None.
Proof.
  split; [|split].
  - apply (proj1 (find_column_exact_then_partial ["CODPROD"; "QTD_TOTAL"; "QT"] names_qt)).
    left. exists ["CODPROD"; "QTD_TOTAL"], []. split; [reflexivity|]. split.
    + left. reflexivity.
    + intros x Hx Hm. unfold exact_match, names_qt in Hm. simpl in Hx, Hm.
      destruct Hx as [<-|[<-|[]]]; repeat (destruct Hm as [Hm|Hm]; [discriminate|]);
        exact Hm.
  - apply (proj1 (find_column_exact_then_partial ["CODPROD"; "QTD_TOTAL"] names_qt)).
    right. split.
    + intros c Hc Hm. unfold exact_match, names_qt in Hm. simpl in Hc, Hm.
      destruct Hc as [<-|[<-|[]]]; repeat (destruct Hm as [Hm|Hm]; [discriminate|]);
        exact Hm.
    + exists ["CODPROD"], []. split; [reflexivity|]. split.
      * exists "QTD". split; [right; right; right; left; reflexivity|].
        exists EmptyString, "_TOTAL". reflexivity.
      * intros x Hx Hm. apply partial_match_spec in Hm.
        destruct Hx as [<-|[]]. discriminate Hm.
  - apply (proj2 (find_column_exact_then_partial ["CODPROD"; "DTVAL"] names_qt)).
    intros c Hc. split; intro Hm.
    + unfold exact_match, names_qt in Hm. simpl in Hc, Hm.
      destruct Hc as [<-|[<-|[]]]; repeat (destruct Hm as [Hm|Hm]; [discriminate|]);
        exact Hm.
    + apply partial_match_spec in Hm.
      destruct Hc as [<-|[<-|[]]]; discriminate Hm.
Defined.

(** ** Shape of a successful run *)

Lemma process_data_Ok (hoje : datetime) (df : DataFrame) (a : Analise) :
  process_data hoje df = Ok a ->
  exists c_dt c_cod,
    mapped (col_dt_val (find_columns (columns df))) = Some c_dt
    /\ mapped (col_cod_prod (find_columns (columns df))) = Some c_cod
    /\ agregar hoje (find_columns (columns df)) c_cod c_dt df
       = (produtos_criticos a, resumo a, estatisticas a)
    /\ _extrair_filtros (produtos_criticos a) = Ok (filtros a)
    /\ recomendacoes a = _gerar_recomendacoes (produtos_criticos a)
    /\ colunas_mapeadas a = find_columns (columns df).
Proof.
  unfold process_data. intro H.
  destruct (mapped (col_dt_val (find_columns (columns df)))) as [c_dt|]; [|discriminate].
  destruct (mapped (col_cod_prod (find_columns (columns df)))) as [c_cod|]; [|discriminate].
  exists c_dt, c_cod.
  destruct (agregar hoje (find_columns (columns df)) c_cod c_dt df) as [[lista r] e].
  destruct (_extrair_filtros lista) as [f|ex] eqn:Hf; simpl in H; [|discriminate].
  injection H as <-. simpl. repeat split; assumption.
Qed.

(** ** Row statistics *)

Lemma processar_linha_total (hoje : datetime) (cm : ColMapping) (c_cod c_dt : string)
  (st : Estado) (row : Series) :
  total_linhas (estatisticas_ (processar_linha hoje cm c_cod c_dt st row))
  = total_linhas (estatisticas_ st).
Proof.
  unfold processar_linha, ignorada, data_invalida.
  destruct (isna (loc row c_cod) || String.eqb (strip (str (loc row c_cod))) "");
    [reflexivity|].
  destruct (parse_date (loc row c_dt)) as [[d|]|ex]; reflexivity.
Qed.

Lemma processar_linha_counts (hoje : datetime) (cm : ColMapping) (c_cod c_dt : string)
  (st : Estado) (row : Series) :
  let e := estatisticas_ st in
  let e' := estatisticas_ (processar_linha hoje cm c_cod c_dt st row) in
  (linhas_processadas e' + linhas_ignoradas e' = S (linhas_processadas e + linhas_ignoradas e))%nat
  /\ ((datas_invalidas e <= linhas_ignoradas e)%nat ->
      (datas_invalidas e' <= linhas_ignoradas e')%nat).
Proof.
  unfold processar_linha, ignorada, data_invalida.
  destruct (isna (loc row c_cod) || String.eqb (strip (str (loc row c_cod))) "");
    [simpl; lia|].
  destruct (parse_date (loc row c_dt)) as [[d|]|ex]; simpl; lia.
Qed.

Lemma processar_linhas_counts (hoje : datetime) (cm : ColMapping) (c_cod c_dt : string)
  (linhas : list Series) (st : Estado) :
  let e := estatisticas_ st in
  let e' := estatisticas_ (fold_left (processar_linha hoje cm c_cod c_dt) linhas st) in
  total_linhas e' = total_linhas e
  /\ (linhas_processadas e' + linhas_ignoradas e'
      = linhas_processadas e + linhas_ignoradas e + List.length linhas)%nat
  /\ ((datas_invalidas e <= linhas_ignoradas e)%nat ->
      (datas_invalidas e' <= linhas_ignoradas e')%nat).
Proof.
  revert st. induction linhas as [|row linhas IH]; intro st; simpl.
  - repeat split; lia.
  - destruct (IH (processar_linha hoje cm c_cod c_dt st row)) as [Ht [Hs Hi]].
    destruct (processar_linha_counts hoje cm c_cod c_dt st row) as [Hs1 Hi1].
    rewrite processar_linha_total in Ht.
    repeat split; [exact Ht | lia | intro H; apply Hi, Hi1, H].
Qed.

(** C10: when the mandatory columns resolve, the statistics of the row loop
    add up: [total_linhas] is the number of rows and equals
    [linhas_processadas + linhas_ignoradas], [datas_invalidas] is at most
    [linhas_ignoradas], and these are the statistics of every returned
    analysis. *)
Theorem statistics_conserved (hoje : datetime) (df : DataFrame) (c_dt c_cod : string)
  (Hdt : mapped (col_dt_val (find_columns (columns df))) = Some c_dt)
  (Hcod : mapped (col_cod_prod (find_columns (columns df))) = Some c_cod) :
  let e := estatisticas_ (processar_linhas hoje (find_columns (columns df)) c_cod c_dt df) in
  total_linhas e = List.length (rows df)
  /\ conserved e
  /\ forall a, process_data hoje df = Ok a -> estatisticas a = e.
Proof.
  intro e.
  destruct (processar_linhas_counts hoje (find_columns (columns df)) c_cod c_dt
              (iterrows df) (estado_inicial df)) as [Ht [Hs Hi]].
  fold (processar_linhas hoje (find_columns (columns df)) c_cod c_dt df) in Ht, Hs, Hi.
  fold e in Ht, Hs, Hi. simpl in Ht, Hs, Hi.
  unfold iterrows in Hs. rewrite length_map in Hs.
  split; [exact Ht|]. split.
  - split; [lia | apply Hi; lia].
  - intros a Ha. apply process_data_Ok in Ha.
    destruct Ha as [c_dt' [c_cod' [Hdt' [Hcod' [Hag _]]]]].
    rewrite Hdt in Hdt'. rewrite Hcod in Hcod'.
    injection Hdt' as <-. injection Hcod' as <-.
    unfold agregar in Hag.
    destruct (classificar_todos _) as [lista r]. now inversion Hag.
Qed.

Lemma statistics_conserved_witness :
  conserved
    (estatisticas_
       (processar_linhas hoje_ex (find_columns (columns df_ex)) "CODPROD" "DTVAL" df_ex)).
Proof.
  exact (proj1 (proj2 (statistics_conserved hoje_ex df_ex "DTVAL" "CODPROD"
                         eq_refl eq_refl))).
Defined.

(** ** Classification *)

Lemma calcular_criticidade_tier (menor : Dias) :
  calcular_criticidade menor
  = tier (match menor with inf => 999 | dias n => n end).
Proof.
  destruct menor as [|n]; reflexivity.
Qed.

Lemma finalizar_classified (p : Acumulado) : classified (finalizar p).
Proof.
  unfold classified, finalizar; simpl. apply calcular_criticidade_tier.
Qed.

Lemma count_tier_app (c : Criticidade) (l1 l2 : list Produto) :
  count_tier c (l1 ++ l2) = (count_tier c l1 + count_tier c l2)%nat.
Proof.
  unfold count_tier. now rewrite filter_app, length_app.
Qed.

Lemma count_tier_perm (c : Criticidade) (l1 l2 : list Produto) :
  Permutation l1 l2 -> count_tier c l1 = count_tier c l2.
Proof.
  unfold count_tier. induction 1 as [|x l l' _ IH|x y l|l l' l'' _ IH1 _ IH2]; simpl.
  - reflexivity.
  - destruct (criticidade_eqb (criticidade x) c); simpl; now rewrite IH.
  - destruct (criticidade_eqb (criticidade x) c), (criticidade_eqb (criticidade y) c);
      reflexivity.
  - now rewrite IH1.
Qed.

Lemma classificar_fold (ps : list Acumulado) (l0 : list Produto) (r0 : Resumo) :
  let '(l, r) := fold_left classificar ps (l0, r0) in
  l = l0 ++ map finalizar ps
  /\ produtos_vencidos r = (produtos_vencidos r0 + count_tier vencido (map finalizar ps))%nat
  /\ produtos_vencendo_30_dias r
     = (produtos_vencendo_30_dias r0 + count_tier alta (map finalizar ps))%nat
  /\ produtos_vencendo_60_dias r
     = (produtos_vencendo_60_dias r0 + count_tier media (map finalizar ps))%nat.
Proof.
  revert l0 r0. induction ps as [|p ps IH]; intros l0 r0.
  - simpl. rewrite app_nil_r. unfold count_tier; simpl. repeat split; lia.
  - cbn [fold_left map].
    destruct (classificar (l0, r0) p) as [l1 r1] eqn:Hc.
    specialize (IH l1 r1).
    destruct (fold_left classificar ps (l1, r1)) as [l r].
    destruct IH as [Hl [Hv [Ha Hm]]].
    change (finalizar p :: map finalizar ps)
      with ([finalizar p] ++ map finalizar ps).
    rewrite !count_tier_app. unfold count_tier at 1 3 5. simpl filter.
    unfold classificar in Hc. injection Hc as <- <-.
    split; [rewrite Hl, <- app_assoc; reflexivity|].
    rewrite Hv, Ha, Hm. clear.
    destruct (calcular_criticidade (ac_menor_dias_restantes p)); simpl;
      repeat split; lia.
Qed.

Lemma classificar_todos_spec (ps : list Acumulado) :
  let '(l, r) := classificar_todos ps in
  l = map finalizar ps
  /\ total_produtos r = List.length l
  /\ produtos_vencidos r = count_tier vencido l
  /\ produtos_vencendo_30_dias r = count_tier alta l
  /\ produtos_vencendo_60_dias r = count_tier media l.
Proof.
  unfold classificar_todos.
  pose proof (classificar_fold ps [] resumo_inicial) as H.
  destruct (fold_left classificar ps ([], resumo_inicial)) as [l r].
  destruct H as [Hl [Hv [Ha Hm]]]. simpl in *. subst l.
  repeat split; assumption.
Qed.

(** The products of [agregar] are the finalized aggregates, reordered. *)
Lemma agregar_spec (hoje : datetime) (cm : ColMapping) (c_cod c_dt : string)
  (df : DataFrame) :
  let '(lista, r, e) := agregar hoje cm c_cod c_dt df in
  let ps := map finalizar (Dict.values (produtos (processar_linhas hoje cm c_cod c_dt df))) in
  lista = ordenar ps
  /\ total_produtos r = List.length lista
  /\ produtos_vencidos r = count_tier vencido lista
  /\ produtos_vencendo_30_dias r = count_tier alta lista
  /\ produtos_vencendo_60_dias r = count_tier media lista
  /\ e = estatisticas_ (processar_linhas hoje cm c_cod c_dt df).
Proof.
  unfold agregar.
  pose proof (classificar_todos_spec
                (Dict.values (produtos (processar_linhas hoje cm c_cod c_dt df)))) as H.
  destruct (classificar_todos _) as [l r].
  destruct H as [Hl [Hn [Hv [Ha Hm]]]]. subst l. simpl.
  set (ps := map finalizar
               (Dict.values (produtos (processar_linhas hoje cm c_cod c_dt df)))).
  assert (Hp : Permutation ps (ordenar ps)) by apply sort_perm.
  cbv zeta. split; [reflexivity|]. repeat split.
  - rewrite Hn. apply Permutation_length, Hp.
  - rewrite Hv. apply count_tier_perm, Hp.
  - rewrite Ha. apply count_tier_perm, Hp.
  - rewrite Hm. apply count_tier_perm, Hp.
Qed.

(** The products of a returned analysis are classified, and they are the
    sorted list of the finalized aggregates. *)
Lemma criticality_tiers_of_run (hoje : datetime) (df : DataFrame) (a : Analise) :
  process_data hoje df = Ok a ->
  (forall p, In p (produtos_criticos a) -> classified p)
  /\ exists ps, produtos_criticos a = ordenar ps.
Proof.
  intro Hrun. apply process_data_Ok in Hrun.
  destruct Hrun as [c_dt [c_cod [_ [_ [Hag _]]]]].
  pose proof (agregar_spec hoje (find_columns (columns df)) c_cod c_dt df) as H.
  rewrite Hag in H. destruct H as [Hl _]. split.
  - intros p Hp. rewrite Hl in Hp. apply sort_in in Hp.
    apply in_map_iff in Hp. destruct Hp as [q [<- _]].
    apply finalizar_classified.
  - eexists. exact Hl.
Qed.



(** ** Ordering of the product list *)

Lemma chave_le_total (a b : Produto) : chave_le a b = true \/ chave_le b a = true.
Proof.
  unfold chave_le.
  destruct (Z.ltb_spec (ordem (menor_dias_restantes a)) (ordem (menor_dias_restantes b)));
    [left; reflexivity|].
  destruct (Z.ltb_spec (ordem (menor_dias_restantes b)) (ordem (menor_dias_restantes a)));
    [right; reflexivity|].
  assert (E : ordem (menor_dias_restantes a) = ordem (menor_dias_restantes b)) by lia.
  rewrite E, Z.eqb_refl. simpl.
  destruct (Z.leb_spec (menor_dias_restantes a) (menor_dias_restantes b));
    [left; reflexivity|].
  right. apply Z.leb_le. lia.
Qed.

Lemma ordem_rank (p : Produto) :
  classified p -> ordem (menor_dias_restantes p) = rank (criticidade p).
Proof.
  unfold classified, ordem, tier. intros ->.
  destruct (menor_dias_restantes p <? 0); [reflexivity|].
  destruct (menor_dias_restantes p <=? 30); [reflexivity|].
  destruct (menor_dias_restantes p <=? 60); reflexivity.
Qed.

Lemma chave_le_in_order (p q : Produto) :
  classified p -> classified q -> chave_le p q = true -> in_order p q.
Proof.
  intros Hp Hq. unfold chave_le, in_order.
  rewrite (ordem_rank p Hp), (ordem_rank q Hq).
  rewrite orb_true_iff, andb_true_iff, Z.ltb_lt, Z.eqb_eq, Z.leb_le. lia.
Qed.

Lemma Sorted_weaken {A : Type} (R R' : A -> A -> Prop) (l : list A) :
  (forall a b, In a l -> In b l -> R a b -> R' a b) -> Sorted R l -> Sorted R' l.
Proof.
  intros HR Hs. induction Hs as [|x l Hs IH Hhd].
  - constructor.
  - constructor.
    + apply IH. intros a b Ha Hb. apply HR; now right.
    + destruct Hhd as [|y l Hxy]; constructor.
      apply HR; [now left | right; now left | exact Hxy].
Qed.

(** C7: the product list of every returned analysis is sorted by the pair
    (tier rank, minimum days-remaining): each product is followed by one of
    the same or a later tier and, within one tier, of the same or a larger
    minimum; the sort itself orders any list of products by its key. *)
Theorem products_sorted_by_tier_then_days (hoje : datetime) (df : DataFrame) (a : Analise)
  (Hrun : process_data hoje df = Ok a) :
  Sorted in_order (produtos_criticos a)
  /\ forall ps, Sorted (fun p q => chave_le p q = true) (ordenar ps)
                /\ Permutation ps (ordenar ps).
Proof.
  split.
  - destruct (criticality_tiers_of_run hoje df a Hrun) as [Hcl [ps Hl]].
    rewrite Hl.
    apply Sorted_weaken with (R := fun p q => chave_le p q = true).
    + intros p q Hp Hq. rewrite <- Hl in Hp, Hq.
      apply chave_le_in_order; apply Hcl; assumption.
    + apply sort_sorted, chave_le_total.
  - intro ps. split.
    + apply sort_sorted, chave_le_total.
    + apply sort_perm.
Qed.

Lemma products_sorted_by_tier_then_days_witness :
  match process_data hoje_ex df_ex with
  | Ok a => Sorted in_order (produtos_criticos a)
  | Raise _ => False
  end.
Proof.
  destruct (process_data hoje_ex df_ex) as [a|e] eqn:Hrun.
  - exact (proj1 (products_sorted_by_tier_then_days hoje_ex df_ex a Hrun)).
  - vm_compute in Hrun. discriminate Hrun.
Defined.

(** ** Ordered dictionaries *)


Lemma dict_in_set {V : Type} (k : string) (v : V) (d : list (string * V)) (kv : string * V) :
  In kv (Dict.set String.eqb k v d) -> kv = (k, v) \/ In kv d.
Proof.
  induction d as [|[k' v'] d IH]; simpl.
  - intros [<-|[]]. now left.
  - destruct (String.eqb k' k); simpl.
    + intros [<-|H]; [now left | right; now right].
    + intros [<-|H]; [right; now left|].
      destruct (IH H) as [->|H']; [now left | right; now right].
Qed.

Lemma dict_get_in {V : Type} (k : string) (v : V) (d : list (string * V)) :
  Dict.get String.eqb k d = Some v -> exists k', In (k', v) d.
Proof.
  induction d as [|[k' v'] d IH]; simpl; [discriminate|].
  destruct (String.eqb k' k).
  - intros [= ->]. exists k'. now left.
  - intro H. destruct (IH H) as [k'' H']. exists k''. now right.
Qed.

(** ** One row *)

Lemma converter_quantidade_spec (raw : cell) :
  converter_quantidade raw = quantity_of raw.
Proof.
  unfold converter_quantidade, quantity_of.
  destruct raw as [|s]; [reflexivity|].
  simpl. destruct s; reflexivity.
Qed.





(** ** Configuration errors and row-level problems *)












(** ** Float sums *)

Lemma Qred_idem (q : Q) : Qred (Qred q) = Qred q.
Proof. apply Qred_complete, Qred_correct. Qed.

Lemma fadd_right_comm (a x y : float) : fadd (fadd a x) y = fadd (fadd a y) x.
Proof.
  destruct a as [|sa|qa], x as [|sx|qx], y as [|sy|qy]; cbn [fadd]; try reflexivity;
    try (destruct sa; reflexivity);
    try (destruct sx; reflexivity);
    try (destruct sy; reflexivity);
    try (destruct sa, sx; reflexivity);
    try (destruct sa, sy; reflexivity);
    try (destruct sx, sy; reflexivity);
    try (destruct sa, sx, sy; reflexivity).
  f_equal. apply Qred_complete. rewrite !Qred_correct. ring.
Qed.

Lemma fold_left_perm {A B : Type} (f : A -> B -> A) (l l' : list B) :
  (forall a x y, f (f a x) y = f (f a y) x) ->
  Permutation l l' -> forall a, fold_left f l a = fold_left f l' a.
Proof.
  intros Hf Hp. induction Hp as [|x l l' _ IH|x y l|l l' l'' _ IH1 _ IH2]; intro a; simpl.
  - reflexivity.
  - apply IH.
  - now rewrite Hf.
  - now rewrite IH1.
Qed.

Lemma fsum_perm (l l' : list float) : Permutation l l' -> fsum l = fsum l'.
Proof.
  intro Hp. unfold fsum. apply fold_left_perm; [apply fadd_right_comm | exact Hp].
Qed.

Lemma fsum_snoc (l : list float) (x : float) : fsum (l ++ [x]) = fadd (fsum l) x.
Proof.
  unfold fsum. now rewrite fold_left_app.
Qed.

Lemma fadd_zero_normal (x : float) : normal x -> fadd fzero x = x.
Proof.
  destruct x as [|s|q]; cbn [fadd fzero normal]; try reflexivity.
  intro Hq. f_equal. rewrite <- Hq at 2. apply Qred_complete. ring.
Qed.

Lemma float_of_str_normal (s : string) (x : float) : float_of_str s = Some x -> normal x.
Proof.
  unfold float_of_str.
  destruct (drop_underscores None (strip_num s)) as [t|]; [|discriminate].
  destruct (take_sign t) as [neg body].
  destruct (String.eqb (lower body) "inf" || String.eqb (lower body) "infinity").
  { intros [= <-]. exact I. }
  destruct (String.eqb (lower body) "nan").
  { intros [= <-]. exact I. }
  destruct (decimal_literal body) as [q|] eqn:Hd; [|discriminate].
  intro H.
  assert (Hx : x = FFin (if neg then Qred (- q) else q)) by congruence.
  subst x. clear H. destruct neg; [exact (Qred_idem (- q))|]. unfold normal.
  unfold decimal_literal in Hd.
  destruct (span_digits body) as [ip r1].
  destruct (match r1 with
            | String "." r => span_digits r
            | _ => (EmptyString, r1)
            end) as [fp r2].
  destruct (String.eqb ip "" && String.eqb fp ""); [discriminate|].
  destruct r2 as [|c r3].
  - injection Hd as <-. apply Qred_idem.
  - destruct (Ascii.eqb (to_lower c) "e"); [|discriminate].
    destruct (take_sign r3) as [eneg r4].
    destruct (span_digits r4) as [ep r5].
    destruct (String.eqb ep "" || negb (String.eqb r5 "")); [discriminate|].
    injection Hd as <-. apply Qred_idem.
Qed.

Lemma quantity_of_normal (raw : cell) : normal (quantity_of raw).
Proof.
  unfold quantity_of.
  destruct (float_of_str (replace "," "." (str raw))) as [x|] eqn:H.
  - eapply float_of_str_normal, H.
  - reflexivity.
Qed.

(** ** Aggregates and their line items *)

Lemma menor_de_snoc (l : list Z) (d : Z) :
  menor_de (l ++ [d]) = if dias_ltb d (menor_de l) then dias d else menor_de l.
Proof.
  unfold menor_de. now rewrite fold_left_app.
Qed.

Lemma menor_de_minimum (l : list Z) :
  match menor_de l with
  | inf => l = []
  | dias m => is_minimum m l
  end.
Proof.
  induction l as [|d l IH] using rev_ind.
  - reflexivity.
  - rewrite menor_de_snoc. destruct (menor_de l) as [|m]; simpl.
    + subst l. split; [now left|]. intros x [<-|[]]. lia.
    + destruct IH as [Hin Hle]. destruct (Z.ltb_spec d m).
      * split; [apply in_or_app; right; now left|].
        intros x Hx. apply in_app_or in Hx. destruct Hx as [Hx|[<-|[]]].
        -- specialize (Hle x Hx). lia.
        -- lia.
      * split; [apply in_or_app; now left|].
        intros x Hx. apply in_app_or in Hx. destruct Hx as [Hx|[<-|[]]].
        -- apply Hle, Hx.
        -- lia.
Qed.

Lemma is_minimum_perm (m : Z) (l l' : list Z) :
  Permutation l l' -> is_minimum m l -> is_minimum m l'.
Proof.
  intros Hp [Hin Hle]. split.
  - eapply Permutation_in; eassumption.
  - intros x Hx. apply Hle. eapply Permutation_in; [apply Permutation_sym|]; eassumption.
Qed.

Lemma novo_produto_consistent (cm : ColMapping) (row : Series) (cod : string) (qt : float) :
  consistent (novo_produto cm row cod qt).
Proof. split; reflexivity. Qed.

Lemma acumular_consistent (p : Acumulado) (item : Item) :
  consistent p ->
  consistent (acumular p item) /\ ac_itens_detalhados (acumular p item) <> [].
Proof.
  intros [Ht Hm]. unfold consistent.
  change (ac_itens_detalhados (acumular p item))
    with (ac_itens_detalhados p ++ [item]).
  change (ac_quantidade_total (acumular p item))
    with (fadd (ac_quantidade_total p) (quantidade item)).
  change (ac_menor_dias_restantes (acumular p item))
    with (if dias_ltb (dias_restantes item) (ac_menor_dias_restantes p)
          then dias (dias_restantes item) else ac_menor_dias_restantes p).
  rewrite !map_app. cbn [map]. rewrite fsum_snoc, menor_de_snoc, <- Ht, <- Hm.
  split; [split; reflexivity|].
  intro H. apply app_eq_nil in H. destruct H as [_ H]. discriminate.
Qed.

Lemma processar_linha_ok (hoje : datetime) (cm : ColMapping) (c_cod c_dt : string)
  (st : Estado) (row : Series) :
  estado_ok st -> estado_ok (processar_linha hoje cm c_cod c_dt st row).
Proof.
  intro Hok. unfold processar_linha.
  destruct (isna (loc row c_cod) || String.eqb (strip (str (loc row c_cod))) "");
    [exact Hok|].
  destruct (parse_date (loc row c_dt)) as [[d|]|ex]; try exact Hok.
  intros k p Hin. simpl in Hin. apply dict_in_set in Hin.
  destruct Hin as [[= -> ->]|Hin]; [|apply (Hok k p Hin)].
  apply acumular_consistent.
  destruct (Dict.get String.eqb (str (loc row c_cod)) (produtos st)) as [q|] eqn:Hg.
  - apply dict_get_in in Hg. destruct Hg as [k' Hk']. apply (Hok k' q Hk').
  - apply novo_produto_consistent.
Qed.

Lemma processar_linhas_ok (hoje : datetime) (cm : ColMapping) (c_cod c_dt : string)
  (df : DataFrame) :
  estado_ok (processar_linhas hoje cm c_cod c_dt df).
Proof.
  unfold processar_linhas.
  assert (H0 : estado_ok (estado_inicial df)) by (intros k p []).
  revert H0. generalize (estado_inicial df).
  induction (iterrows df) as [|row linhas IH]; intros st Hst; simpl.
  - exact Hst.
  - apply IH, processar_linha_ok, Hst.
Qed.

Lemma finalizar_accounts (p : Acumulado) :
  consistent p -> ac_itens_detalhados p <> [] ->
  itens_detalhados (finalizar p) <> []
  /\ quantidade_total (finalizar p)
     = fsum (map quantidade (itens_detalhados (finalizar p)))
  /\ is_minimum (menor_dias_restantes (finalizar p))
       (map dias_restantes (itens_detalhados (finalizar p))).
Proof.
  intros [Ht Hm] Hne. simpl.
  pose proof (sort_perm item_le (ac_itens_detalhados p)) as Hp.
  split; [|split].
  - intro H. apply sort_nil_inv in H. contradiction.
  - rewrite Ht. apply fsum_perm, Permutation_map, Hp.
  - rewrite Hm. pose proof (menor_de_minimum (map dias_restantes (ac_itens_detalhados p))) as Hmin.
    destruct (menor_de (map dias_restantes (ac_itens_detalhados p))) as [|m].
    + apply map_eq_nil in Hmin. contradiction.
    + eapply is_minimum_perm; [apply Permutation_map, Hp | exact Hmin].
Qed.






(** ** Recommendations *)

Lemma recomendar_app (xs : list Produto) (msg : nat -> string) (r : list string) :
  recomendar xs msg r
  = r ++ match xs with [] => [] | _ => [msg (List.length xs)] end.
Proof.
  destruct xs; simpl; [now rewrite app_nil_r | reflexivity].
Qed.

Lemma msg_vencidos_not_controle (n : nat) : msg_vencidos n <> msg_controle.
Proof. unfold msg_vencidos, msg_controle. simpl. discriminate. Qed.

Lemma msg_criticos_not_controle (n : nat) : msg_criticos n <> msg_controle.
Proof. unfold msg_criticos, msg_controle. simpl. discriminate. Qed.

Lemma msg_medios_not_controle (n : nat) : msg_medios n <> msg_controle.
Proof. unfold msg_medios, msg_controle. simpl. discriminate. Qed.

Lemma msg_grandes_not_controle (n : nat) : msg_grandes n <> msg_controle.
Proof. unfold msg_grandes, msg_controle. simpl. discriminate. Qed.

Lemma filter_nil_iff {A : Type} (f : A -> bool) (l : list A) :
  filter f l = [] <-> forall x, In x l -> f x = false.
Proof.
  induction l as [|x l IH]; simpl.
  - split; [intros _ y [] | reflexivity].
  - destruct (f x) eqn:Hx.
    + split; [discriminate|]. intro H. rewrite (H x (or_introl eq_refl)) in Hx. discriminate.
    + rewrite IH. split.
      * intros H y [<-|Hy]; [exact Hx | apply H, Hy].
      * intros H y Hy. apply H. now right.
Qed.

(** The control message is there exactly when the four selections are empty. *)
Lemma gerar_recomendacoes_controle (ps : list Produto) :
  (In msg_controle (_gerar_recomendacoes ps) <->
     filter e_vencido ps = [] /\ filter e_critico ps = []
     /\ filter e_medio ps = [] /\ filter e_grande ps = [])
  /\ (In msg_controle (_gerar_recomendacoes ps) -> _gerar_recomendacoes ps = [msg_controle]).
Proof.
  unfold _gerar_recomendacoes. rewrite !recomendar_app. simpl app.
  destruct (filter e_vencido ps) as [|v vs].
  - destruct (filter e_critico ps) as [|c cs].
    + destruct (filter e_medio ps) as [|m ms].
      * destruct (filter e_grande ps) as [|g gs].
        -- simpl. split; [|reflexivity].
           split; [intros _; repeat split | intros _; now left].
        -- simpl. split.
           ++ split; [|intros [_ [_ [_ H]]]; discriminate].
              intros [H|[]]. now apply msg_grandes_not_controle in H.
           ++ intros [H|[]]. now apply msg_grandes_not_controle in H.
      * assert (Hno : ~ In msg_controle
                        ([msg_medios (List.length (m :: ms))]
                         ++ match filter e_grande ps with
                            | [] => []
                            | _ :: _ => [msg_grandes (List.length (filter e_grande ps))]
                            end)).
        { intro H. apply in_app_or in H. destruct H as [[H|[]]|H].
          - now apply msg_medios_not_controle in H.
          - destruct (filter e_grande ps); [destruct H|].
            destruct H as [H|[]]. now apply msg_grandes_not_controle in H. }
        simpl app in *. split.
        -- split; [intro H; contradiction | intros [_ [_ [H _]]]; discriminate].
        -- intro H; contradiction.
    + assert (Hno : ~ In msg_controle
                      ([msg_criticos (List.length (c :: cs))]
                       ++ match filter e_medio ps with
                          | [] => []
                          | _ :: _ => [msg_medios (List.length (filter e_medio ps))]
                          end
                       ++ match filter e_grande ps with
                          | [] => []
                          | _ :: _ => [msg_grandes (List.length (filter e_grande ps))]
                          end)).
      { intro H. apply in_app_or in H. destruct H as [[H|[]]|H].
        - now apply msg_criticos_not_controle in H.
        - apply in_app_or in H. destruct H as [H|H].
          + destruct (filter e_medio ps); [destruct H|].
            destruct H as [H|[]]. now apply msg_medios_not_controle in H.
          + destruct (filter e_grande ps); [destruct H|].
            destruct H as [H|[]]. now apply msg_grandes_not_controle in H. }
      rewrite <- app_assoc. simpl app in *. split.
      * split; [intro H; contradiction | intros [_ [H _]]; discriminate].
      * intro H; contradiction.
  - assert (Hno : ~ In msg_controle
                    ((([msg_vencidos (List.length (v :: vs))]
                       ++ match filter e_critico ps with
                          | [] => []
                          | _ :: _ => [msg_criticos (List.length (filter e_critico ps))]
                          end)
                      ++ match filter e_medio ps with
                         | [] => []
                         | _ :: _ => [msg_medios (List.length (filter e_medio ps))]
                         end)
                     ++ match filter e_grande ps with
                        | [] => []
                        | _ :: _ => [msg_grandes (List.length (filter e_grande ps))]
                        end)).
    { intro H. apply in_app_or in H. destruct H as [H|H].
      - apply in_app_or in H. destruct H as [H|H].
        + apply in_app_or in H. destruct H as [[H|[]]|H].
          * now apply msg_vencidos_not_controle in H.
          * destruct (filter e_critico ps); [destruct H|].
            destruct H as [H|[]]. now apply msg_criticos_not_controle in H.
        + destruct (filter e_medio ps); [destruct H|].
          destruct H as [H|[]]. now apply msg_medios_not_controle in H.
      - destruct (filter e_grande ps); [destruct H|].
        destruct H as [H|[]]. now apply msg_grandes_not_controle in H. }
    simpl app in *. split.
    + split; [intro H; contradiction | intros [H _]; discriminate].
    + intro H; contradiction.
Qed.

Lemma criticidade_eqb_spec (a b : Criticidade) : criticidade_eqb a b = true <-> a = b.
Proof.
  destruct a, b; simpl; split; congruence.
Qed.

Lemma e_vencido_spec (p : Produto) :
  classified p -> (e_vencido p = false <-> criticidade p <> vencido).
Proof.
  unfold classified, e_vencido, tier. intros ->.
  destruct (menor_dias_restantes p <? 0).
  - split; [discriminate | congruence].
  - split; [intros _|reflexivity].
    destruct (menor_dias_restantes p <=? 30); [discriminate|].
    destruct (menor_dias_restantes p <=? 60); discriminate.
Qed.

Lemma criticidade_eqb_false (a b : Criticidade) : criticidade_eqb a b = false <-> a <> b.
Proof.
  rewrite <- criticidade_eqb_spec. destruct (criticidade_eqb a b); split; congruence.
Qed.

Lemma e_grande_spec (p : Produto) :
  e_grande p = false
  <-> ~ (fgt (quantidade_total p) 100 = true /\ criticidade p <> baixa).
Proof.
  unfold e_grande. rewrite <- criticidade_eqb_false.
  destruct (fgt (quantidade_total p) 100), (criticidade_eqb (criticidade p) baixa);
    simpl; split; try reflexivity; try discriminate; intuition congruence.
Qed.

Lemma no_rule_fires_filters (ps : list Produto) :
  Forall classified ps ->
  (no_rule_fires ps <->
     filter e_vencido ps = [] /\ filter e_critico ps = []
     /\ filter e_medio ps = [] /\ filter e_grande ps = []).
Proof.
  intro Hcl. rewrite Forall_forall in Hcl.
  rewrite !filter_nil_iff. unfold no_rule_fires. split.
  - intro H. repeat split; intros p Hp; destruct (H p Hp) as [Hv [Ha [Hm Hg]]].
    + now apply e_vencido_spec; [apply Hcl|].
    + now apply criticidade_eqb_false.
    + now apply criticidade_eqb_false.
    + now apply e_grande_spec.
  - intros [Hv [Ha [Hm Hg]]] p Hp. repeat split.
    + apply e_vencido_spec; [apply Hcl, Hp | apply Hv, Hp].
    + apply criticidade_eqb_false, Ha, Hp.
    + apply criticidade_eqb_false, Hm, Hp.
    + apply e_grande_spec, Hg, Hp.
Qed.

Lemma process_data_no_rows (hoje : datetime) (cols : list string) (c_dt c_cod : string) :
  mapped (col_dt_val (find_columns cols)) = Some c_dt ->
  mapped (col_cod_prod (find_columns cols)) = Some c_cod ->
  exists a,
    process_data hoje (mk_df cols []) = Ok a
    /\ total_produtos (resumo a) = 0%nat
    /\ produtos_criticos a = []
    /\ recomendacoes a = [msg_controle].
Proof.
  intros Hdt Hcod. unfold process_data. cbn [columns]. rewrite Hdt, Hcod.
  eexists. split; [reflexivity|]. repeat split.
Qed.

(** C8: on a classified product list the recommendations contain the
    "situation under control" message exactly when none of the four rules
    fires, and then it is the only message; a table without data rows whose
    mandatory columns resolve gives an analysis with no product and that
    single message. *)
Theorem control_message_iff_no_rule_fires
  (ps : list Produto) (Hcl : Forall classified ps)
  (hoje : datetime) (df : DataFrame) (c_dt c_cod : string)
  (Hdt : mapped (col_dt_val (find_columns (columns df))) = Some c_dt)
  (Hcod : mapped (col_cod_prod (find_columns (columns df))) = Some c_cod)
  (Hrows : rows df = []) :
  (In msg_controle (_gerar_recomendacoes ps) <-> no_rule_fires ps)
  /\ (no_rule_fires ps -> _gerar_recomendacoes ps = [msg_controle])
  /\ (exists a,
        process_data hoje df = Ok a
        /\ total_produtos (resumo a) = 0%nat
        /\ recomendacoes a = [msg_controle]).
Proof.
  destruct (gerar_recomendacoes_controle ps) as [Hiff Hone].
  pose proof (no_rule_fires_filters ps Hcl) as Hf.
  split; [|split].
  - rewrite Hiff. symmetry. exact Hf.
  - intro H. apply Hone, Hiff, Hf, H.
  - destruct df as [cols linhas]. simpl in Hdt, Hcod, Hrows. subst linhas.
    destruct (process_data_no_rows hoje cols c_dt c_cod Hdt Hcod) as [a [Ha [Hn [_ Hr]]]].
    exists a. repeat split; assumption.
Qed.

Lemma control_message_iff_no_rule_fires_witness :
  _gerar_recomendacoes [] = [msg_controle]
  /\ exists a,
       process_data hoje_ex (mk_df cols_ex []) = Ok a
       /\ total_produtos (resumo a) = 0%nat
       /\ recomendacoes a = [msg_controle].
Proof.
  destruct (control_message_iff_no_rule_fires [] (Forall_nil _) hoje_ex
              (mk_df cols_ex []) "DTVAL" "CODPROD" eq_refl eq_refl eq_refl)
    as [_ [H1 H2]].
  split; [apply H1; intros p [] | exact H2].
Defined.

(** ** Filters *)

Lemma set_add_nodup (x : string) (l : list string) :
  NoDup l -> NoDup (set_add String.eqb x l).
Proof.
  intro Hl. unfold set_add. destruct (existsb (String.eqb x) l) eqn:E; [exact Hl|].
  apply NoDup_app; [exact Hl | repeat constructor; intros [] |].
  intros y Hy Hx. destruct Hx as [Hx|[]]. subst y.
  assert (Ht : existsb (String.eqb x) l = true).
  { apply existsb_exists. exists x. split; [exact Hy | apply String.eqb_refl]. }
  congruence.
Qed.

Lemma coletar_str_nodup (f : Produto -> cell) (ps : list Produto) :
  NoDup (coletar_str f ps).
Proof.
  unfold coletar_str.
  assert (H0 : NoDup (@nil string)) by constructor.
  revert H0. generalize (@nil string).
  induction ps as [|p ps IH]; intros l Hl; simpl; [exact Hl|].
  apply IH. destruct (truthy (f p)); [apply set_add_nodup|]; exact Hl.
Qed.

(** The three collections that go through [str()] are sorted and without
    duplicates, whatever the products are. *)
Lemma coerced_filters_sorted_distinct (f : Produto -> cell) (ps : list Produto) :
  Sorted (fun a b => String.leb a b = true) (sorted_strings (coletar_str f ps))
  /\ NoDup (sorted_strings (coletar_str f ps)).
Proof.
  split.
  - apply sort_sorted, String.leb_total.
  - eapply Permutation_NoDup; [apply sort_perm | apply coletar_str_nodup].
Qed.

(** C9 (the code departs from it): the supplier names are collected without
    [str()].  With an empty supplier cell the collection holds the float
    [nan], not a string (the other three collections hold strings); next to
    a product that has a supplier name, sorting the collection raises
    [TypeError] and no analysis is returned. *)
Theorem supplier_names_not_coerced :
  (exists a,
     process_data hoje_ex df_sem_fornecedor = Ok a
     /\ fornecedores (filtros a) = [NaN]
     /\ cods_produto (filtros a) = ["A"])
  /\ process_data hoje_ex df_fornecedor_misto = Raise TypeError.
Proof.
  split.
  - eexists. split; [vm_compute; reflexivity|]. split; reflexivity.
  - vm_compute. reflexivity.
Qed.

(** ** Digit strings *)

Lemma digit_facts (c : ascii) :
  is_digit c = true ->
  is_space c = false /\ is_space_num c = false
  /\ Ascii.eqb c "/" = false /\ Ascii.eqb c "-" = false /\ Ascii.eqb c "_" = false
  /\ Ascii.eqb c " " = false /\ Ascii.eqb c "+" = false.
Proof.
  destruct c as [[] [] [] [] [] [] [] []]; intro H; try discriminate H;
    repeat split; reflexivity.
Qed.

Lemma all_digits_string_all (s : string) : all_digits s = string_all is_digit s.
Proof.
  induction s as [|c s IH]; simpl; [reflexivity | now rewrite IH].
Qed.

Lemma string_all_app (q : ascii -> bool) (a b : string) :
  string_all q (a ++ b)%string = string_all q a && string_all q b.
Proof.
  induction a as [|c a IH]; simpl; [reflexivity | now rewrite IH, andb_assoc].
Qed.

Lemma string_all_impl (q q' : ascii -> bool) (s : string) :
  (forall c, q c = true -> q' c = true) ->
  string_all q s = true -> string_all q' s = true.
Proof.
  intro Hq. induction s as [|c s IH]; simpl; [reflexivity|].
  rewrite !andb_true_iff. intros [Hc Hs]. split; [apply Hq, Hc | apply IH, Hs].
Qed.

Lemma lstrip_by_none (p : ascii -> bool) (s : string) :
  string_all (fun c => negb (p c)) s = true -> lstrip_by p s = s.
Proof.
  destruct s as [|c s]; simpl; [reflexivity|].
  rewrite andb_true_iff, negb_true_iff. intros [-> _]. reflexivity.
Qed.

Lemma rstrip_by_none (p : ascii -> bool) (s : string) :
  string_all (fun c => negb (p c)) s = true -> rstrip_by p s = s.
Proof.
  induction s as [|c s IH]; simpl; [reflexivity|].
  rewrite andb_true_iff, negb_true_iff. intros [Hc Hs].
  rewrite (IH Hs), Hc. destruct s; reflexivity.
Qed.

Lemma split_no_sep (sep : ascii) (a : string) :
  string_all (fun c => negb (Ascii.eqb c sep)) a = true -> split sep a = [a].
Proof.
  induction a as [|c a IH]; simpl; [reflexivity|].
  rewrite andb_true_iff, negb_true_iff. intros [-> Ha]. now rewrite (IH Ha).
Qed.

Lemma split_app_sep (sep : ascii) (a r : string) :
  string_all (fun c => negb (Ascii.eqb c sep)) a = true ->
  split sep (a ++ String sep r)%string = a :: split sep r.
Proof.
  induction a as [|c a IH]; simpl.
  - intros _. now rewrite Ascii.eqb_refl.
  - rewrite andb_true_iff, negb_true_iff. intros [-> Ha]. now rewrite (IH Ha).
Qed.

Lemma digits_no_sep (sep : ascii) (a : string) :
  is_digit sep = false -> all_digits a = true ->
  string_all (fun c => negb (Ascii.eqb c sep)) a = true.
Proof.
  intros Hsep. rewrite all_digits_string_all. apply string_all_impl.
  intros c Hc. apply negb_true_iff. destruct (Ascii.eqb_spec c sep); [|reflexivity].
  subst c. congruence.
Qed.

Lemma drop_underscores_digits (s : string) (prev : option ascii) :
  all_digits s = true -> is_underscore prev = false ->
  drop_underscores prev s = Some s.
Proof.
  revert prev. induction s as [|c s IH]; intros prev Hs Hp; simpl.
  - now rewrite Hp.
  - simpl in Hs. apply andb_true_iff in Hs. destruct Hs as [Hc Hs].
    destruct (digit_facts c Hc) as [_ [_ [_ [_ [Hu _]]]]].
    rewrite Hu, Hp. simpl. rewrite (IH (Some c) Hs Hu). reflexivity.
Qed.

Lemma take_sign_digit (c : ascii) (r : string) :
  is_digit c = true -> take_sign (String c r) = (false, String c r).
Proof.
  destruct c as [[] [] [] [] [] [] [] []]; intro H; try discriminate H; reflexivity.
Qed.

Lemma int_of_str_digits (s : string) :
  all_digits s = true -> s <> "" -> (String.length s <= max_str_digits)%nat ->
  int_of_str s = Some (digits_value s).
Proof.
  intros Hd Hne Hlen. unfold int_of_str, strip_num.
  assert (Hns : string_all (fun c => negb (is_space_num c)) s = true).
  { rewrite all_digits_string_all in Hd. revert Hd. apply string_all_impl.
    intros c Hc. apply negb_true_iff. apply (digit_facts c Hc). }
  rewrite (lstrip_by_none _ _ Hns), (rstrip_by_none _ _ Hns).
  rewrite (drop_underscores_digits s None Hd eq_refl).
  destruct s as [|c r]; [congruence|].
  assert (Hc : is_digit c = true).
  { simpl in Hd. now apply andb_true_iff in Hd. }
  rewrite (take_sign_digit c r Hc), Hd.
  apply Nat.leb_le in Hlen. rewrite Hlen. reflexivity.
Qed.

Lemma digits_len_inv (lo hi : nat) (s : string) :
  digits_len lo hi s = true ->
  all_digits s = true /\ (lo <= String.length s <= hi)%nat.
Proof.
  unfold digits_len. rewrite !andb_true_iff, !Nat.leb_le. tauto.
Qed.

(** ** The date parser *)

Lemma days_in_month_le (y m : Z) : days_in_month y m <= 31.
Proof.
  unfold days_in_month.
  destruct (m =? 2); [destruct (is_leap y); lia|].
  destruct ((m =? 4) || (m =? 6) || (m =? 9) || (m =? 11)); lia.
Qed.

Lemma valid_date_bounds (y m d : Z) :
  valid_date y m d = true -> 1 <= y <= 9999 /\ 1 <= m <= 12 /\ 1 <= d <= 31.
Proof.
  unfold valid_date, MINYEAR, MAXYEAR. rewrite !andb_true_iff, !Z.leb_le.
  pose proof (days_in_month_le y m). lia.
Qed.

Lemma datetime_new_valid (y m d : Z) :
  valid_date y m d = true -> datetime_new y m d = Ok (mk_datetime y m d 0).
Proof.
  intro Hv. unfold datetime_new. rewrite Hv.
  destruct (valid_date_bounds y m d Hv) as [Hy [Hm Hd]].
  assert (Hf : forall z, 1 <= z <= 9999 -> fits_int z = true).
  { intros z Hz. unfold fits_int, INT_MIN, INT_MAX.
    apply andb_true_iff. rewrite !Z.leb_le. lia. }
  rewrite (Hf y), (Hf m), (Hf d) by lia. reflexivity.
Qed.

Lemma starts_with_digit_not_null (c : ascii) (r : string) :
  is_digit c = true -> in_list (String c r) null_dates = false.
Proof.
  destruct c as [[] [] [] [] [] [] [] []]; intro H; try discriminate H; reflexivity.
Qed.

Lemma parse_date_dmy (dd mm yyyy : string) :
  digits_len 1 2 dd = true -> digits_len 1 2 mm = true -> digits_len 4 4 yyyy = true ->
  valid_date (digits_value yyyy) (digits_value mm) (digits_value dd) = true ->
  parse_date (Str (dd ++ "/" ++ mm ++ "/" ++ yyyy)%string)
  = Ok (Some (mk_datetime (digits_value yyyy) (digits_value mm) (digits_value dd) 0)).
Proof.
  intros Hdd Hmm Hyy Hv.
  destruct (digits_len_inv _ _ _ Hdd) as [Ad Ld].
  destruct (digits_len_inv _ _ _ Hmm) as [Am Lm].
  destruct (digits_len_inv _ _ _ Hyy) as [Ay Ly].
  assert (Hmax : (4 <= max_str_digits)%nat) by (apply Nat.leb_le; reflexivity).
  assert (Nd : dd <> "") by (destruct dd; [simpl in Ld; lia | discriminate]).
  assert (Nm : mm <> "") by (destruct mm; [simpl in Lm; lia | discriminate]).
  assert (Ny : yyyy <> "") by (destruct yyyy; [simpl in Ly; lia | discriminate]).
  assert (Hsplit : split "/" (dd ++ "/" ++ mm ++ "/" ++ yyyy)%string = [dd; mm; yyyy]).
  { change (dd ++ "/" ++ mm ++ "/" ++ yyyy)%string
      with (dd ++ String "/" (mm ++ String "/" yyyy))%string.
    rewrite split_app_sep by (apply digits_no_sep; [reflexivity | exact Ad]).
    rewrite split_app_sep by (apply digits_no_sep; [reflexivity | exact Am]).
    rewrite split_no_sep by (apply digits_no_sep; [reflexivity | exact Ay]).
    reflexivity. }
  assert (Hnb : string_all (fun c => negb (is_space c))
                  (dd ++ "/" ++ mm ++ "/" ++ yyyy)%string = true).
  { assert (Hdig : forall s, all_digits s = true ->
                     string_all (fun c => negb (is_space c)) s = true).
    { intros s Hs. rewrite all_digits_string_all in Hs. revert Hs.
      apply string_all_impl. intros c Hc. apply negb_true_iff, (digit_facts c Hc). }
    rewrite !string_all_app, (Hdig dd Ad), (Hdig mm Am), (Hdig yyyy Ay). reflexivity. }
  unfold parse_date. cbn [isna str orb].
  replace (in_list (dd ++ "/" ++ mm ++ "/" ++ yyyy)%string null_dates) with false.
  2:{ symmetry. destruct dd as [|c dd']; [congruence|].
      apply starts_with_digit_not_null. simpl in Ad. now apply andb_true_iff in Ad. }
  unfold strip. rewrite (lstrip_by_none _ _ Hnb), (rstrip_by_none _ _ Hnb).
  unfold re_dmy. rewrite Hsplit, Hdd, Hmm, Hyy. cbn [andb].
  unfold unpack_ints. cbn [map].
  rewrite (int_of_str_digits dd Ad Nd) by lia.
  rewrite (int_of_str_digits mm Am Nm) by lia.
  rewrite (int_of_str_digits yyyy Ay Ny) by lia.
  cbn [bind]. rewrite (datetime_new_valid _ _ _ Hv). reflexivity.
Qed.

Lemma round_half_even_bounds (q : Q) (N : Z) :
  (0 <= q)%Q -> (q <= inject_Z N)%Q -> 0 <= round_half_even q <= N.
Proof.
  intros H0 HN. unfold round_half_even.
  pose proof (Qfloor_le q) as Hf1.
  pose proof (Qfloor_resp_le _ _ H0) as Hf0.
  pose proof (Qfloor_resp_le _ _ HN) as HfN.
  rewrite Qfloor_Z in HfN. change (Qfloor 0) with 0 in Hf0.
  assert (Hup : (inject_Z (Qfloor q) < q)%Q -> Qfloor q + 1 <= N).
  { intro Hlt. assert (Hz : Qfloor q < N); [|lia].
    rewrite Zlt_Qlt. lra. }
  destruct (Qcompare_spec (q - inject_Z (Qfloor q)) (1 # 2)) as [He|Hl|Hg].
  - destruct (Z.even (Qfloor q)); [lia|].
    assert (Qfloor q + 1 <= N) by (apply Hup; lra). lia.
  - lia.
  - assert (Qfloor q + 1 <= N) by (apply Hup; lra). lia.
Qed.




Lemma Qltb_spec (p q : Q) : Qltb p q = true <-> (p < q)%Q.
Proof.
  unfold Qltb. rewrite negb_true_iff. split.
  - intro H. apply Qnot_le_lt. intro Hle. apply Qle_bool_iff in Hle. congruence.
  - intro H. destruct (Qle_bool q p) eqn:E; [|reflexivity].
    apply Qle_bool_iff in E. apply Qlt_not_le in H. contradiction.
Qed.

Lemma timedelta_days_bounds (x : Q) :
  (0 < x)%Q -> (x < 50000)%Q -> 0 <= timedelta_days x <= 50000 * US_PER_DAY.
Proof.
  intros Hlo Hhi. unfold timedelta_days. apply round_half_even_bounds.
  - unfold US_PER_DAY. change (inject_Z 86400000000) with (86400000000 # 1)%Q. lra.
  - rewrite inject_Z_mult. unfold US_PER_DAY.
    change (inject_Z 86400000000) with (86400000000 # 1)%Q.
    change (inject_Z 50000) with (50000 # 1)%Q. lra.
Qed.




Lemma digit_val_bounds (c : ascii) : is_digit c = true -> 0 <= digit_val c <= 9.
Proof.
  destruct c as [[] [] [] [] [] [] [] []]; intro H; try discriminate H;
    vm_compute; split; discriminate.
Qed.

Lemma digits_value_from_bounds (s : string) (acc : Z) :
  all_digits s = true -> 0 <= acc ->
  acc * 10 ^ Z.of_nat (String.length s) <= digits_value_from acc s
  < (acc + 1) * 10 ^ Z.of_nat (String.length s).
Proof.
  revert acc. induction s as [|c s IH]; intros acc Hs Hacc.
  - simpl. lia.
  - simpl in Hs. apply andb_true_iff in Hs. destruct Hs as [Hc Hs].
    pose proof (digit_val_bounds c Hc) as Hd.
    cbn [digits_value_from String.length].
    specialize (IH (10 * acc + digit_val c) Hs ltac:(lia)).
    rewrite Nat2Z.inj_succ, Z.pow_succ_r by lia.
    assert (Hp : 0 < 10 ^ Z.of_nat (String.length s)) by (apply Z.pow_pos_nonneg; lia).
    nia.
Qed.

Lemma digits_value_small (s : string) :
  all_digits s = true -> (String.length s <= 4)%nat -> 0 <= digits_value s < 10000.
Proof.
  intros Hs Hl. unfold digits_value.
  pose proof (digits_value_from_bounds s 0 Hs ltac:(lia)) as H.
  assert (Hp : 10 ^ Z.of_nat (String.length s) <= 10 ^ 4).
  { apply Z.pow_le_mono_r; lia. }
  change (10 ^ 4) with 10000 in Hp. lia.
Qed.

Lemma datetime_new_invalid (y m d : Z) :
  0 <= y < 10000 -> 0 <= m < 10000 -> 0 <= d < 10000 ->
  valid_date y m d = false ->
  exists msg, datetime_new y m d = Raise (ValueError msg).
Proof.
  intros Hy Hm Hd Hv. unfold datetime_new. rewrite Hv.
  assert (Hf : forall z, 0 <= z < 10000 -> fits_int z = true).
  { intros z Hz. unfold fits_int, INT_MIN, INT_MAX.
    apply andb_true_iff. rewrite !Z.leb_le. lia. }
  rewrite (Hf y Hy), (Hf m Hm), (Hf d Hd). eexists. reflexivity.
Qed.

Lemma span_digits_sep (a r : string) (sep : ascii) :
  all_digits a = true -> is_digit sep = false ->
  span_digits (a ++ String sep r)%string = (a, String sep r).
Proof.
  intros Ha Hsep. induction a as [|c a IH]; simpl.
  - now rewrite Hsep.
  - simpl in Ha. apply andb_true_iff in Ha. destruct Ha as [Hc Ha].
    now rewrite Hc, (IH Ha).
Qed.

Lemma drop_underscores_none (s : string) (prev : option ascii) :
  string_all (fun c => negb (Ascii.eqb c "_")) s = true -> is_underscore prev = false ->
  drop_underscores prev s = Some s.
Proof.
  revert prev. induction s as [|c s IH]; intros prev Hs Hp; simpl.
  - now rewrite Hp.
  - simpl in Hs. apply andb_true_iff in Hs. destruct Hs as [Hc Hs].
    apply negb_true_iff in Hc. rewrite Hc, Hp. simpl.
    rewrite (IH (Some c) Hs Hc). reflexivity.
Qed.

Lemma digit_not_letter (c : ascii) (r : string) :
  is_digit c = true ->
  String.eqb (lower (String c r)) "inf" = false
  /\ String.eqb (lower (String c r)) "infinity" = false
  /\ String.eqb (lower (String c r)) "nan" = false.
Proof.
  destruct c as [[] [] [] [] [] [] [] []]; intro H; try discriminate H;
    repeat split; reflexivity.
Qed.







(** * Further properties of the processor *)

Import Invariantes.

(** ** The product dictionary *)

Lemma dict_get_some_in {V : Type} (k : string) (v : V) (d : list (string * V)) :
  Dict.get String.eqb k d = Some v -> In (k, v) d.
Proof.
  induction d as [|[k' v'] d IH]; simpl; [discriminate|].
  destruct (String.eqb_spec k' k) as [->|Hne].
  - intros [= ->]. now left.
  - intro H. right. apply IH, H.
Qed.

Lemma dict_get_none {V : Type} (k : string) (d : list (string * V)) :
  Dict.get String.eqb k d = None <-> ~ In k (map fst d).
Proof.
  induction d as [|[k' v'] d IH]; simpl.
  - split; [intros _ [] | reflexivity].
  - destruct (String.eqb_spec k' k) as [->|Hne].
    + split; [discriminate | intro H; exfalso; apply H; now left].
    + rewrite IH. split.
      * intros H [E|E]; [congruence | contradiction].
      * intros H E. apply H. now right.
Qed.

Lemma dict_keys_set {V : Type} (k : string) (v : V) (d : list (string * V)) :
  map fst (Dict.set String.eqb k v d)
  = match Dict.get String.eqb k d with
    | Some _ => map fst d
    | None => map fst d ++ [k]
    end.
Proof.
  induction d as [|[k' v'] d IH]; simpl; [reflexivity|].
  destruct (String.eqb_spec k' k) as [->|Hne]; simpl; [reflexivity|].
  rewrite IH. destruct (Dict.get String.eqb k d); reflexivity.
Qed.

Lemma dict_set_nodup {V : Type} (k : string) (v : V) (d : list (string * V)) :
  NoDup (map fst d) -> NoDup (map fst (Dict.set String.eqb k v d)).
Proof.
  intro Hd. rewrite dict_keys_set.
  destruct (Dict.get String.eqb k d) eqn:Hg; [exact Hd|].
  apply dict_get_none in Hg.
  apply NoDup_app; [exact Hd | repeat constructor; intros [] |].
  intros x Hx [<-|[]]. contradiction.
Qed.

Lemma dict_set_sum {V : Type} (f : V -> nat) (k : string) (v : V) (d : list (string * V)) :
  (list_sum (map (fun kv => f (snd kv)) (Dict.set String.eqb k v d))
   + match Dict.get String.eqb k d with Some old => f old | None => 0 end
   = list_sum (map (fun kv => f (snd kv)) d) + f v)%nat.
Proof.
  induction d as [|[k' v'] d IH]; simpl; [lia|].
  destruct (String.eqb_spec k' k) as [->|Hne]; simpl; lia.
Qed.

Lemma list_sum_perm (l l' : list nat) : Permutation l l' -> list_sum l = list_sum l'.
Proof.
  induction 1; simpl; lia.
Qed.

(** ** Keys of the aggregates *)

Lemma acumular_cod_prod (p : Acumulado) (item : Item) :
  ac_cod_prod (acumular p item) = ac_cod_prod p.
Proof. reflexivity. Qed.

Lemma processar_linha_chaves (hoje : datetime) (cm : ColMapping) (c_cod c_dt : string)
  (st : Estado) (row : Series) :
  chaves_ok (produtos st) ->
  chaves_ok (produtos (processar_linha hoje cm c_cod c_dt st row)).
Proof.
  intros [Hnd Hk]. unfold processar_linha.
  destruct (isna (loc row c_cod) || String.eqb (strip (str (loc row c_cod))) "") eqn:Hc;
    [split; assumption|].
  destruct (parse_date (loc row c_dt)) as [[d|]|ex]; try (split; assumption).
  cbn [produtos]. split; [apply dict_set_nodup, Hnd|].
  intros k p Hin. apply dict_in_set in Hin. destruct Hin as [[= -> ->]|Hin]; [|apply Hk, Hin].
  rewrite acumular_cod_prod. split.
  - destruct (Dict.get String.eqb (str (loc row c_cod)) (produtos st)) as [q|] eqn:Hg.
    + apply dict_get_some_in in Hg. apply (Hk _ _ Hg).
    + reflexivity.
  - apply orb_false_iff in Hc. destruct Hc as [_ Hc]. now apply String.eqb_neq in Hc.
Qed.

Lemma processar_linhas_chaves (hoje : datetime) (cm : ColMapping) (c_cod c_dt : string)
  (df : DataFrame) :
  chaves_ok (produtos (processar_linhas hoje cm c_cod c_dt df)).
Proof.
  unfold processar_linhas.
  assert (H0 : chaves_ok (produtos (estado_inicial df))).
  { split; [constructor | intros k p []]. }
  revert H0. generalize (estado_inicial df).
  induction (iterrows df) as [|row linhas IH]; intros st Hst; simpl.
  - exact Hst.
  - apply IH, processar_linha_chaves, Hst.
Qed.

(** The products of a run, before the final sort, taken from the loop state. *)
Lemma produtos_of_run (hoje : datetime) (df : DataFrame) (a : Analise) :
  process_data hoje df = Ok a ->
  exists c_dt c_cod,
    mapped (col_dt_val (find_columns (columns df))) = Some c_dt
    /\ mapped (col_cod_prod (find_columns (columns df))) = Some c_cod
    /\ Permutation
         (map finalizar
            (Dict.values
               (produtos (processar_linhas hoje (find_columns (columns df)) c_cod c_dt df))))
         (produtos_criticos a)
    /\ estatisticas a
       = estatisticas_ (processar_linhas hoje (find_columns (columns df)) c_cod c_dt df).
Proof.
  intro Hrun. apply process_data_Ok in Hrun.
  destruct Hrun as [c_dt [c_cod [Hdt [Hcod [Hag _]]]]].
  exists c_dt, c_cod. split; [exact Hdt|]. split; [exact Hcod|].
  pose proof (agregar_spec hoje (find_columns (columns df)) c_cod c_dt df) as H.
  rewrite Hag in H. destruct H as [Hl [_ [_ [_ [_ He]]]]].
  split; [rewrite Hl; apply sort_perm | exact He].
Qed.

(** X1: the returned list has one product per product code: the codes are
    pairwise distinct and none is blank. *)
Theorem one_product_per_code (hoje : datetime) (df : DataFrame) (a : Analise)
  (Hrun : process_data hoje df = Ok a) :
  NoDup (map cod_prod (produtos_criticos a))
  /\ forall p, In p (produtos_criticos a) -> strip (cod_prod p) <> "".
Proof.
  destruct (produtos_of_run hoje df a Hrun) as [c_dt [c_cod [_ [_ [Hp _]]]]].
  destruct (processar_linhas_chaves hoje (find_columns (columns df)) c_cod c_dt df)
    as [Hnd Hk].
  set (d := produtos (processar_linhas hoje (find_columns (columns df)) c_cod c_dt df)) in *.
  assert (Hcods : map cod_prod (map finalizar (Dict.values d)) = map fst d).
  { unfold Dict.values. rewrite !map_map. apply map_ext_in.
    intros [k p] Hin. simpl. apply (Hk k p Hin). }
  split.
  - eapply Permutation_NoDup; [apply Permutation_map, Hp|]. now rewrite Hcods.
  - intros p Hin. eapply Permutation_in in Hin; [|apply Permutation_sym, Hp].
    apply in_map_iff in Hin. destruct Hin as [q [<- Hq]].
    unfold Dict.values in Hq. apply in_map_iff in Hq. destruct Hq as [[k q'] [E Hin]].
    simpl in E. subst q'. simpl. destruct (Hk k q Hin) as [-> Hne]. exact Hne.
Qed.

Lemma one_product_per_code_witness :
  match process_data hoje_ex df_ex with
  | Ok a => NoDup (map cod_prod (produtos_criticos a))
  | Raise _ => False
  end.
Proof.
  destruct (process_data hoje_ex df_ex) as [a|e] eqn:Hrun.
  - exact (proj1 (one_product_per_code hoje_ex df_ex a Hrun)).
  - vm_compute in Hrun. discriminate Hrun.
Defined.

(** ** Processed rows and line items *)

Lemma processar_linha_conta (hoje : datetime) (cm : ColMapping) (c_cod c_dt : string)
  (st : Estado) (row : Series) :
  linhas_processadas (estatisticas_ st) = conta_itens (produtos st) ->
  linhas_processadas (estatisticas_ (processar_linha hoje cm c_cod c_dt st row))
  = conta_itens (produtos (processar_linha hoje cm c_cod c_dt st row)).
Proof.
  intro Hinv. unfold processar_linha.
  destruct (isna (loc row c_cod) || String.eqb (strip (str (loc row c_cod))) "");
    [exact Hinv|].
  destruct (parse_date (loc row c_dt)) as [[d|]|ex]; try exact Hinv.
  cbn [produtos estatisticas_ linhas_processadas]. rewrite Hinv. unfold conta_itens.
  match goal with
  | |- context [Dict.set String.eqb ?k ?v ?d] =>
      pose proof (dict_set_sum (fun p => List.length (ac_itens_detalhados p)) k v d) as Hs
  end.
  cbv beta in Hs.
  destruct (Dict.get String.eqb (str (loc row c_cod)) (produtos st)) as [q|];
    cbn [acumular ac_itens_detalhados novo_produto] in Hs;
    rewrite length_app in Hs; simpl in Hs; lia.
Qed.

Lemma processar_linhas_conta (hoje : datetime) (cm : ColMapping) (c_cod c_dt : string)
  (df : DataFrame) :
  linhas_processadas (estatisticas_ (processar_linhas hoje cm c_cod c_dt df))
  = conta_itens (produtos (processar_linhas hoje cm c_cod c_dt df)).
Proof.
  unfold processar_linhas.
  assert (H0 : linhas_processadas (estatisticas_ (estado_inicial df))
               = conta_itens (produtos (estado_inicial df))) by reflexivity.
  revert H0. generalize (estado_inicial df).
  induction (iterrows df) as [|row linhas IH]; intros st Hst; simpl.
  - exact Hst.
  - apply IH, processar_linha_conta, Hst.
Qed.

(** X2: the number of processed rows is the number of line items of the
    returned products: every processed row is one line item of exactly one
    product. *)
Theorem processed_rows_are_line_items (hoje : datetime) (df : DataFrame) (a : Analise)
  (Hrun : process_data hoje df = Ok a) :
  linhas_processadas (estatisticas a) = conta_itens_produtos (produtos_criticos a).
Proof.
  destruct (produtos_of_run hoje df a Hrun) as [c_dt [c_cod [_ [_ [Hp He]]]]].
  rewrite He, processar_linhas_conta.
  unfold conta_itens_produtos.
  rewrite <- (list_sum_perm _ _ (Permutation_map _ Hp)).
  unfold conta_itens, Dict.values. rewrite !map_map. f_equal.
  apply map_ext. intros [k p]. simpl. now rewrite sort_length.
Qed.

Lemma processed_rows_are_line_items_witness :
  match process_data hoje_ex df_ex with
  | Ok a => linhas_processadas (estatisticas a) = conta_itens_produtos (produtos_criticos a)
  | Raise _ => False
  end.
Proof.
  destruct (process_data hoje_ex df_ex) as [a|e] eqn:Hrun.
  - exact (processed_rows_are_line_items hoje_ex df_ex a Hrun).
  - vm_compute in Hrun. discriminate Hrun.
Defined.

(** ** Order inside a product and of the product list *)

Lemma item_le_total (a b : Item) : item_le a b = true \/ item_le b a = true.
Proof.
  unfold item_le. destruct (Z.leb_spec (dias_restantes a) (dias_restantes b));
    [left; reflexivity | right; apply Z.leb_le; lia].
Qed.

Lemma venc_le_total (a b : Vencimento) : venc_le a b = true \/ venc_le b a = true.
Proof.
  unfold venc_le.
  destruct (Z.leb_spec (venc_dias_restantes a) (venc_dias_restantes b));
    [left; reflexivity | right; apply Z.leb_le; lia].
Qed.

Lemma ordem_monotone (m n : Z) : m <= n -> ordem m <= ordem n.
Proof.
  unfold ordem. intro H.
  destruct (Z.ltb_spec m 0), (Z.ltb_spec n 0),
    (Z.leb_spec m 30), (Z.leb_spec n 30), (Z.leb_spec m 60), (Z.leb_spec n 60); lia.
Qed.

Lemma chave_le_menor (p q : Produto) :
  chave_le p q = true -> menor_dias_restantes p <= menor_dias_restantes q.
Proof.
  unfold chave_le. rewrite orb_true_iff, andb_true_iff, Z.ltb_lt, Z.eqb_eq, Z.leb_le.
  intros [H|[_ H]]; [|exact H].
  destruct (Z.le_gt_cases (menor_dias_restantes p) (menor_dias_restantes q)) as [Hle|Hgt];
    [exact Hle|].
  pose proof (ordem_monotone (menor_dias_restantes q) (menor_dias_restantes p)). lia.
Qed.

(** X3: in every returned analysis the products come in ascending order of
    minimum days-remaining (the tier rank never overrides it), the line
    items of each product in ascending order of days-remaining and its month
    buckets in ascending order of their days-remaining. *)
Theorem everything_ascending_by_days (hoje : datetime) (df : DataFrame) (a : Analise)
  (Hrun : process_data hoje df = Ok a) :
  StronglySorted (fun p q => menor_dias_restantes p <= menor_dias_restantes q)
    (produtos_criticos a)
  /\ forall p, In p (produtos_criticos a) ->
       StronglySorted (fun i j => dias_restantes i <= dias_restantes j)
         (itens_detalhados p)
       /\ StronglySorted (fun v w => venc_dias_restantes v <= venc_dias_restantes w)
            (vencimentos_por_mes p).
Proof.
  split.
  - destruct (criticality_tiers_of_run hoje df a Hrun) as [_ [ps Hl]]. rewrite Hl.
    apply Sorted_StronglySorted; [intros x y z; lia|].
    apply Sorted_weaken with (R := fun p q => chave_le p q = true).
    + intros p q _ _. apply chave_le_menor.
    + apply sort_sorted, chave_le_total.
  - intros p Hp.
    destruct (produtos_of_run hoje df a Hrun) as [c_dt [c_cod [_ [_ [Hperm _]]]]].
    eapply Permutation_in in Hp; [|apply Permutation_sym, Hperm].
    apply in_map_iff in Hp. destruct Hp as [q [<- _]]. cbn [finalizar itens_detalhados
      vencimentos_por_mes]. split.
    + apply Sorted_StronglySorted; [intros x y z; lia|].
      apply Sorted_weaken with (R := fun i j => item_le i j = true).
      * intros i j _ _. apply Z.leb_le.
      * apply sort_sorted, item_le_total.
    + apply Sorted_StronglySorted; [intros x y z; lia|].
      apply Sorted_weaken with (R := fun v w => venc_le v w = true).
      * intros v w _ _. apply Z.leb_le.
      * apply sort_sorted, venc_le_total.
Qed.

Lemma everything_ascending_by_days_witness :
  match process_data hoje_ex df_ex with
  | Ok a =>
      StronglySorted (fun p q => menor_dias_restantes p <= menor_dias_restantes q)
        (produtos_criticos a)
  | Raise _ => False
  end.
Proof.
  destruct (process_data hoje_ex df_ex) as [a|e] eqn:Hrun.
  - exact (proj1 (everything_ascending_by_days hoje_ex df_ex a Hrun)).
  - vm_compute in Hrun. discriminate Hrun.
Defined.

(** ** Month buckets *)

Lemma mes_ano_eqb_spec (a b : MesAno) : mes_ano_eqb a b = true <-> a = b.
Proof.
  destruct a as [m y], b as [m' y']. unfold mes_ano_eqb. simpl.
  rewrite andb_true_iff, !Z.eqb_eq. split; [intros [-> ->]; reflexivity | now intros [= -> ->]].
Qed.

Lemma fadd_assoc (a b c : float) : fadd a (fadd b c) = fadd (fadd a b) c.
Proof.
  destruct a as [|sa|qa], b as [|sb|qb], c as [|sc|qc]; cbn [fadd]; try reflexivity;
    try (destruct sa; reflexivity);
    try (destruct sb; reflexivity);
    try (destruct sc; reflexivity);
    try (destruct sa, sb; reflexivity);
    try (destruct sa, sc; reflexivity);
    try (destruct sb, sc; reflexivity);
    try (destruct sa, sb, sc; reflexivity).
  f_equal. apply Qred_complete. rewrite !Qred_correct. ring.
Qed.

Lemma fold_fadd_shift (l : list float) (b x : float) :
  fold_left fadd l (fadd b x) = fadd (fold_left fadd l b) x.
Proof.
  revert b. induction l as [|y l IH]; intro b; simpl; [reflexivity|].
  rewrite (fadd_right_comm b x y). apply IH.
Qed.

Lemma acumular_mes_cons (key : MesAno) (qt : float) (d : Z) (k' : MesAno)
  (v' : Vencimento) (r : list (MesAno * Vencimento)) :
  acumular_mes key qt d ((k', v') :: r)
  = if mes_ano_eqb k' key
    then (key, mk_venc (mes_ano v') (fadd (venc_quantidade v') qt)
                 (venc_dias_restantes v')) :: r
    else (k', v') :: acumular_mes key qt d r.
Proof.
  unfold acumular_mes. simpl. destruct (mes_ano_eqb k' key); reflexivity.
Qed.

Lemma acumular_mes_sum (key : MesAno) (qt : float) (d : Z)
  (vs : list (MesAno * Vencimento)) (a : float) :
  normal qt ->
  fold_left fadd (map venc_quantidade (Dict.values (acumular_mes key qt d vs))) a
  = fadd (fold_left fadd (map venc_quantidade (Dict.values vs)) a) qt.
Proof.
  intro Hn. revert a. induction vs as [|[k' v'] r IH]; intro a.
  - unfold acumular_mes, Dict.values.
    cbn [Dict.get Dict.set map snd venc_quantidade fold_left].
    now rewrite (fadd_zero_normal qt Hn).
  - rewrite acumular_mes_cons. destruct (mes_ano_eqb k' key).
    + unfold Dict.values. cbn [map snd venc_quantidade fold_left].
      rewrite fadd_assoc. apply fold_fadd_shift.
    + unfold Dict.values in *. cbn [map snd venc_quantidade fold_left]. apply IH.
Qed.

Lemma acumular_mes_keys (key : MesAno) (qt : float) (d : Z)
  (vs : list (MesAno * Vencimento)) (k : MesAno) :
  In k (map fst (acumular_mes key qt d vs)) <-> In k (map fst vs) \/ k = key.
Proof.
  induction vs as [|[k' v'] r IH].
  - unfold acumular_mes. simpl. intuition congruence.
  - rewrite acumular_mes_cons. destruct (mes_ano_eqb k' key) eqn:E.
    + apply mes_ano_eqb_spec in E. subst k'. simpl. intuition congruence.
    + simpl. rewrite IH. tauto.
Qed.

Lemma acumular_mes_nodup (key : MesAno) (qt : float) (d : Z)
  (vs : list (MesAno * Vencimento)) :
  NoDup (map fst vs) -> NoDup (map fst (acumular_mes key qt d vs)).
Proof.
  induction vs as [|[k' v'] r IH]; intro Hnd.
  - unfold acumular_mes. simpl. repeat constructor. intros [].
  - rewrite acumular_mes_cons. simpl in Hnd. inversion Hnd as [|x l Hx Hl]; subst.
    destruct (mes_ano_eqb k' key) eqn:E.
    + apply mes_ano_eqb_spec in E. subst k'. simpl. constructor; assumption.
    + simpl. constructor; [|apply IH, Hl].
      intro Hin. apply acumular_mes_keys in Hin. destruct Hin as [Hin | ->]; [contradiction|].
      assert (mes_ano_eqb key key = true) by now apply mes_ano_eqb_spec. congruence.
Qed.

Lemma acumular_mes_labels (key : MesAno) (qt : float) (d : Z)
  (vs : list (MesAno * Vencimento)) :
  (forall k v, In (k, v) vs -> mes_ano v = k) ->
  forall k v, In (k, v) (acumular_mes key qt d vs) -> mes_ano v = k.
Proof.
  induction vs as [|[k' v'] r IH]; intros Hl k v.
  - unfold acumular_mes. simpl. intros [[= <- <-]|[]]. reflexivity.
  - rewrite acumular_mes_cons. destruct (mes_ano_eqb k' key) eqn:E.
    + apply mes_ano_eqb_spec in E. subst k'.
      intros [[= <- <-]|Hin]; [apply (Hl key v'); now left | apply Hl; now right].
    + intros [[= <- <-]|Hin]; [apply Hl; now left|].
      apply IH; [|exact Hin]. intros k0 v0 H0. apply Hl. now right.
Qed.

Lemma novo_produto_meses (cm : ColMapping) (row : Series) (cod : string) (qt : float) :
  meses_ok (novo_produto cm row cod qt).
Proof.
  unfold meses_ok. simpl. repeat split; try constructor; try tauto; intros k v [].
Qed.

Lemma acumular_meses (p : Acumulado) (item : Item) :
  normal (quantidade item) -> meses_ok p -> meses_ok (acumular p item).
Proof.
  intros Hn [Hnd [Hl [Hk [Hs Hq]]]]. unfold meses_ok.
  cbn [acumular ac_vencimentos_por_mes ac_itens_detalhados ac_quantidade_total].
  split; [apply acumular_mes_nodup, Hnd|].
  split; [apply acumular_mes_labels, Hl|].
  split; [|split].
  - intro k. rewrite acumular_mes_keys, map_app, in_app_iff, Hk. simpl.
    unfold mes_do_item. intuition congruence.
  - unfold fsum in *. rewrite (acumular_mes_sum _ _ _ _ _ Hn), Hs. reflexivity.
  - apply Forall_app. split; [exact Hq | repeat constructor; exact Hn].
Qed.

Lemma processar_linhas_meses (hoje : datetime) (cm : ColMapping) (c_cod c_dt : string)
  (df : DataFrame) :
  forall k p, In (k, p) (produtos (processar_linhas hoje cm c_cod c_dt df)) -> meses_ok p.
Proof.
  unfold processar_linhas.
  assert (H0 : forall k p, In (k, p) (produtos (estado_inicial df)) -> meses_ok p)
    by (intros k p []).
  revert H0. generalize (estado_inicial df).
  induction (iterrows df) as [|row linhas IH]; intros st Hst; simpl; [exact Hst|].
  apply IH. clear IH. unfold processar_linha.
  destruct (isna (loc row c_cod) || String.eqb (strip (str (loc row c_cod))) "");
    [exact Hst|].
  destruct (parse_date (loc row c_dt)) as [[d|]|ex]; try exact Hst.
  intros k p Hin. cbn [produtos] in Hin. apply dict_in_set in Hin.
  destruct Hin as [[= -> ->]|Hin]; [|apply (Hst k p Hin)].
  apply acumular_meses.
  - cbn [novo_item quantidade]. rewrite converter_quantidade_spec.
    apply quantity_of_normal.
  - destruct (Dict.get String.eqb (str (loc row c_cod)) (produtos st)) as [q|] eqn:Hg.
    + apply dict_get_some_in in Hg. apply (Hst _ _ Hg).
    + apply novo_produto_meses.
Qed.




(** ** Rows that are skipped *)

Lemma processar_linha_skip (hoje : datetime) (cm : ColMapping) (c_cod c_dt : string)
  (st : Estado) (row : Series) :
  processavel c_cod c_dt row = false ->
  produtos (processar_linha hoje cm c_cod c_dt st row) = produtos st
  /\ linhas_processadas (estatisticas_ (processar_linha hoje cm c_cod c_dt st row))
     = linhas_processadas (estatisticas_ st)
  /\ linhas_ignoradas (estatisticas_ (processar_linha hoje cm c_cod c_dt st row))
     = S (linhas_ignoradas (estatisticas_ st)).
Proof.
  unfold processavel, processar_linha.
  destruct (isna (loc row c_cod) || String.eqb (strip (str (loc row c_cod))) "");
    [intros _; repeat split|].
  destruct (parse_date (loc row c_dt)) as [[d|]|ex]; simpl;
    [discriminate | intros _; repeat split | intros _; repeat split].
Qed.

Lemma processar_linha_keep (hoje : datetime) (cm : ColMapping) (c_cod c_dt : string)
  (st st' : Estado) (row : Series) :
  processavel c_cod c_dt row = true ->
  produtos st = produtos st' ->
  produtos (processar_linha hoje cm c_cod c_dt st row)
  = produtos (processar_linha hoje cm c_cod c_dt st' row)
  /\ linhas_processadas (estatisticas_ (processar_linha hoje cm c_cod c_dt st row))
     = S (linhas_processadas (estatisticas_ st))
  /\ linhas_ignoradas (estatisticas_ (processar_linha hoje cm c_cod c_dt st row))
     = linhas_ignoradas (estatisticas_ st).
Proof.
  unfold processavel, processar_linha. intros Hok Hst.
  destruct (isna (loc row c_cod) || String.eqb (strip (str (loc row c_cod))) "");
    [discriminate|].
  destruct (parse_date (loc row c_dt)) as [[d|]|ex]; try discriminate.
  cbn [produtos estatisticas_ linhas_processadas linhas_ignoradas].
  rewrite Hst. repeat split.
Qed.

Lemma processar_linhas_filter (hoje : datetime) (cm : ColMapping) (c_cod c_dt : string)
  (linhas : list Series) (st st' : Estado) :
  produtos st = produtos st' ->
  produtos (fold_left (processar_linha hoje cm c_cod c_dt) linhas st)
  = produtos (fold_left (processar_linha hoje cm c_cod c_dt)
                (filter (processavel c_cod c_dt) linhas) st').
Proof.
  revert st st'. induction linhas as [|row linhas IH]; intros st st' Hst; simpl.
  - exact Hst.
  - destruct (processavel c_cod c_dt row) eqn:Hok.
    + simpl. apply IH.
      apply (processar_linha_keep hoje cm c_cod c_dt st st' row Hok Hst).
    + apply IH.
      rewrite (proj1 (processar_linha_skip hoje cm c_cod c_dt st row Hok)). exact Hst.
Qed.




(** X6: rows without product code or without a parseable date leave no
    trace in the result apart from the statistics: deleting them from the
    table gives the same products, summary, filters and recommendations. *)
Theorem skipped_rows_leave_no_trace (hoje : datetime) (df : DataFrame) (a : Analise)
  (c_dt c_cod : string)
  (Hdt : mapped (col_dt_val (find_columns (columns df))) = Some c_dt)
  (Hcod : mapped (col_cod_prod (find_columns (columns df))) = Some c_cod)
  (Hrun : process_data hoje df = Ok a) :
  exists a',
    process_data hoje
      (mk_df (columns df)
         (filter (fun r => processavel c_cod c_dt (label (columns df) r)) (rows df)))
    = Ok a'
    /\ produtos_criticos a' = produtos_criticos a
    /\ resumo a' = resumo a
    /\ filtros a' = filtros a
    /\ recomendacoes a' = recomendacoes a.
Proof.
  set (df' := mk_df (columns df)
                (filter (fun r => processavel c_cod c_dt (label (columns df) r)) (rows df))).
  assert (Hprod : produtos (processar_linhas hoje (find_columns (columns df)) c_cod c_dt df')
                  = produtos (processar_linhas hoje (find_columns (columns df)) c_cod c_dt df)).
  { unfold processar_linhas, iterrows, df'. cbn [columns rows].
    symmetry.
    replace (map (label (columns df))
               (filter (fun r => processavel c_cod c_dt (label (columns df) r)) (rows df)))
      with (filter (processavel c_cod c_dt) (map (label (columns df)) (rows df))).
    - apply processar_linhas_filter. reflexivity.
    - clear. induction (rows df) as [|r l IH]; simpl; [reflexivity|].
      destruct (processavel c_cod c_dt (label (columns df) r)); simpl; now rewrite IH. }
  apply process_data_Ok in Hrun.
  destruct Hrun as [c_dt' [c_cod' [Hdt' [Hcod' [Hag [Hf [Hr _]]]]]]].
  rewrite Hdt in Hdt'. rewrite Hcod in Hcod'. injection Hdt' as <-. injection Hcod' as <-.
  unfold process_data. cbn [columns df']. rewrite Hdt, Hcod.
  unfold agregar in *. fold df'. rewrite Hprod.
  destruct (classificar_todos
              (Dict.values
                 (produtos (processar_linhas hoje (find_columns (columns df)) c_cod c_dt df))))
    as [lista r].
  injection Hag as Hl Hres _. rewrite Hl, Hres, Hf. cbn [bind].
  eexists. split; [reflexivity|].
  cbn [produtos_criticos resumo filtros recomendacoes].
  repeat split. symmetry. exact Hr.
Qed.

Lemma skipped_rows_leave_no_trace_witness :
  match process_data hoje_ex df_ex with
  | Ok a =>
      exists a',
        process_data hoje_ex
          (mk_df (columns df_ex)
             (filter (fun r => processavel "CODPROD" "DTVAL" (label (columns df_ex) r))
                (rows df_ex)))
        = Ok a'
        /\ produtos_criticos a' = produtos_criticos a
  | Raise _ => False
  end.
Proof.
  destruct (process_data hoje_ex df_ex) as [a|e] eqn:Hrun.
  - destruct (skipped_rows_leave_no_trace hoje_ex df_ex a "DTVAL" "CODPROD"
                eq_refl eq_refl Hrun) as [a' [H1 [H2 _]]].
    exists a'. split; assumption.
  - vm_compute in Hrun. discriminate Hrun.
Defined.

(** ** The summary *)





(** The products of a run are classified and the counters of its summary
    count them by tier. *)
Lemma criticality_by_run (hoje : datetime) (df : DataFrame) (a : Analise) :
  process_data hoje df = Ok a ->
  (forall p, In p (produtos_criticos a) -> classified p)
  /\ produtos_vencidos (resumo a) = count_tier vencido (produtos_criticos a)
  /\ produtos_vencendo_30_dias (resumo a) = count_tier alta (produtos_criticos a)
  /\ produtos_vencendo_60_dias (resumo a) = count_tier media (produtos_criticos a).
Proof.
  intro Hrun. split; [apply (criticality_tiers_of_run hoje df a Hrun)|].
  apply process_data_Ok in Hrun.
  destruct Hrun as [c_dt [c_cod [_ [_ [Hag _]]]]].
  pose proof (agregar_spec hoje (find_columns (columns df)) c_cod c_dt df) as H.
  rewrite Hag in H. destruct H as [_ [_ [Hv [Ha [Hm _]]]]].
  repeat split; assumption.
Qed.

(** ** Recommendations and the summary *)

Lemma recomendar_msg_se (xs : list Produto) (msg : nat -> string) (r : list string) :
  recomendar xs msg r = r ++ msg_se (List.length xs) msg.
Proof.
  destruct xs; simpl; [now rewrite app_nil_r | reflexivity].
Qed.

Lemma filter_vencidos_classified (ps : list Produto) :
  (forall p, In p ps -> classified p) ->
  filter e_vencido ps = filter (fun p => criticidade_eqb (criticidade p) vencido) ps.
Proof.
  intro Hcl. apply filter_ext_in. intros p Hp. specialize (Hcl p Hp).
  unfold classified, tier in Hcl. unfold e_vencido. rewrite Hcl.
  destruct (menor_dias_restantes p <? 0); [reflexivity|].
  destruct (menor_dias_restantes p <=? 30); [reflexivity|].
  destruct (menor_dias_restantes p <=? 60); reflexivity.
Qed.

(** X8: the recommendations of a returned analysis are, in this order, the
    expired, 30-day and 60-day messages carrying the counters of the
    summary and the large-quantity message carrying the number of products
    above 100 units outside the low tier, each present only when its number
    is positive; when none is present the list is the control message
    alone.  The list is never empty and never longer than four. *)
Theorem recommendations_follow_summary (hoje : datetime) (df : DataFrame) (a : Analise)
  (Hrun : process_data hoje df = Ok a) :
  let msgs :=
    msg_se (produtos_vencidos (resumo a)) msg_vencidos
    ++ msg_se (produtos_vencendo_30_dias (resumo a)) msg_criticos
    ++ msg_se (produtos_vencendo_60_dias (resumo a)) msg_medios
    ++ msg_se (List.length (filter e_grande (produtos_criticos a))) msg_grandes in
  recomendacoes a = match msgs with [] => [msg_controle] | _ => msgs end
  /\ (1 <= List.length (recomendacoes a) <= 4)%nat.
Proof.
  intro msgs.
  destruct (criticality_by_run hoje df a Hrun) as [Hcl [Hv [Ha Hm]]].
  apply process_data_Ok in Hrun.
  destruct Hrun as [_ [_ [_ [_ [_ [_ [Hr _]]]]]]].
  assert (E : recomendacoes a = match msgs with [] => [msg_controle] | _ => msgs end).
  { rewrite Hr. unfold _gerar_recomendacoes. rewrite !recomendar_msg_se.
    rewrite (filter_vencidos_classified _ Hcl).
    unfold count_tier in Hv, Ha, Hm. unfold e_critico, e_medio.
    rewrite <- Hv, <- Ha, <- Hm. subst msgs. simpl app at 1.
    rewrite <- !app_assoc. reflexivity. }
  split; [exact E|]. rewrite E. subst msgs.
  destruct (produtos_vencidos (resumo a)), (produtos_vencendo_30_dias (resumo a)),
    (produtos_vencendo_60_dias (resumo a)),
    (List.length (filter e_grande (produtos_criticos a))); simpl; lia.
Qed.

Lemma recommendations_follow_summary_witness :
  match process_data hoje_ex df_ex with
  | Ok a => (1 <= List.length (recomendacoes a) <= 4)%nat
  | Raise _ => False
  end.
Proof.
  destruct (process_data hoje_ex df_ex) as [a|e] eqn:Hrun.
  - exact (proj2 (recommendations_follow_summary hoje_ex df_ex a Hrun)).
  - vm_compute in Hrun. discriminate Hrun.
Defined.

(** * Further properties of the date parser *)

(** ** Dash-separated dates *)

Lemma float_of_str_sep (sep : ascii) (dd rest : string) :
  is_digit sep = false -> Ascii.eqb sep "." = false ->
  Ascii.eqb (to_lower sep) "e" = false ->
  is_space_num sep = false -> Ascii.eqb sep "_" = false ->
  all_digits dd = true -> dd <> "" ->
  string_all (fun c => negb (is_space_num c) && negb (Ascii.eqb c "_")) rest = true ->
  float_of_str (dd ++ String sep rest)%string = None.
Proof.
  intros Hdig Hdot He Hsp Hus Ad Nd Hrest.
  assert (Hall : string_all (fun c => negb (is_space_num c) && negb (Ascii.eqb c "_"))
                   (dd ++ String sep rest)%string = true).
  { rewrite string_all_app. cbn [string_all]. rewrite Hrest, Hsp, Hus.
    replace (string_all (fun c => negb (is_space_num c) && negb (Ascii.eqb c "_")) dd)
      with true; [reflexivity|].
    symmetry. rewrite all_digits_string_all in Ad. revert Ad. apply string_all_impl.
    intros c Hc. destruct (digit_facts c Hc) as [_ [H1 [_ [_ [H2 _]]]]].
    now rewrite H1, H2. }
  unfold float_of_str, strip_num.
  rewrite lstrip_by_none, rstrip_by_none, drop_underscores_none; try reflexivity;
    try (revert Hall; apply string_all_impl; intros c Hc;
         apply andb_true_iff in Hc; tauto).
  destruct dd as [|c dd']; [congruence|].
  assert (Hc : is_digit c = true) by (simpl in Ad; now apply andb_true_iff in Ad).
  change (String c dd' ++ String sep rest)%string
    with (String c (dd' ++ String sep rest)).
  rewrite (take_sign_digit c _ Hc).
  destruct (digit_not_letter c (dd' ++ String sep rest) Hc) as [E1 [E2 E3]].
  rewrite E1, E2, E3. cbn [orb].
  unfold decimal_literal.
  change (String c (dd' ++ String sep rest))
    with (String c dd' ++ String sep rest)%string.
  rewrite (span_digits_sep _ _ sep Ad Hdig).
  destruct (Ascii.eqb_spec sep "."%char) as [->|Hne]; [discriminate Hdot|].
  replace (match String sep rest with
           | String "."%char r => span_digits r
           | _ => (EmptyString, String sep rest)
           end) with (EmptyString, String sep rest).
  - cbn [String.eqb andb]. rewrite He. reflexivity.
  - clear -Hne. destruct sep as [[] [] [] [] [] [] [] []]; try reflexivity.
    congruence.
Qed.

Lemma dash_date_shape (dd mm yyyy : string) :
  digits_len 1 2 dd = true -> digits_len 1 2 mm = true -> digits_len 4 4 yyyy = true ->
  let s := (dd ++ "-" ++ mm ++ "-" ++ yyyy)%string in
  in_list s null_dates = false /\ strip s = s
  /\ re_dmy "/" s = false /\ re_dmy "-" s = true
  /\ unpack_ints (split "-" s)
     = Ok (digits_value dd, digits_value mm, digits_value yyyy)
  /\ parse_excel s = Ok None.
Proof.
  intros Hdd Hmm Hyy s.
  destruct (digits_len_inv _ _ _ Hdd) as [Ad Ld].
  destruct (digits_len_inv _ _ _ Hmm) as [Am Lm].
  destruct (digits_len_inv _ _ _ Hyy) as [Ay Ly].
  assert (Hmax : (4 <= max_str_digits)%nat) by (apply Nat.leb_le; reflexivity).
  assert (Nd : dd <> "") by (destruct dd; [simpl in Ld; lia | discriminate]).
  assert (Nm : mm <> "") by (destruct mm; [simpl in Lm; lia | discriminate]).
  assert (Ny : yyyy <> "") by (destruct yyyy; [simpl in Ly; lia | discriminate]).
  assert (Hs : s = (dd ++ String "-" (mm ++ String "-" yyyy))%string) by reflexivity.
  assert (Hdig : forall (q : ascii -> bool) t,
             (forall c, is_digit c = true -> q c = true) ->
             all_digits t = true -> string_all q t = true).
  { intros q t Hq Ht. rewrite all_digits_string_all in Ht. revert Ht.
    now apply string_all_impl. }
  assert (Hq1 : forall c, is_digit c = true -> negb (is_space c) = true).
  { intros c Hc. apply negb_true_iff, (digit_facts c Hc). }
  assert (Hq2 : forall c, is_digit c = true ->
                  negb (is_space_num c) && negb (Ascii.eqb c "_") = true).
  { intros c Hc. destruct (digit_facts c Hc) as [_ [H1 [_ [_ [H2 _]]]]].
    now rewrite H1, H2. }
  assert (Hq3 : forall c, is_digit c = true -> negb (Ascii.eqb c "/") = true).
  { intros c Hc. apply negb_true_iff, (digit_facts c Hc). }
  assert (Hnb : string_all (fun c => negb (is_space c)) s = true).
  { rewrite Hs, !string_all_app. cbn [string_all].
    rewrite !string_all_app. cbn [string_all].
    rewrite (Hdig _ dd Hq1 Ad), (Hdig _ mm Hq1 Am), (Hdig _ yyyy Hq1 Ay). reflexivity. }
  split.
  { rewrite Hs. destruct dd as [|c dd']; [congruence|].
    apply starts_with_digit_not_null. simpl in Ad. now apply andb_true_iff in Ad. }
  split; [unfold strip; now rewrite (lstrip_by_none _ _ Hnb), (rstrip_by_none _ _ Hnb)|].
  split.
  { unfold re_dmy. rewrite split_no_sep; [reflexivity|].
    rewrite Hs, !string_all_app. cbn [string_all]. rewrite !string_all_app.
    cbn [string_all].
    rewrite (Hdig _ dd Hq3 Ad), (Hdig _ mm Hq3 Am), (Hdig _ yyyy Hq3 Ay). reflexivity. }
  assert (Hsplit : split "-" s = [dd; mm; yyyy]).
  { rewrite Hs.
    rewrite split_app_sep by (apply digits_no_sep; [reflexivity | exact Ad]).
    rewrite split_app_sep by (apply digits_no_sep; [reflexivity | exact Am]).
    rewrite split_no_sep by (apply digits_no_sep; [reflexivity | exact Ay]).
    reflexivity. }
  split; [unfold re_dmy; rewrite Hsplit, Hdd, Hmm, Hyy; reflexivity|].
  split.
  { rewrite Hsplit. unfold unpack_ints. cbn [map].
    rewrite (int_of_str_digits dd Ad Nd) by lia.
    rewrite (int_of_str_digits mm Am Nm) by lia.
    rewrite (int_of_str_digits yyyy Ay Ny) by lia. reflexivity. }
  unfold parse_excel. rewrite Hs.
  rewrite (float_of_str_sep "-" dd _ eq_refl eq_refl eq_refl eq_refl eq_refl Ad Nd);
    [reflexivity|].
  rewrite string_all_app. cbn [string_all].
  rewrite (Hdig _ mm Hq2 Am), (Hdig _ yyyy Hq2 Ay). reflexivity.
Qed.

(** X9: a string [D-M-YYYY] or [DD-MM-YYYY] is read as day, month, year:
    when these form a date of the calendar (years 0001 to 9999) the parser
    returns exactly that date at midnight, otherwise it returns
    "unparseable"; it never raises. *)
Theorem parse_date_dash (dd mm yyyy : string)
  (Hdd : digits_len 1 2 dd = true)
  (Hmm : digits_len 1 2 mm = true)
  (Hyy : digits_len 4 4 yyyy = true) :
  parse_date (Str (dd ++ "-" ++ mm ++ "-" ++ yyyy)%string)
  = if valid_date (digits_value yyyy) (digits_value mm) (digits_value dd)
    then Ok (Some (mk_datetime (digits_value yyyy) (digits_value mm) (digits_value dd) 0))
    else Ok None.
Proof.
  destruct (dash_date_shape dd mm yyyy Hdd Hmm Hyy)
    as [Hnull [Hstrip [Hslash [Hdash [Hints Hexcel]]]]].
  destruct (digits_len_inv _ _ _ Hdd) as [Ad Ld].
  destruct (digits_len_inv _ _ _ Hmm) as [Am Lm].
  destruct (digits_len_inv _ _ _ Hyy) as [Ay Ly].
  unfold parse_date. cbn [isna str orb].
  rewrite Hnull, Hstrip, Hslash, Hdash, Hints. cbn [bind].
  destruct (valid_date (digits_value yyyy) (digits_value mm) (digits_value dd)) eqn:Hv.
  - rewrite (datetime_new_valid _ _ _ Hv). reflexivity.
  - destruct (datetime_new_invalid (digits_value yyyy) (digits_value mm) (digits_value dd))
      as [msg Hmsg]; try assumption; try (apply digits_value_small; [assumption | lia]).
    rewrite Hmsg. cbn [bind except_ValueError]. exact Hexcel.
Qed.

Lemma parse_date_dash_witness :
  parse_date (Str "7-11-2025") = Ok (Some (mk_datetime 2025 11 7 0))
  /\ parse_date (Str "31-04-2025") = Ok None.
Proof.
  split.
  - exact (parse_date_dash "7" "11" "2025" eq_refl eq_refl eq_refl).
  - exact (parse_date_dash "31" "04" "2025" eq_refl eq_refl eq_refl).
Defined.

(** ** ISO dates *)

Lemma rstrip_by_app (p : ascii -> bool) (a b : string) :
  string_all (fun c => negb (p c)) a = true ->
  rstrip_by p (a ++ b)%string = (a ++ rstrip_by p b)%string.
Proof.
  induction a as [|c a IH]; [reflexivity|].
  cbn [string_all]. rewrite andb_true_iff, negb_true_iff. intros [Hc Ha].
  cbn [append rstrip_by]. rewrite (IH Ha), Hc.
  destruct (a ++ rstrip_by p b)%string; reflexivity.
Qed.

Lemma split_hd_digits (sep : ascii) (a r : string) :
  all_digits a = true -> is_digit sep = false ->
  exists p ps, split sep (a ++ r)%string = (a ++ p)%string :: ps.
Proof.
  intros Ha Hsep. induction a as [|c a IH].
  - simpl. destruct r as [|c r]; simpl.
    + exists EmptyString, []. reflexivity.
    + destruct (Ascii.eqb c sep).
      * exists EmptyString, (split sep r). reflexivity.
      * destruct (split sep r) as [|p ps]; [exists (String c EmptyString), [] |
                                              exists (String c p), ps]; reflexivity.
  - simpl in Ha. apply andb_true_iff in Ha. destruct Ha as [Hc Ha].
    destruct (IH Ha) as [p [ps Hp]]. exists p, ps.
    cbn [append split]. rewrite Hp.
    destruct (Ascii.eqb_spec c sep) as [->|_]; [congruence | reflexivity].
Qed.

Lemma append_assoc (a b c : string) : ((a ++ b) ++ c = a ++ (b ++ c))%string.
Proof.
  induction a as [|x a IH]; simpl; [reflexivity | now rewrite IH].
Qed.

Lemma append_nil_r (a : string) : (a ++ "")%string = a.
Proof.
  induction a as [|x a IH]; simpl; [reflexivity | now rewrite IH].
Qed.

Lemma length_append (a b : string) :
  String.length (a ++ b)%string = (String.length a + String.length b)%nat.
Proof.
  induction a as [|c a IH]; simpl; [reflexivity | now rewrite IH].
Qed.

Lemma re_dmy_long_prefix (sep : ascii) (a r : string) :
  all_digits a = true -> is_digit sep = false -> (3 <= String.length a)%nat ->
  re_dmy sep (a ++ r)%string = false.
Proof.
  intros Ha Hsep Hl. unfold re_dmy.
  destruct (split_hd_digits sep a r Ha Hsep) as [p [ps Hp]]. rewrite Hp.
  destruct ps as [|m [|y [|z ps]]]; try reflexivity.
  replace (digits_len 1 2 (a ++ p)%string) with false; [reflexivity|].
  symmetry. unfold digits_len. apply andb_false_iff. right.
  apply Nat.leb_gt. rewrite length_append. lia.
Qed.

(** X10: a string [YYYY-M-D] (1-2 digit month and day), alone or followed
    by a space and anything (a time of day), is read as year, month, day:
    when these form a date of the calendar the parser returns exactly that
    date at midnight, whatever follows the space. *)
Theorem parse_date_iso (yyyy mm dd tail : string)
  (Hyy : digits_len 4 4 yyyy = true)
  (Hmm : digits_len 1 2 mm = true)
  (Hdd : digits_len 1 2 dd = true)
  (Htail : tail = "" \/ exists t, tail = String " " t)
  (Hend : rstrip_by is_space tail = tail)
  (Hvalid : valid_date (digits_value yyyy) (digits_value mm) (digits_value dd) = true) :
  parse_date (Str (yyyy ++ "-" ++ mm ++ "-" ++ dd ++ tail)%string)
  = Ok (Some (mk_datetime (digits_value yyyy) (digits_value mm) (digits_value dd) 0)).
Proof.
  destruct (digits_len_inv _ _ _ Hdd) as [Ad Ld].
  destruct (digits_len_inv _ _ _ Hmm) as [Am Lm].
  destruct (digits_len_inv _ _ _ Hyy) as [Ay Ly].
  assert (Hmax : (4 <= max_str_digits)%nat) by (apply Nat.leb_le; reflexivity).
  assert (Nd : dd <> "") by (destruct dd; [simpl in Ld; lia | discriminate]).
  assert (Nm : mm <> "") by (destruct mm; [simpl in Lm; lia | discriminate]).
  assert (Ny : yyyy <> "") by (destruct yyyy; [simpl in Ly; lia | discriminate]).
  set (base := (yyyy ++ String "-" (mm ++ String "-" dd))%string).
  assert (Hs : (yyyy ++ "-" ++ mm ++ "-" ++ dd ++ tail)%string = (base ++ tail)%string).
  { unfold base. cbn [append]. rewrite !append_assoc. cbn [append].
    rewrite !append_assoc. reflexivity. }
  assert (Hdig : forall (q : ascii -> bool) t,
             (forall c, is_digit c = true -> q c = true) ->
             all_digits t = true -> string_all q t = true).
  { intros q t Hq Ht. rewrite all_digits_string_all in Ht. revert Ht.
    now apply string_all_impl. }
  assert (Hbase : forall q : ascii -> bool,
             (forall c, is_digit c = true -> q c = true) -> q "-"%char = true ->
             string_all q base = true).
  { intros q Hq Hm. unfold base. rewrite !string_all_app. cbn [string_all].
    rewrite !string_all_app. cbn [string_all].
    rewrite (Hdig q yyyy Hq Ay), (Hdig q mm Hq Am), (Hdig q dd Hq Ad), Hm. reflexivity. }
  assert (Hq1 : forall c, is_digit c = true -> negb (is_space c) = true).
  { intros c Hc. apply negb_true_iff, (digit_facts c Hc). }
  assert (Hq4 : forall c, is_digit c = true -> negb (Ascii.eqb c " ") = true).
  { intros c Hc. apply negb_true_iff, (digit_facts c Hc). }
  rewrite Hs. unfold parse_date. cbn [isna str orb].
  assert (Hstrip : strip (base ++ tail)%string = (base ++ tail)%string).
  { unfold strip.
    assert (Hl : lstrip_by is_space (base ++ tail)%string = (base ++ tail)%string).
    { unfold base. destruct yyyy as [|c y']; [congruence|]. cbn [append lstrip_by].
      simpl in Ay. apply andb_true_iff in Ay. destruct Ay as [Hc _].
      destruct (digit_facts c Hc) as [-> _]. reflexivity. }
    rewrite Hl, (rstrip_by_app _ _ _ (Hbase _ Hq1 eq_refl)), Hend. reflexivity. }
  replace (in_list (base ++ tail)%string null_dates) with false.
  2:{ symmetry. unfold base. destruct yyyy as [|c y']; [congruence|].
      apply starts_with_digit_not_null. simpl in Ay. now apply andb_true_iff in Ay. }
  rewrite Hstrip.
  assert (Hlong : (base ++ tail)%string
                  = (yyyy ++ (String "-" (mm ++ String "-" dd) ++ tail))%string).
  { unfold base. now rewrite append_assoc. }
  rewrite Hlong at 1. rewrite (re_dmy_long_prefix "/" yyyy _ Ay eq_refl) by lia.
  rewrite Hlong at 1. rewrite (re_dmy_long_prefix "-" yyyy _ Ay eq_refl) by lia.
  assert (Hiso : re_iso (base ++ tail)%string = true).
  { rewrite Hlong. unfold re_iso. cbn [append].
    rewrite (span_digits_sep yyyy _ "-" Ay eq_refl).
    replace (String.length yyyy =? 4)%nat with true by (symmetry; apply Nat.eqb_eq; lia).
    cbn [andb]. rewrite append_assoc. cbn [append].
    rewrite (span_digits_sep mm _ "-" Am eq_refl).
    replace (1 <=? String.length mm)%nat with true by (symmetry; apply Nat.leb_le; lia).
    replace (String.length mm <=? 2)%nat with true by (symmetry; apply Nat.leb_le; lia).
    cbn [andb]. destruct dd as [|c d']; [congruence|]. cbn [append].
    simpl in Ad. now apply andb_true_iff in Ad. }
  rewrite Hiso.
  assert (Hpart : hd EmptyString (split " " (base ++ tail)%string) = base).
  { destruct Htail as [->|[t ->]].
    - rewrite append_nil_r, split_no_sep by (apply Hbase; [exact Hq4 | reflexivity]).
      reflexivity.
    - rewrite split_app_sep by (apply Hbase; [exact Hq4 | reflexivity]). reflexivity. }
  rewrite Hpart.
  assert (Hsplit : split "-" base = [yyyy; mm; dd]).
  { unfold base.
    rewrite split_app_sep by (apply digits_no_sep; [reflexivity | exact Ay]).
    rewrite split_app_sep by (apply digits_no_sep; [reflexivity | exact Am]).
    rewrite split_no_sep by (apply digits_no_sep; [reflexivity | exact Ad]).
    reflexivity. }
  rewrite Hsplit. unfold unpack_ints. cbn [map].
  rewrite (int_of_str_digits yyyy Ay Ny) by lia.
  rewrite (int_of_str_digits mm Am Nm) by lia.
  rewrite (int_of_str_digits dd Ad Nd) by lia.
  cbn [bind]. rewrite (datetime_new_valid _ _ _ Hvalid). reflexivity.
Qed.

Lemma parse_date_iso_witness :
  parse_date (Str "2025-03-09 14:30:00") = Ok (Some (mk_datetime 2025 3 9 0)).
Proof.
  exact (parse_date_iso "2025" "03" "09" " 14:30:00" eq_refl eq_refl eq_refl
           (or_intror (ex_intro _ "14:30:00" eq_refl)) eq_refl eq_refl).
Defined.

(** ** What the parser returns and what it raises *)

Lemma check_valid_ordinals_sound (fuel : nat) (n : Z) :
  check_valid_ordinals fuel n = true ->
  forall k, n <= k < n + Z.of_nat fuel ->
    let '(y, m, d) := ord2ymd k in valid_date y m d = true.
Proof.
  revert n. induction fuel as [|fuel IH]; intros n Hc k Hk.
  - simpl in Hk. lia.
  - cbn [check_valid_ordinals] in Hc. apply andb_true_iff in Hc. destruct Hc as [Hn Hrest].
    destruct (Z.eq_dec k n) as [->|Hne].
    + destruct (ord2ymd n) as [[y m] d]. exact Hn.
    + apply (IH (n + 1) Hrest). lia.
Qed.

Lemma valid_ordinals_of_serials : check_valid_ordinals (Z.to_nat 50001) 693594 = true.
Proof. vm_compute. reflexivity. Qed.

Lemma of_instant_well_formed (t : Z) :
  693594 <= t / US_PER_DAY <= 743594 -> well_formed (of_instant t).
Proof.
  intro Hr. unfold of_instant, well_formed.
  pose proof (check_valid_ordinals_sound (Z.to_nat 50001) 693594 valid_ordinals_of_serials
                (t / US_PER_DAY)) as H.
  destruct (ord2ymd (t / US_PER_DAY)) as [[y m] d]. cbn [year month day micro].
  split.
  - apply H. rewrite Z2Nat.id by lia. lia.
  - apply Z.mod_pos_bound. reflexivity.
Qed.

Lemma excel_serial_shape (x : Q) :
  (0 < x)%Q -> (x < 50000)%Q ->
  datetime_add EXCEL_EPOCH (timedelta_days x)
  = Ok (of_instant (instant EXCEL_EPOCH + timedelta_days x))
  /\ 693594 <= (instant EXCEL_EPOCH + timedelta_days x) / US_PER_DAY <= 743594.
Proof.
  intros Hlo Hhi. pose proof (timedelta_days_bounds x Hlo Hhi) as Hb.
  unfold datetime_add.
  change (instant EXCEL_EPOCH) with (693594 * US_PER_DAY).
  assert (Hr : 693594 <= (693594 * US_PER_DAY + timedelta_days x) / US_PER_DAY <= 743594).
  { unfold US_PER_DAY in *. split.
    - apply Z.div_le_lower_bound; lia.
    - apply Z.div_le_upper_bound; lia. }
  split; [|exact Hr].
  replace ((1 <=? (693594 * US_PER_DAY + timedelta_days x) / US_PER_DAY)
           && ((693594 * US_PER_DAY + timedelta_days x) / US_PER_DAY <=? MAX_ORDINAL))
    with true; [reflexivity|].
  symmetry. apply andb_true_iff. unfold MAX_ORDINAL. rewrite !Z.leb_le. lia.
Qed.

(** The serial attempt never raises, and a date it returns is well formed. *)
Lemma parse_excel_cases (s : string) :
  parse_excel s = Ok None
  \/ exists x,
       float_of_str s = Some (FFin x) /\ (0 < x)%Q /\ (x < 50000)%Q
       /\ parse_excel s = Ok (Some (of_instant (instant EXCEL_EPOCH + timedelta_days x)))
       /\ well_formed (of_instant (instant EXCEL_EPOCH + timedelta_days x)).
Proof.
  unfold parse_excel.
  destruct (float_of_str s) as [[| |x]|]; try (left; reflexivity).
  destruct (Qltb 0 x) eqn:Hlo; [|left; reflexivity].
  destruct (Qltb x (inject_Z 50000)) eqn:Hhi; [|left; reflexivity].
  right. exists x. apply Qltb_spec in Hlo. apply Qltb_spec in Hhi.
  change (inject_Z 50000) with (50000 # 1)%Q in Hhi.
  destruct (excel_serial_shape x Hlo Hhi) as [Hadd Hr].
  split; [reflexivity|]. split; [exact Hlo|]. split; [exact Hhi|].
  split; [cbn [andb]; rewrite Hadd; reflexivity | apply of_instant_well_formed, Hr].
Qed.

Lemma datetime_new_cases (y m d : Z) :
  (datetime_new y m d = Ok (mk_datetime y m d 0) /\ valid_date y m d = true)
  \/ (exists msg, datetime_new y m d = Raise (ValueError msg))
  \/ (datetime_new y m d = Raise OverflowError
      /\ (fits_int y && fits_int m && fits_int d = false)).
Proof.
  unfold datetime_new.
  destruct (fits_int y && fits_int m && fits_int d); simpl.
  - destruct (valid_date y m d); [left; split; reflexivity | right; left; eexists; reflexivity].
  - right; right. split; reflexivity.
Qed.

Lemma unpack_ints_cases (pieces : list string) :
  (exists a b c, unpack_ints pieces = Ok (a, b, c))
  \/ exists msg, unpack_ints pieces = Raise (ValueError msg).
Proof.
  unfold unpack_ints.
  destruct (map int_of_str pieces) as [|[a|] [|[b|] [|[c|] [|z l]]]];
    try (right; eexists; reflexivity).
  left. exists a, b, c. reflexivity.
Qed.

Lemma re_dmy_ints (sep : ascii) (t : string) :
  re_dmy sep t = true ->
  exists a b c,
    unpack_ints (split sep t) = Ok (a, b, c)
    /\ 0 <= a < 10000 /\ 0 <= b < 10000 /\ 0 <= c < 10000.
Proof.
  unfold re_dmy. destruct (split sep t) as [|d [|m [|y [|z l]]]]; try discriminate.
  rewrite !andb_true_iff. intros [[Hd Hm] Hy].
  destruct (digits_len_inv _ _ _ Hd) as [Ad Ld].
  destruct (digits_len_inv _ _ _ Hm) as [Am Lm].
  destruct (digits_len_inv _ _ _ Hy) as [Ay Ly].
  assert (Hmax : (4 <= max_str_digits)%nat) by (apply Nat.leb_le; reflexivity).
  assert (Nd : d <> "") by (destruct d; [simpl in Ld; lia | discriminate]).
  assert (Nm : m <> "") by (destruct m; [simpl in Lm; lia | discriminate]).
  assert (Ny : y <> "") by (destruct y; [simpl in Ly; lia | discriminate]).
  exists (digits_value d), (digits_value m), (digits_value y).
  unfold unpack_ints. cbn [map].
  rewrite (int_of_str_digits d Ad Nd) by lia.
  rewrite (int_of_str_digits m Am Nm) by lia.
  rewrite (int_of_str_digits y Ay Ny) by lia.
  split; [reflexivity|].
  repeat split; apply digits_value_small; assumption || lia.
Qed.

Lemma fits_int_small (z : Z) : 0 <= z < 10000 -> fits_int z = true.
Proof.
  intro Hz. unfold fits_int, INT_MIN, INT_MAX. apply andb_true_iff.
  rewrite !Z.leb_le. lia.
Qed.

(** The outcome of a day-month-year branch. *)
Lemma dmy_branch_cases (sep : ascii) (t : string) :
  re_dmy sep t = true ->
  let r := except_ValueError
             (bind (unpack_ints (split sep t)) (fun '(day, month, year) =>
              bind (datetime_new year month day) (fun date => Ok (Some date))))
             (parse_excel t) in
  (exists y m d, r = Ok (Some (mk_datetime y m d 0)) /\ valid_date y m d = true)
  \/ r = parse_excel t.
Proof.
  intros Hre r. subst r.
  destruct (re_dmy_ints sep t Hre) as [a [b [c [Hu [Ha [Hb Hc]]]]]].
  rewrite Hu. cbn [bind].
  destruct (datetime_new_cases c b a) as [[Hn Hv]|[[msg Hn]|[Hn Hf]]]; rewrite Hn.
  - left. exists c, b, a. split; [reflexivity | exact Hv].
  - right. reflexivity.
  - rewrite !fits_int_small in Hf by assumption. discriminate.
Qed.

(** The outcome of the year-month-day branch. *)
Lemma iso_branch_cases (t : string) :
  let r := except_ValueError
             (let date_part := hd EmptyString (split " " t) in
              bind (unpack_ints (split "-" date_part)) (fun '(year, month, day) =>
              bind (datetime_new year month day) (fun date => Ok (Some date))))
             (parse_excel t) in
  (exists y m d, r = Ok (Some (mk_datetime y m d 0)) /\ valid_date y m d = true)
  \/ r = parse_excel t
  \/ r = Raise OverflowError.
Proof.
  intro r. subst r. cbv zeta.
  destruct (unpack_ints_cases (split "-" (hd EmptyString (split " " t))))
    as [[a [b [c Hu]]]|[msg Hu]]; rewrite Hu; cbn [bind except_ValueError].
  - destruct (datetime_new_cases a b c) as [[Hn Hv]|[[msg Hn]|[Hn Hf]]]; rewrite Hn.
    + left. exists a, b, c. split; [reflexivity | exact Hv].
    + right. left. reflexivity.
    + right. right. reflexivity.
  - right. left. reflexivity.
Qed.

Lemma parse_date_well_formed (c : cell) (d : datetime) :
  parse_date c = Ok (Some d) -> well_formed d.
Proof.
  intro Hparse.
  unfold parse_date in Hparse.
  destruct (isna c || in_list (str c) null_dates); [discriminate|].
  assert (Hex : forall r, parse_excel (strip (str c)) = r -> r = Ok (Some d) ->
                          well_formed d).
  { intros r Hr E. subst r.
    destruct (parse_excel_cases (strip (str c))) as [H|[x [_ [_ [_ [H Hw]]]]]];
      rewrite H in E; [discriminate|].
    revert Hw E. generalize (of_instant (instant EXCEL_EPOCH + timedelta_days x)).
    intros w Hw E. injection E as <-. exact Hw. }
  assert (Hmid : forall y m dd, Ok (Some (mk_datetime y m dd 0)) = Ok (Some d) ->
                                valid_date y m dd = true -> well_formed d).
  { intros y m dd E Hv. injection E as <-. split; [exact Hv|].
    cbn [micro]. unfold US_PER_DAY. lia. }
  destruct (re_dmy "/" (strip (str c))) eqn:R1.
  { destruct (dmy_branch_cases "/" _ R1) as [[y [m [dd [E Hv]]]]|E];
      cbv zeta in E; rewrite E in Hparse.
    - eapply Hmid; eassumption.
    - eapply Hex; [reflexivity | exact Hparse]. }
  destruct (re_dmy "-" (strip (str c))) eqn:R2.
  { destruct (dmy_branch_cases "-" _ R2) as [[y [m [dd [E Hv]]]]|E];
      cbv zeta in E; rewrite E in Hparse.
    - eapply Hmid; eassumption.
    - eapply Hex; [reflexivity | exact Hparse]. }
  destruct (re_iso (strip (str c))) eqn:R3.
  { destruct (iso_branch_cases (strip (str c))) as [[y [m [dd [E Hv]]]]|[E|E]];
      cbv zeta in E; rewrite E in Hparse.
    - eapply Hmid; eassumption.
    - eapply Hex; [reflexivity | exact Hparse].
    - discriminate. }
  eapply Hex; [reflexivity | exact Hparse].
Qed.

(** X11: a date returned by the parser always exists in the calendar
    (year 1 to 9999, month 1 to 12, day within the month) and its time of
    day lies within the day. *)
Theorem parse_date_returns_calendar_dates (c : cell) (d : datetime)
  (Hparse : parse_date c = Ok (Some d)) :
  well_formed d.
Proof.
  exact (parse_date_well_formed c d Hparse).
Qed.

Lemma parse_date_returns_calendar_dates_witness :
  well_formed (mk_datetime 1999 12 31 43200000000).
Proof.
  apply (parse_date_returns_calendar_dates (Str "36525.5")). vm_compute. reflexivity.
Defined.

(** X12: the only exception the parser raises is [OverflowError], and only
    for a string that the year-month-day pattern matches and neither
    day-month-year pattern matches; missing values, the null markers and the
    slash and dash formats never raise. *)
Theorem parse_date_raises_only_overflow (c : cell) (e : exn)
  (Hraise : parse_date c = Raise e) :
  e = OverflowError
  /\ exists s, c = Str s
       /\ re_iso (strip s) = true
       /\ re_dmy "/" (strip s) = false /\ re_dmy "-" (strip s) = false.
Proof.
  unfold parse_date in Hraise.
  destruct c as [|s]; [discriminate|]. cbn [isna str orb] in Hraise.
  destruct (in_list s null_dates); [discriminate|].
  assert (Hex : parse_excel (strip s) <> Raise e).
  { destruct (parse_excel_cases (strip s)) as [H|[x [_ [_ [_ [H _]]]]]];
      rewrite H; discriminate. }
  destruct (re_dmy "/" (strip s)) eqn:R1.
  { destruct (dmy_branch_cases "/" _ R1) as [[y [m [dd [E Hv]]]]|E];
      cbv zeta in E; rewrite E in Hraise; [discriminate | contradiction]. }
  destruct (re_dmy "-" (strip s)) eqn:R2.
  { destruct (dmy_branch_cases "-" _ R2) as [[y [m [dd [E Hv]]]]|E];
      cbv zeta in E; rewrite E in Hraise; [discriminate | contradiction]. }
  destruct (re_iso (strip s)) eqn:R3; [|contradiction].
  destruct (iso_branch_cases (strip s)) as [[y [m [dd [E Hv]]]]|[E|E]];
    cbv zeta in E; rewrite E in Hraise; [discriminate | contradiction |].
  injection Hraise as <-. split; [reflexivity|]. exists s. repeat split; assumption.
Qed.

Lemma parse_date_raises_only_overflow_witness :
  re_iso (strip "2024-01-2147483648") = true.
Proof.
  destruct (parse_date_raises_only_overflow (Str "2024-01-2147483648") OverflowError
              eq_refl) as [_ [s [E [H _]]]].
  injection E as <-. exact H.
Defined.

(** ** Blanks around a date *)

Lemma lstrip_by_head (p : ascii -> bool) (s : string) :
  lstrip_by p s = "" \/ exists c r, lstrip_by p s = String c r /\ p c = false.
Proof.
  induction s as [|c s IH]; [left; reflexivity|].
  cbn [lstrip_by]. destruct (p c) eqn:Hc; [exact IH|].
  right. exists c, s. split; [reflexivity | exact Hc].
Qed.

Lemma rstrip_by_idem (p : ascii -> bool) (s : string) :
  rstrip_by p (rstrip_by p s) = rstrip_by p s.
Proof.
  induction s as [|c s IH]; [reflexivity|].
  cbn [rstrip_by]. destruct (rstrip_by p s) as [|c' r'] eqn:E.
  - destruct (p c) eqn:Hc; [reflexivity|]. cbn [rstrip_by]. rewrite Hc. reflexivity.
  - cbn [rstrip_by]. cbn [rstrip_by] in IH. rewrite IH. reflexivity.
Qed.

Lemma rstrip_by_keeps_head (p : ascii -> bool) (c : ascii) (r : string) :
  p c = false -> exists r', rstrip_by p (String c r) = String c r'.
Proof.
  intro Hc. cbn [rstrip_by]. destruct (rstrip_by p r) as [|c' r'].
  - rewrite Hc. exists "". reflexivity.
  - exists (String c' r'). reflexivity.
Qed.

Lemma strip_idem (s : string) : strip (strip s) = strip s.
Proof.
  unfold strip.
  destruct (lstrip_by_head is_space s) as [E|[c [r [E Hc]]]]; rewrite E.
  - reflexivity.
  - destruct (rstrip_by_keeps_head is_space c r Hc) as [r' E'].
    assert (Hl : lstrip_by is_space (rstrip_by is_space (String c r))
                 = rstrip_by is_space (String c r)).
    { rewrite E'. cbn [lstrip_by]. rewrite Hc. reflexivity. }
    rewrite Hl. apply rstrip_by_idem.
Qed.

Lemma lstrip_by_blank_app (p : ascii -> bool) (l x : string) :
  string_all p l = true -> lstrip_by p (l ++ x)%string = lstrip_by p x.
Proof.
  induction l as [|c l IH]; [reflexivity|].
  cbn [string_all]. rewrite andb_true_iff. intros [Hc Hl].
  cbn [append lstrip_by]. rewrite Hc. exact (IH Hl).
Qed.

Lemma lstrip_by_blank (p : ascii -> bool) (r : string) :
  string_all p r = true -> lstrip_by p r = "".
Proof.
  induction r as [|c r IH]; [reflexivity|].
  cbn [string_all]. rewrite andb_true_iff. intros [Hc Hr].
  cbn [lstrip_by]. rewrite Hc. exact (IH Hr).
Qed.

Lemma rstrip_by_blank (p : ascii -> bool) (r : string) :
  string_all p r = true -> rstrip_by p r = "".
Proof.
  induction r as [|c r IH]; [reflexivity|].
  cbn [string_all]. rewrite andb_true_iff. intros [Hc Hr].
  cbn [rstrip_by]. rewrite (IH Hr), Hc. reflexivity.
Qed.

Lemma rstrip_by_app_blank (p : ascii -> bool) (x r : string) :
  string_all p r = true -> rstrip_by p (x ++ r)%string = rstrip_by p x.
Proof.
  intro Hr. induction x as [|c x IH].
  - cbn [append]. rewrite (rstrip_by_blank p r Hr). reflexivity.
  - cbn [append rstrip_by]. rewrite IH. reflexivity.
Qed.

Lemma strip_app_blank (s r : string) :
  string_all is_space r = true ->
  rstrip_by is_space (lstrip_by is_space (s ++ r)%string)
  = rstrip_by is_space (lstrip_by is_space s).
Proof.
  intro Hr. induction s as [|c s IH].
  - cbn [append lstrip_by]. rewrite (lstrip_by_blank is_space r Hr). reflexivity.
  - cbn [append lstrip_by]. destruct (is_space c); [exact IH|].
    exact (rstrip_by_app_blank is_space (String c s) r Hr).
Qed.

Lemma strip_blanks (l s r : string) :
  string_all is_space l = true -> string_all is_space r = true ->
  strip (l ++ s ++ r)%string = strip s.
Proof.
  intros Hl Hr. unfold strip.
  rewrite (lstrip_by_blank_app is_space l _ Hl). exact (strip_app_blank s r Hr).
Qed.

(** A value and its stripped form parse alike, also when stripping turns
    the value into one of the null markers. *)
Lemma parse_date_strip (s : string) :
  parse_date (Str (strip s)) = parse_date (Str s).
Proof.
  unfold parse_date. cbn [isna str orb].
  destruct (in_list s null_dates) eqn:Hs.
  - apply in_list_spec in Hs. simpl in Hs.
    repeat (destruct Hs as [<-|Hs]; [reflexivity|]). destruct Hs.
  - destruct (in_list (strip s) null_dates) eqn:Ht.
    + apply in_list_spec in Ht. simpl in Ht.
      repeat (destruct Ht as [<-|Ht]; [reflexivity|]). destruct Ht.
    + rewrite strip_idem. reflexivity.
Qed.

(** X13: blanks before and after a date value do not change what the
    parser makes of it. *)
Theorem parse_date_ignores_surrounding_blanks (l s r : string)
  (Hl : string_all is_space l = true) (Hr : string_all is_space r = true) :
  parse_date (Str (l ++ s ++ r)%string) = parse_date (Str s).
Proof.
  rewrite <- (parse_date_strip (l ++ s ++ r)), (strip_blanks l s r Hl Hr).
  apply parse_date_strip.
Qed.

Lemma parse_date_ignores_surrounding_blanks_witness :
  parse_date (Str "  15/03/2024 ") = parse_date (Str "15/03/2024").
Proof.
  apply (parse_date_ignores_surrounding_blanks "  " "15/03/2024" " "); reflexivity.
Defined.

(** * Further properties of the filter options *)

Lemma cell_eqb_spec (a b : cell) : cell_eqb a b = true <-> a = b.
Proof.
  destruct a as [|s], b as [|t]; simpl; split; try congruence; try discriminate.
  - intro H. apply String.eqb_eq in H. congruence.
  - intros [= ->]. apply String.eqb_refl.
Qed.

Lemma set_add_in {A : Type} (eqb : A -> A -> bool)
  (Heqb : forall x y, eqb x y = true <-> x = y) (x y : A) (s : list A) :
  In y (set_add eqb x s) <-> In y s \/ y = x.
Proof.
  unfold set_add. destruct (existsb (eqb x) s) eqn:E.
  - split; [left; assumption|]. intros [H | ->]; [exact H|].
    apply existsb_exists in E. destruct E as [z [Hz Hxz]].
    apply Heqb in Hxz. subst z. exact Hz.
  - rewrite in_app_iff. simpl. split.
    + intros [H|[<-|[]]]; [left; exact H | right; reflexivity].
    + intros [H | ->]; [left; exact H | right; left; reflexivity].
Qed.

Lemma coletar_in {A : Type} (eqb : A -> A -> bool)
  (Heqb : forall x y, eqb x y = true <-> x = y)
  (t : Produto -> bool) (k : Produto -> A) (ps : list Produto) (acc : list A) (x : A) :
  In x (fold_left (fun s p => if t p then set_add eqb (k p) s else s) ps acc)
  <-> In x acc \/ exists p, In p ps /\ t p = true /\ k p = x.
Proof.
  revert acc. induction ps as [|a ps IH]; intro acc; cbn [fold_left].
  - split; [left; assumption|]. intros [H|[p [[] _]]]. exact H.
  - rewrite IH. destruct (t a) eqn:Ht.
    + rewrite (set_add_in eqb Heqb). split.
      * intros [[H | ->]|[p [Hp H]]].
        -- left. exact H.
        -- right. exists a. split; [left; reflexivity | split; [exact Ht | reflexivity]].
        -- right. exists p. split; [right; exact Hp | exact H].
      * intros [H|[p [[<-|Hp] [H1 H2]]]].
        -- left. left. exact H.
        -- left. right. symmetry. exact H2.
        -- right. exists p. split; [exact Hp | split; assumption].
    + split.
      * intros [H|[p [Hp H]]]; [left; exact H|].
        right. exists p. split; [right; exact Hp | exact H].
      * intros [H|[p [[<-|Hp] [H1 H2]]]]; [left; exact H | congruence |].
        right. exists p. split; [exact Hp | split; assumption].
Qed.

Lemma coletar_fornecedores_in (ps : list Produto) (c : cell) :
  In c (coletar_fornecedores ps)
  <-> truthy c = true /\ exists p, In p ps /\ fornecedor p = c.
Proof.
  unfold coletar_fornecedores.
  rewrite (coletar_in cell_eqb cell_eqb_spec (fun p => truthy (fornecedor p)) fornecedor).
  split.
  - intros [[]|[p [Hp [Ht <-]]]]. split; [exact Ht|]. exists p. split; [exact Hp | reflexivity].
  - intros [Ht [p [Hp <-]]]. right. exists p. split; [exact Hp | split; [exact Ht | reflexivity]].
Qed.

Lemma coletar_str_in (f : Produto -> cell) (ps : list Produto) (s : string) :
  In s (coletar_str f ps)
  <-> exists p, In p ps /\ truthy (f p) = true /\ str (f p) = s.
Proof.
  unfold coletar_str.
  rewrite (coletar_in String.eqb String.eqb_eq (fun p => truthy (f p)) (fun p => str (f p))).
  split; [intros [[]|H]; exact H | intro H; right; exact H].
Qed.

Lemma extrair_filtros_Ok (ps : list Produto) (f : Filtros) :
  _extrair_filtros ps = Ok f ->
  fornecedores f = Sort.sort cell_le (coletar_fornecedores ps)
  /\ cods_fornecedor f = sorted_strings (coletar_str cod_fornec ps)
  /\ pesos_liquidos f = sorted_strings (coletar_str peso_liqun ps)
  /\ cods_produto f = sorted_strings (coletar_str (fun p => Str (cod_prod p)) ps).
Proof.
  unfold _extrair_filtros, sorted_cells.
  destruct (existsb isna (coletar_fornecedores ps)
            && existsb (fun c => negb (isna c)) (coletar_fornecedores ps));
    cbn [bind]; [discriminate|].
  intros [= <-]. repeat split.
Qed.

(** X14: collecting the filter options fails (with [TypeError]) exactly
    when some product has a missing supplier and another has a supplier
    name; otherwise the supplier options are the non-empty supplier values
    of the products. *)
Theorem supplier_options_fail_iff_mixed (ps : list Produto) :
  (_extrair_filtros ps = Raise TypeError
   <-> (exists p, In p ps /\ fornecedor p = NaN)
       /\ (exists q s, In q ps /\ fornecedor q = Str s /\ s <> ""))
  /\ (forall f c, _extrair_filtros ps = Ok f ->
        (In c (fornecedores f)
         <-> truthy c = true /\ exists p, In p ps /\ fornecedor p = c)).
Proof.
  split.
  - unfold _extrair_filtros, sorted_cells.
    destruct (existsb isna (coletar_fornecedores ps)
              && existsb (fun c => negb (isna c)) (coletar_fornecedores ps)) eqn:E;
      cbn [bind].
    + split; [intros _ | reflexivity].
      apply andb_true_iff in E. destruct E as [E1 E2].
      apply existsb_exists in E1. destruct E1 as [x [Hx Hna]].
      apply existsb_exists in E2. destruct E2 as [y [Hy Hstr]].
      apply coletar_fornecedores_in in Hx. destruct Hx as [_ [p [Hp Hfp]]].
      apply coletar_fornecedores_in in Hy. destruct Hy as [Hty [q [Hq Hfq]]].
      split.
      * exists p. split; [exact Hp|]. destruct x; [exact Hfp | discriminate Hna].
      * destruct y as [|s]; [discriminate Hstr|]. exists q, s.
        split; [exact Hq|]. split; [exact Hfq|].
        intros ->. discriminate Hty.
    + split; [discriminate|].
      intros [[p [Hp Hn]] [q [s [Hq [Hs Hne]]]]]. exfalso.
      assert (H1 : existsb isna (coletar_fornecedores ps) = true).
      { apply existsb_exists. exists NaN. split; [|reflexivity].
        apply coletar_fornecedores_in. split; [reflexivity|]. exists p. split; assumption. }
      assert (H2 : existsb (fun c => negb (isna c)) (coletar_fornecedores ps) = true).
      { apply existsb_exists. exists (Str s). split; [|reflexivity].
        apply coletar_fornecedores_in. split.
        - cbn [truthy]. apply negb_true_iff, String.eqb_neq, Hne.
        - exists q. split; assumption. }
      rewrite H1, H2 in E. discriminate E.
  - intros f c Hf. apply extrair_filtros_Ok in Hf. destruct Hf as [-> _].
    rewrite sort_in. apply coletar_fornecedores_in.
Qed.

Lemma run_codes_distinct (hoje : datetime) (df : DataFrame) (a : Analise) :
  process_data hoje df = Ok a ->
  NoDup (map cod_prod (produtos_criticos a))
  /\ forall p, In p (produtos_criticos a) -> cod_prod p <> "".
Proof.
  intro Hrun.
  destruct (produtos_of_run hoje df a Hrun) as [c_dt [c_cod [_ [_ [Hp _]]]]].
  destruct (processar_linhas_chaves hoje (find_columns (columns df)) c_cod c_dt df)
    as [Hnd Hk].
  set (d := produtos (processar_linhas hoje (find_columns (columns df)) c_cod c_dt df)) in *.
  assert (Hcods : map cod_prod (map finalizar (Dict.values d)) = map fst d).
  { unfold Dict.values. rewrite !map_map. apply map_ext_in.
    intros [k p] Hin. simpl. apply (Hk k p Hin). }
  split.
  - eapply Permutation_NoDup; [apply Permutation_map, Hp|]. now rewrite Hcods.
  - intros p Hin Hempty.
    assert (Hc : In (cod_prod p) (map fst d)).
    { rewrite <- Hcods. eapply Permutation_in; [apply Permutation_sym, Permutation_map, Hp|].
      apply in_map, Hin. }
    apply in_map_iff in Hc. destruct Hc as [[k q] [Hkq Hin']]. simpl in Hkq. subst k.
    destruct (Hk _ _ Hin') as [_ Hne]. apply Hne. rewrite Hempty. reflexivity.
Qed.

(** X15: in a returned analysis the product-code options of the filter list
    every product exactly once, in ascending string order. *)
Theorem product_code_options_list_every_product (hoje : datetime) (df : DataFrame)
  (a : Analise) (Hrun : process_data hoje df = Ok a) :
  Permutation (cods_produto (filtros a)) (map cod_prod (produtos_criticos a))
  /\ Sorted (fun x y => String.leb x y = true) (cods_produto (filtros a)).
Proof.
  destruct (run_codes_distinct hoje df a Hrun) as [Hnd Hne].
  apply process_data_Ok in Hrun.
  destruct Hrun as [c_dt [c_cod [_ [_ [_ [Hf _]]]]]].
  apply extrair_filtros_Ok in Hf. destruct Hf as [_ [_ [_ ->]]].
  split.
  - eapply perm_trans; [apply Permutation_sym, sort_perm|].
    apply NoDup_Permutation; [apply coletar_str_nodup | exact Hnd|].
    intro s. rewrite coletar_str_in, in_map_iff. split.
    + intros [p [Hp [_ Hs]]]. exists p. split; [exact Hs | exact Hp].
    + intros [p [Hs Hp]]. exists p. split; [exact Hp|]. split; [|exact Hs].
      cbn [truthy]. apply negb_true_iff, String.eqb_neq, (Hne p Hp).
  - apply sort_sorted, String.leb_total.
Qed.

Lemma product_code_options_list_every_product_witness :
  match process_data hoje_ex df_ex with
  | Ok a => Permutation (cods_produto (filtros a)) (map cod_prod (produtos_criticos a))
  | Raise _ => False
  end.
Proof.
  destruct (process_data hoje_ex df_ex) as [a|e] eqn:Hrun.
  - exact (proj1 (product_code_options_list_every_product hoje_ex df_ex a Hrun)).
  - vm_compute in Hrun. discriminate Hrun.
Defined.

(** * Properties of the interface *)

Import WMSAnalyzerApp ExcelExporter InvariantesApp.

(** ** The filter loop *)

Lemma mantido_str (s cf : string) (crit : option Criticidade) (d : DiasFilter)
  (p : Produto) :
  mantido (Str s) cf crit d p = Ok (selecionado s cf crit d p).
Proof.
  unfold mantido, selecionado, not_in. cbn [truthy].
  destruct (String.eqb s "") eqn:Es; cbn [negb bind orb andb].
  - destruct (String.eqb cf ""); cbn [negb andb orb].
    + destruct crit as [c|]; [destruct (criticidade_eqb (criticidade p) c)|];
        cbn [negb andb];
        destruct (fora_da_faixa d (menor_dias_restantes p)); reflexivity.
    + destruct (is_substring cf (cod_prod p)); cbn [negb andb]; [|reflexivity].
      destruct crit as [c|]; [destruct (criticidade_eqb (criticidade p) c)|];
        cbn [negb andb];
        destruct (fora_da_faixa d (menor_dias_restantes p)); reflexivity.
  - destruct (is_substring s (str (fornecedor p))); cbn [negb andb]; [|reflexivity].
    destruct (String.eqb cf ""); cbn [negb andb orb].
    + destruct crit as [c|]; [destruct (criticidade_eqb (criticidade p) c)|];
        cbn [negb andb];
        destruct (fora_da_faixa d (menor_dias_restantes p)); reflexivity.
    + destruct (is_substring cf (cod_prod p)); cbn [negb andb]; [|reflexivity].
      destruct crit as [c|]; [destruct (criticidade_eqb (criticidade p) c)|];
        cbn [negb andb];
        destruct (fora_da_faixa d (menor_dias_restantes p)); reflexivity.
Qed.

Lemma aplicar_filtros_str (s cf : string) (crit : option Criticidade) (d : DiasFilter)
  (ps : list Produto) :
  aplicar_filtros (Str s) cf crit d ps = Ok (filter (selecionado s cf crit d) ps).
Proof.
  induction ps as [|p ps IH]; [reflexivity|].
  cbn [aplicar_filtros filter]. rewrite mantido_str, IH. reflexivity.
Qed.

Lemma aplicar_filtros_nan (cf : string) (crit : option Criticidade) (d : DiasFilter)
  (ps : list Produto) :
  aplicar_filtros NaN cf crit d ps
  = match ps with [] => Ok [] | _ :: _ => Raise TypeError end.
Proof.
  destruct ps as [|p ps]; reflexivity.
Qed.

(** X16: the filter loop keeps, in their order, the products that pass the
    four tests, and raises nothing when the supplier filter is a string;
    it raises ([TypeError]) exactly when the supplier filter is the float
    [nan] -- the option offered for products without supplier -- and there
    is a product to test. *)
Theorem filter_loop_outcome (ff : cell) (cf : string) (crit : option Criticidade)
  (d : DiasFilter) (ps : list Produto) :
  (forall e, aplicar_filtros ff cf crit d ps = Raise e
             <-> e = TypeError /\ ff = NaN /\ ps <> [])
  /\ (forall s, ff = Str s ->
        aplicar_filtros ff cf crit d ps = Ok (filter (selecionado s cf crit d) ps)).
Proof.
  split.
  - intro e. destruct ff as [|s].
    + rewrite aplicar_filtros_nan. destruct ps as [|p ps].
      * split; [discriminate | intros [_ [_ H]]; congruence].
      * split; [intros [= <-]; repeat split; discriminate | intros [-> _]; reflexivity].
    + rewrite aplicar_filtros_str. split; [discriminate | intros [_ [H _]]; discriminate].
  - intros s ->. apply aplicar_filtros_str.
Qed.

Lemma tier_range (c : Criticidade) (m : Z) :
  criticidade_eqb (tier m) c = negb (fora_da_faixa (faixa c) m).
Proof.
  unfold tier.
  destruct c; cbn [faixa fora_da_faixa];
    destruct (Z.ltb_spec m 0); destruct (Z.leb_spec m 30); destruct (Z.leb_spec m 60);
    try lia; cbn [criticidade_eqb];
    repeat match goal with
           | |- context [?x >=? ?y] => destruct (Z.geb_spec x y); try lia
           | |- context [?x >? ?y] => destruct (Z.gtb_spec x y); try lia
           end; reflexivity.
Qed.

(** X17: on the products of a returned analysis, choosing a tier in the
    criticality filter and choosing the range of that tier in the
    days-remaining filter select the same products, as many as the summary
    counts for the tier. *)
Theorem tier_filters_match_summary (hoje : datetime) (df : DataFrame) (a : Analise)
  (Hrun : process_data hoje df = Ok a) :
  (forall c,
     aplicar_filtros (Str "") "" (Some c) sem_filtro_dias (produtos_criticos a)
     = aplicar_filtros (Str "") "" None (faixa c) (produtos_criticos a))
  /\ (forall c l,
        aplicar_filtros (Str "") "" (Some c) sem_filtro_dias (produtos_criticos a) = Ok l ->
        List.length l = count_tier c (produtos_criticos a))
  /\ (exists lv la lm,
        aplicar_filtros (Str "") "" None vencidos_lt_0 (produtos_criticos a) = Ok lv
        /\ aplicar_filtros (Str "") "" None criticos_0_30 (produtos_criticos a) = Ok la
        /\ aplicar_filtros (Str "") "" None atencao_31_60 (produtos_criticos a) = Ok lm
        /\ List.length lv = produtos_vencidos (resumo a)
        /\ List.length la = produtos_vencendo_30_dias (resumo a)
        /\ List.length lm = produtos_vencendo_60_dias (resumo a)).
Proof.
  destruct (criticality_by_run hoje df a Hrun) as [Hcl [Hv [Ha Hm]]].
  assert (Heq : forall c,
             filter (selecionado "" "" None (faixa c)) (produtos_criticos a)
             = filter (fun p => criticidade_eqb (criticidade p) c) (produtos_criticos a)).
  { intro c. apply filter_ext_in. intros p Hp. unfold selecionado.
    cbn [String.eqb orb andb]. rewrite (Hcl p Hp). symmetry. apply tier_range. }
  assert (Hsel : forall c,
             filter (selecionado "" "" (Some c) sem_filtro_dias) (produtos_criticos a)
             = filter (fun p => criticidade_eqb (criticidade p) c) (produtos_criticos a)).
  { intro c. apply filter_ext. intro p. unfold selecionado.
    cbn [String.eqb orb andb fora_da_faixa negb]. apply andb_true_r. }
  split; [|split].
  - intro c. rewrite !aplicar_filtros_str, Heq, Hsel. reflexivity.
  - intros c l. rewrite aplicar_filtros_str, Hsel. intros [= <-]. reflexivity.
  - exists (filter (selecionado "" "" None (faixa vencido)) (produtos_criticos a)),
           (filter (selecionado "" "" None (faixa alta)) (produtos_criticos a)),
           (filter (selecionado "" "" None (faixa media)) (produtos_criticos a)).
    rewrite !aplicar_filtros_str. repeat split; rewrite Heq; symmetry; assumption.
Qed.

Lemma tier_filters_match_summary_witness :
  match process_data hoje_ex df_ex with
  | Ok a =>
      forall c,
        aplicar_filtros (Str "") "" (Some c) sem_filtro_dias (produtos_criticos a)
        = aplicar_filtros (Str "") "" None (faixa c) (produtos_criticos a)
  | Raise _ => False
  end.
Proof.
  destruct (process_data hoje_ex df_ex) as [a|e] eqn:Hrun.
  - exact (proj1 (tier_filters_match_summary hoje_ex df_ex a Hrun)).
  - vm_compute in Hrun. discriminate Hrun.
Defined.

Lemma is_substring_refl (s : string) : is_substring s s = true.
Proof.
  apply is_substring_spec. exists "", "". cbn [append]. symmetry. apply append_nil_r.
Qed.

(** X18: every product code and every supplier name offered as a filter
    option selects at least one product of the analysis: the product with
    that code, or a product of that supplier; the other products selected
    are those whose code, or supplier, contains the option. *)
Theorem offered_options_select_products (hoje : datetime) (df : DataFrame) (a : Analise)
  (Hrun : process_data hoje df = Ok a) :
  (forall s, In s (cods_produto (filtros a)) ->
     exists l,
       aplicar_filtros (Str "") s None sem_filtro_dias (produtos_criticos a) = Ok l
       /\ (exists p, In p l /\ cod_prod p = s)
       /\ forall q, In q l <-> In q (produtos_criticos a) /\ occurs s (cod_prod q))
  /\ (forall s, In (Str s) (fornecedores (filtros a)) ->
        exists l,
          aplicar_filtros (Str s) "" None sem_filtro_dias (produtos_criticos a) = Ok l
          /\ (exists p, In p l /\ fornecedor p = Str s)
          /\ forall q, In q l
               <-> In q (produtos_criticos a) /\ occurs s (str (fornecedor q))).
Proof.
  apply process_data_Ok in Hrun.
  destruct Hrun as [c_dt [c_cod [_ [_ [_ [Hf _]]]]]].
  apply extrair_filtros_Ok in Hf. destruct Hf as [Hforn [_ [_ Hcod]]].
  split.
  - intros s Hs. rewrite Hcod in Hs. apply sort_in in Hs.
    apply coletar_str_in in Hs. destruct Hs as [p [Hp [Ht Hps]]].
    cbn [str truthy] in Hps, Ht. apply negb_true_iff in Ht.
    rewrite aplicar_filtros_str. eexists. split; [reflexivity|].
    assert (Hsel : forall q, selecionado "" s None sem_filtro_dias q
                             = is_substring s (cod_prod q)).
    { intro q. unfold selecionado. rewrite <- Hps, Ht.
      cbn [String.eqb orb andb fora_da_faixa negb]. now rewrite !andb_true_r. }
    split.
    + exists p. split; [|exact Hps]. apply filter_In. split; [exact Hp|].
      rewrite Hsel, <- Hps. apply is_substring_refl.
    + intro q. rewrite filter_In, Hsel, is_substring_spec. reflexivity.
  - intros s Hs. rewrite Hforn in Hs. apply sort_in in Hs.
    apply coletar_fornecedores_in in Hs. destruct Hs as [Ht [p [Hp Hps]]].
    cbn [truthy] in Ht. apply negb_true_iff in Ht.
    rewrite aplicar_filtros_str. eexists. split; [reflexivity|].
    assert (Hsel : forall q, selecionado s "" None sem_filtro_dias q
                             = is_substring s (str (fornecedor q))).
    { intro q. unfold selecionado. rewrite Ht.
      cbn [String.eqb orb andb fora_da_faixa negb]. now rewrite !andb_true_r. }
    split.
    + exists p. split; [|exact Hps]. apply filter_In. split; [exact Hp|].
      rewrite Hsel, Hps. cbn [str]. apply is_substring_refl.
    + intro q. rewrite filter_In, Hsel, is_substring_spec. reflexivity.
Qed.

Lemma offered_options_select_products_witness :
  match process_data hoje_ex df_ex with
  | Ok a =>
      forall s, In s (cods_produto (filtros a)) ->
        exists l,
          aplicar_filtros (Str "") s None sem_filtro_dias (produtos_criticos a) = Ok l
          /\ (exists p, In p l /\ cod_prod p = s)
          /\ forall q, In q l <-> In q (produtos_criticos a) /\ occurs s (cod_prod q)
  | Raise _ => False
  end.
Proof.
  destruct (process_data hoje_ex df_ex) as [a|e] eqn:Hrun.
  - exact (proj1 (offered_options_select_products hoje_ex df_ex a Hrun)).
  - vm_compute in Hrun. discriminate Hrun.
Defined.

(** ** The pages of the product list *)

Lemma firstn_add {A : Type} (a b : nat) (l : list A) :
  firstn (a + b) l = firstn a l ++ firstn b (skipn a l).
Proof.
  revert l. induction a as [|a IH]; intro l; [reflexivity|].
  destruct l as [|x l]; cbn [Nat.add firstn skipn app].
  - now rewrite firstn_nil.
  - now rewrite IH.
Qed.

Lemma chunks_concat {A : Type} (l : list A) (m : nat) :
  List.concat (map (fun k => firstn 10 (skipn (10 * (k - 1)) l)) (seq 1 m))
  = firstn (10 * m) l.
Proof.
  induction m as [|m IH]; [reflexivity|].
  rewrite seq_S, map_app, concat_app, IH. cbn [map List.concat]. rewrite app_nil_r.
  replace (1 + m - 1)%nat with m by lia.
  replace (10 * S m)%nat with (10 * m + 10)%nat by lia.
  symmetry. apply firstn_add.
Qed.

Lemma total_pages_bounds {A : Type} (l : list A) :
  10 * total_pages l <= Z.of_nat (List.length l) + 9 < 10 * total_pages l + 10.
Proof.
  unfold total_pages, page_size.
  pose proof (Z.div_mod (Z.of_nat (List.length l) + 10 - 1) 10 ltac:(lia)) as H.
  pose proof (Z.mod_pos_bound (Z.of_nat (List.length l) + 10 - 1) 10 ltac:(lia)) as Hm.
  lia.
Qed.

Lemma products_to_show_chunk {A : Type} (l : list A) (k : nat) :
  (1 <= k <= Z.to_nat (total_pages l))%nat ->
  products_to_show (Z.of_nat k) l = firstn 10 (skipn (10 * (k - 1)) l)
  /\ (10 * (k - 1) < List.length l)%nat.
Proof.
  intro Hk. pose proof (total_pages_bounds l) as [Hlo Hhi].
  assert (Hs : (10 * (k - 1) < List.length l)%nat) by lia.
  split; [|exact Hs].
  unfold products_to_show. destruct (Z.ltb_spec 1 (total_pages l)) as [Htp|Htp].
  - cbv zeta. unfold slice, slice_index, page_size.
    set (N := Z.of_nat (List.length l)) in *.
    set (start := (Z.of_nat k - 1) * 10).
    assert (Hst : 0 <= start < N) by (subst start N; lia).
    destruct (Z.ltb_spec start 0); [lia|].
    destruct (Z.ltb_spec (Z.min (start + 10) N) 0); [lia|].
    replace (Z.min start N) with start by lia.
    replace (Z.min (Z.min (start + 10) N) N) with (Z.min (start + 10) N) by lia.
    replace (Z.to_nat start) with (10 * (k - 1))%nat by (subst start; lia).
    destruct (Z.le_gt_cases (start + 10) N).
    + replace (Z.to_nat (Z.min (start + 10) N - start)) with 10%nat by lia. reflexivity.
    + rewrite !firstn_all2; [reflexivity | |]; rewrite length_skipn; subst start N; lia.
  - assert (k = 1)%nat by lia. subst k. cbn [Nat.sub Nat.mul skipn Nat.add].
    symmetry. apply firstn_all2. lia.
Qed.

(** X19: the pages the number input offers partition the filtered
    products: shown one after the other they give the list back, in order,
    and every page shows between one and ten products. *)
Theorem pages_partition_the_products {A : Type} (l : list A) :
  List.concat (map (fun page => products_to_show page l) (paginas l)) = l
  /\ forall page, In page (paginas l) ->
       (1 <= List.length (products_to_show page l) <= 10)%nat.
Proof.
  unfold paginas. pose proof (total_pages_bounds l) as [Hlo Hhi]. split.
  - rewrite map_map.
    rewrite (map_ext_in _ (fun k => firstn 10 (skipn (10 * (k - 1)) l))).
    + rewrite chunks_concat. apply firstn_all2. lia.
    + intros k Hk. apply in_seq in Hk. apply products_to_show_chunk. lia.
  - intros page Hp. apply in_map_iff in Hp. destruct Hp as [k [<- Hk]].
    apply in_seq in Hk.
    destruct (products_to_show_chunk l k) as [-> Hs]; [lia|].
    rewrite length_firstn, length_skipn. lia.
Qed.

(** ** The figures of one product *)

Lemma fold_min_is_minimum (r : list Z) (d : Z) :
  is_minimum (fold_left Z.min r d) (d :: r).
Proof.
  revert d. induction r as [|x r IH]; intro d; cbn [fold_left].
  - split; [left; reflexivity | intros y [<-|[]]; lia].
  - destruct (IH (Z.min d x)) as [Hin Hle]. split.
    + destruct Hin as [H|H]; [|right; right; exact H]. rewrite <- H.
      destruct (Z.min_spec d x) as [[_ ->]|[_ ->]]; [left | right; left]; reflexivity.
    + pose proof (Hle (Z.min d x) (or_introl eq_refl)) as H0.
      intros y [<-|[<-|Hy]]; [lia | lia | apply Hle; right; exact Hy].
Qed.

Lemma fold_max_is_maximum (r : list Z) (d : Z) :
  In (fold_left Z.max r d) (d :: r) /\ forall x, In x (d :: r) -> x <= fold_left Z.max r d.
Proof.
  revert d. induction r as [|x r IH]; intro d; cbn [fold_left].
  - split; [left; reflexivity | intros y [<-|[]]; lia].
  - destruct (IH (Z.max d x)) as [Hin Hle]. split.
    + destruct Hin as [H|H]; [|right; right; exact H]. rewrite <- H.
      destruct (Z.max_spec d x) as [[_ ->]|[_ ->]]; [right; left | left]; reflexivity.
    + pose proof (Hle (Z.max d x) (or_introl eq_refl)) as H0.
      intros y [<-|[<-|Hy]]; [lia | lia | apply Hle; right; exact Hy].
Qed.

Lemma sorted_last_greatest {A : Type} (R : A -> A -> Prop) (rest : list A) (i : A) :
  StronglySorted R (rest ++ [i]) -> forall x, In x rest -> R x i.
Proof.
  induction rest as [|y rest IH]; intros Hs x Hx; [destruct Hx|].
  cbn [app] in Hs. inversion Hs as [|? ? Hs' Hall]; subst.
  destruct Hx as [<-|Hx].
  - rewrite Forall_forall in Hall. apply Hall, in_or_app. right. left. reflexivity.
  - apply IH; assumption.
Qed.

(** What a product of a returned analysis is made from. *)
Lemma product_of_run (hoje : datetime) (df : DataFrame) (a : Analise) :
  process_data hoje df = Ok a ->
  forall p, In p (produtos_criticos a) ->
    exists q, p = finalizar q /\ consistent q /\ ac_itens_detalhados q <> [] /\ meses_ok q.
Proof.
  intros Hrun p Hp.
  destruct (produtos_of_run hoje df a Hrun) as [c_dt [c_cod [_ [_ [Hperm _]]]]].
  eapply Permutation_in in Hp; [|apply Permutation_sym, Hperm].
  apply in_map_iff in Hp. destruct Hp as [q [<- Hq]].
  unfold Dict.values in Hq. apply in_map_iff in Hq. destruct Hq as [[k q'] [E Hin]].
  simpl in E. subst q'. exists q.
  destruct (processar_linhas_ok hoje _ c_cod c_dt df k q Hin) as [Hc Hne].
  pose proof (processar_linhas_meses hoje _ c_cod c_dt df k q Hin) as Hm.
  split; [reflexivity|]. split; [exact Hc|]. split; [exact Hne | exact Hm].
Qed.

(** X20: for a product of a returned analysis the detail view computes,
    without error, a least validity that is the product's minimum
    days-remaining and the days of its first line item, and a greatest
    validity that is the days of its last line item. *)
Theorem detail_figures_of_a_product (hoje : datetime) (df : DataFrame) (a : Analise)
  (Hrun : process_data hoje df = Ok a) (p : Produto)
  (Hp : In p (produtos_criticos a)) :
  dias_min (itens_detalhados p) = Ok (menor_dias_restantes p)
  /\ (exists i rest,
        itens_detalhados p = i :: rest /\ dias_restantes i = menor_dias_restantes p)
  /\ (exists rest i,
        itens_detalhados p = rest ++ [i]
        /\ dias_max (itens_detalhados p) = Ok (dias_restantes i)).
Proof.
  destruct (product_of_run hoje df a Hrun p Hp) as [q [-> [Hc [Hne _]]]].
  destruct (finalizar_accounts q Hc Hne) as [Hne' [_ [Hin Hmin]]].
  assert (Hsorted : StronglySorted (fun i j => dias_restantes i <= dias_restantes j)
                      (itens_detalhados (finalizar q))).
  { cbn [finalizar itens_detalhados].
    apply Sorted_StronglySorted; [intros x y z; lia|].
    apply Sorted_weaken with (R := fun i j => item_le i j = true).
    - intros i j _ _. apply Z.leb_le.
    - apply sort_sorted, item_le_total. }
  set (m := menor_dias_restantes (finalizar q)) in *.
  set (itens := itens_detalhados (finalizar q)) in *.
  clearbody m itens. split; [|split].
  - unfold dias_min. destruct itens as [|i rest]; [congruence|].
    cbn [map] in *. f_equal.
    destruct (fold_min_is_minimum (map dias_restantes rest) (dias_restantes i))
      as [Hin' Hmin'].
    pose proof (Hmin _ Hin'). pose proof (Hmin' _ Hin). lia.
  - destruct itens as [|i rest]; [congruence|]. exists i, rest. split; [reflexivity|].
    inversion Hsorted as [|? ? _ Hall]; subst. rewrite Forall_forall in Hall.
    assert (Hle : forall x, In x (map dias_restantes (i :: rest)) -> dias_restantes i <= x).
    { intros x Hx. apply in_map_iff in Hx. destruct Hx as [j [<- [<-|Hj]]];
        [lia | apply Hall, Hj]. }
    pose proof (Hle _ Hin). pose proof (Hmin (dias_restantes i) (in_map _ _ _ (in_eq _ _))).
    lia.
  - destruct (exists_last Hne') as [rest [i E]]. exists rest, i. split; [exact E|].
    unfold dias_max. destruct (map dias_restantes itens) as [|d r] eqn:Em.
    { apply map_eq_nil in Em. congruence. }
    f_equal. destruct (fold_max_is_maximum r d) as [HinM HleM].
    rewrite <- Em in HinM, HleM.
    assert (Hi : In (dias_restantes i) (map dias_restantes itens)).
    { apply in_map. rewrite E. apply in_or_app. right. left. reflexivity. }
    pose proof (HleM _ Hi) as H1.
    apply in_map_iff in HinM. destruct HinM as [j [Hj Hjin]].
    rewrite E in Hjin, Hsorted. apply in_app_or in Hjin. destruct Hjin as [Hjr|[<-|[]]].
    + pose proof (sorted_last_greatest _ rest i Hsorted j Hjr) as H2. cbv beta in H2. lia.
    + exact (eq_sym Hj).
Qed.

Lemma detail_figures_of_a_product_witness :
  match process_data hoje_ex df_ex with
  | Ok a =>
      forall p, In p (produtos_criticos a) ->
        dias_min (itens_detalhados p) = Ok (menor_dias_restantes p)
  | Raise _ => False
  end.
Proof.
  destruct (process_data hoje_ex df_ex) as [a|e] eqn:Hrun.
  - intros p Hp. exact (proj1 (detail_figures_of_a_product hoje_ex df_ex a Hrun p Hp)).
  - vm_compute in Hrun. discriminate Hrun.
Defined.

(** ** The dates of the line items *)

Lemma processar_linhas_itens (hoje : datetime) (cm : ColMapping) (c_cod c_dt : string)
  (df : DataFrame) :
  forall k p, In (k, p) (produtos (processar_linhas hoje cm c_cod c_dt df)) ->
    Forall (item_ok hoje) (ac_itens_detalhados p).
Proof.
  unfold processar_linhas.
  assert (H0 : forall k p, In (k, p) (produtos (estado_inicial df)) ->
                           Forall (item_ok hoje) (ac_itens_detalhados p))
    by (intros k p []).
  revert H0. generalize (estado_inicial df).
  induction (iterrows df) as [|row linhas IH]; intros st Hst; simpl; [exact Hst|].
  apply IH. clear IH. unfold processar_linha.
  destruct (isna (loc row c_cod) || String.eqb (strip (str (loc row c_cod))) "");
    [exact Hst|].
  destruct (parse_date (loc row c_dt)) as [[d|]|ex] eqn:Hd; try exact Hst.
  intros k p Hin. cbn [produtos] in Hin. apply dict_in_set in Hin.
  destruct Hin as [[= -> ->]|Hin]; [|apply (Hst k p Hin)].
  cbn [acumular ac_itens_detalhados]. apply Forall_app. split.
  - destruct (Dict.get String.eqb (str (loc row c_cod)) (produtos st)) as [q|] eqn:Hg.
    + apply dict_get_some_in in Hg. apply (Hst _ _ Hg).
    + constructor.
  - constructor; [|constructor]. split; [|reflexivity].
    cbn [novo_item data_validade]. exact (parse_date_well_formed _ _ Hd).
Qed.

(** X21: every line item of a returned analysis carries a date that exists
    in the calendar, and its days-remaining is the number of whole days from
    the reference date to that date (negative once the date has passed). *)
Theorem line_items_carry_valid_dates (hoje : datetime) (df : DataFrame) (a : Analise)
  (Hrun : process_data hoje df = Ok a) :
  forall p i, In p (produtos_criticos a) -> In i (itens_detalhados p) ->
    well_formed (data_validade i)
    /\ dias_restantes i = days_between (data_validade i) hoje.
Proof.
  intros p i Hp Hi.
  destruct (produtos_of_run hoje df a Hrun) as [c_dt [c_cod [_ [_ [Hperm _]]]]].
  eapply Permutation_in in Hp; [|apply Permutation_sym, Hperm].
  apply in_map_iff in Hp. destruct Hp as [q [<- Hq]].
  unfold Dict.values in Hq. apply in_map_iff in Hq. destruct Hq as [[k q'] [E Hin]].
  simpl in E. subst q'.
  pose proof (processar_linhas_itens hoje _ c_cod c_dt df k q Hin) as Hall.
  cbn [finalizar itens_detalhados] in Hi. apply sort_in in Hi.
  rewrite Forall_forall in Hall. exact (Hall i Hi).
Qed.

Lemma line_items_carry_valid_dates_witness :
  match process_data hoje_ex df_ex with
  | Ok a =>
      forall p i, In p (produtos_criticos a) -> In i (itens_detalhados p) ->
        well_formed (data_validade i)
        /\ dias_restantes i = days_between (data_validade i) hoje_ex
  | Raise _ => False
  end.
Proof.
  destruct (process_data hoje_ex df_ex) as [a|e] eqn:Hrun.
  - exact (line_items_carry_valid_dates hoje_ex df_ex a Hrun).
  - vm_compute in Hrun. discriminate Hrun.
Defined.

(** * Properties of the workbook *)

(** ** Dates written and read back *)

Lemma check_digits_sound (fmt : Z -> string) (lo hi fuel : nat) (n : Z) :
  check_digits fmt lo hi fuel n = true ->
  forall k, n <= k < n + Z.of_nat fuel ->
    digits_len lo hi (fmt k) = true /\ digits_value (fmt k) = k.
Proof.
  revert n. induction fuel as [|fuel IH]; intros n Hc k Hk.
  - simpl in Hk. lia.
  - cbn [check_digits] in Hc. rewrite !andb_true_iff in Hc.
    destruct Hc as [[Hl Hv] Hrest].
    destruct (Z.eq_dec k n) as [->|Hne].
    + split; [exact Hl | now apply Z.eqb_eq].
    + apply (IH (n + 1) Hrest). lia.
Qed.

Lemma pad2_digits : check_digits pad2 1 2 (Z.to_nat 100) 0 = true.
Proof. vm_compute. reflexivity. Qed.

Lemma str_Z_years : check_digits str_Z 4 4 (Z.to_nat 9000) 1000 = true.
Proof. vm_compute. reflexivity. Qed.

(** A date from year 1000 on, written as day/month/year, parses back to
    the same day. *)
Lemma strftime_parse_back (d : datetime) :
  well_formed d -> 1000 <= year d ->
  parse_date (Str (strftime_dmY d))
  = Ok (Some (mk_datetime (year d) (month d) (day d) 0)).
Proof.
  intros [Hv _] Hy. destruct (valid_date_bounds _ _ _ Hv) as [Hyr [Hm Hd]].
  destruct (check_digits_sound pad2 1 2 _ 0 pad2_digits (day d)) as [Ld Vd].
  { rewrite Z2Nat.id by lia. lia. }
  destruct (check_digits_sound pad2 1 2 _ 0 pad2_digits (month d)) as [Lm Vm].
  { rewrite Z2Nat.id by lia. lia. }
  destruct (check_digits_sound str_Z 4 4 _ 1000 str_Z_years (year d)) as [Ly Vy].
  { rewrite Z2Nat.id by lia. lia. }
  unfold strftime_dmY.
  rewrite (parse_date_dmy (pad2 (day d)) (pad2 (month d)) (str_Z (year d)) Ld Lm Ly).
  - rewrite Vd, Vm, Vy. reflexivity.
  - rewrite Vd, Vm, Vy. exact Hv.
Qed.

(** X22: every row of the sheet of critical products comes from a line item
    of an expired or high-tier product of the analysis, and its date cell,
    for a date from year 1000 on, is read back by the date parser as the
    day of that item. *)
Theorem critical_sheet_dates_parse_back (hoje : datetime) (df : DataFrame) (a : Analise)
  (Hrun : process_data hoje df = Ok a) :
  forall r, In r (dados_criticos (produtos_criticos a)) ->
    exists p i,
      In p (produtos_criticos a) /\ In i (itens_detalhados p)
      /\ (criticidade p = vencido \/ criticidade p = alta)
      /\ r = linha_critica p i
      /\ (1000 <= year (data_validade i) ->
          parse_date (Str (lc_data_validade r))
          = Ok (Some (mk_datetime (year (data_validade i)) (month (data_validade i))
                                  (day (data_validade i)) 0))).
Proof.
  intros r Hr. unfold dados_criticos in Hr. apply in_flat_map in Hr.
  destruct Hr as [p [Hp Hr]].
  destruct (e_critica (criticidade p)) eqn:Hc; [|destruct Hr].
  apply in_map_iff in Hr. destruct Hr as [i [<- Hi]].
  exists p, i. split; [exact Hp|]. split; [exact Hi|]. split.
  - unfold e_critica in Hc. apply orb_true_iff in Hc.
    destruct Hc as [Hc|Hc]; apply criticidade_eqb_spec in Hc; [left | right]; exact Hc.
  - split; [reflexivity|]. intro Hy. cbn [linha_critica lc_data_validade].
    apply strftime_parse_back; [|exact Hy].
    destruct (produtos_of_run hoje df a Hrun) as [c_dt [c_cod [_ [_ [Hperm _]]]]].
    eapply Permutation_in in Hp; [|apply Permutation_sym, Hperm].
    apply in_map_iff in Hp. destruct Hp as [q [<- Hq]].
    unfold Dict.values in Hq. apply in_map_iff in Hq. destruct Hq as [[k q'] [E Hin]].
    simpl in E. subst q'.
    pose proof (processar_linhas_itens hoje _ c_cod c_dt df k q Hin) as Hall.
    cbn [finalizar itens_detalhados] in Hi. apply sort_in in Hi.
    rewrite Forall_forall in Hall. exact (proj1 (Hall i Hi)).
Qed.

Lemma critical_sheet_dates_parse_back_witness :
  match process_data hoje_ex df_ex with
  | Ok a =>
      forall r, In r (dados_criticos (produtos_criticos a)) ->
        exists p i,
          In p (produtos_criticos a) /\ In i (itens_detalhados p)
          /\ (criticidade p = vencido \/ criticidade p = alta)
          /\ r = linha_critica p i
          /\ (1000 <= year (data_validade i) ->
              parse_date (Str (lc_data_validade r))
              = Ok (Some (mk_datetime (year (data_validade i)) (month (data_validade i))
                                      (day (data_validade i)) 0)))
  | Raise _ => False
  end.
Proof.
  destruct (process_data hoje_ex df_ex) as [a|e] eqn:Hrun.
  - exact (critical_sheet_dates_parse_back hoje_ex df_ex a Hrun).
  - vm_compute in Hrun. discriminate Hrun.
Defined.

(** ** The rows of the sheets *)





Lemma length_flat_map {A B : Type} (f : A -> list B) (l : list A) :
  List.length (flat_map f l) = list_sum (map (fun x => List.length (f x)) l).
Proof.
  induction l as [|x l IH]; [reflexivity|].
  cbn [flat_map map list_sum]. rewrite length_app, IH. reflexivity.
Qed.

Lemma planilha_none {A : Type} (data : list A) : planilha data = None <-> data = [].
Proof.
  destruct data; simpl; split; congruence.
Qed.



(** X24: the sheet of critical products has one row per line item of the
    expired and high-tier products, and it is left out exactly when the
    summary counts no expired product and no product expiring within 30
    days. *)
Theorem critical_sheet_presence (hoje : datetime) (df : DataFrame) (a : Analise)
  (Hrun : process_data hoje df = Ok a) :
  List.length (dados_criticos (produtos_criticos a))
  = conta_itens_produtos
      (filter (fun p => e_critica (criticidade p)) (produtos_criticos a))
  /\ (planilha (dados_criticos (produtos_criticos a)) = None
      <-> produtos_vencidos (resumo a) = 0%nat
          /\ produtos_vencendo_30_dias (resumo a) = 0%nat).
Proof.
  split.
  - unfold dados_criticos, conta_itens_produtos.
    induction (produtos_criticos a) as [|p ps IH]; [reflexivity|].
    cbn [flat_map filter]. rewrite length_app, IH.
    destruct (e_critica (criticidade p)); cbn [map list_sum length];
      [rewrite length_map|]; reflexivity.
  - destruct (criticality_by_run hoje df a Hrun) as [_ [Hv [Ha _]]].
    rewrite Hv, Ha, planilha_none. unfold count_tier.
    rewrite !length_zero_iff_nil, !filter_nil_iff.
    split.
    + intro E. split; intros p Hp.
      * destruct (criticidade_eqb (criticidade p) vencido) eqn:Ec; [|reflexivity].
        exfalso. destruct (product_of_run hoje df a Hrun p Hp) as [q [Eq [Hc [Hne _]]]].
        destruct (finalizar_accounts q Hc Hne) as [Hne' _]. rewrite <- Eq in Hne'.
        destruct (itens_detalhados p) as [|i l] eqn:Ei; [congruence|].
        assert (Hin : In (linha_critica p i) (dados_criticos (produtos_criticos a))).
        { unfold dados_criticos. apply in_flat_map. exists p. split; [exact Hp|].
          unfold e_critica. rewrite Ec. cbn [orb]. rewrite Ei. left. reflexivity. }
        rewrite E in Hin. destruct Hin.
      * destruct (criticidade_eqb (criticidade p) alta) eqn:Ec; [|reflexivity].
        exfalso. destruct (product_of_run hoje df a Hrun p Hp) as [q [Eq [Hc [Hne _]]]].
        destruct (finalizar_accounts q Hc Hne) as [Hne' _]. rewrite <- Eq in Hne'.
        destruct (itens_detalhados p) as [|i l] eqn:Ei; [congruence|].
        assert (Hin : In (linha_critica p i) (dados_criticos (produtos_criticos a))).
        { unfold dados_criticos. apply in_flat_map. exists p. split; [exact Hp|].
          unfold e_critica. rewrite Ec, orb_true_r. rewrite Ei. left. reflexivity. }
        rewrite E in Hin. destruct Hin.
    + intros [H1 H2]. unfold dados_criticos.
      destruct (flat_map _ (produtos_criticos a)) as [|r l] eqn:E; [reflexivity|].
      exfalso. assert (Hin : In r (r :: l)) by (left; reflexivity).
      rewrite <- E in Hin. apply in_flat_map in Hin. destruct Hin as [p [Hp Hr]].
      unfold e_critica in Hr. rewrite (H1 p Hp), (H2 p Hp) in Hr. destruct Hr.
Qed.

Lemma critical_sheet_presence_witness :
  match process_data hoje_ex df_ex with
  | Ok a =>
      List.length (dados_criticos (produtos_criticos a))
      = conta_itens_produtos
          (filter (fun p => e_critica (criticidade p)) (produtos_criticos a))
  | Raise _ => False
  end.
Proof.
  destruct (process_data hoje_ex df_ex) as [a|e] eqn:Hrun.
  - exact (proj1 (critical_sheet_presence hoje_ex df_ex a Hrun)).
  - vm_compute in Hrun. discriminate Hrun.
Defined.

(** ** The line items listed for a product *)

Lemma sorted_app_le {A : Type} (R : A -> A -> Prop) (l1 l2 : list A) :
  StronglySorted R (l1 ++ l2) -> forall x y, In x l1 -> In y l2 -> R x y.
Proof.
  induction l1 as [|z l1 IH]; intros Hs x y Hx Hy; [destruct Hx|].
  cbn [app] in Hs. inversion Hs as [|? ? Hs' Hall]; subst.
  destruct Hx as [<-|Hx].
  - rewrite Forall_forall in Hall. apply Hall, in_or_app. right. exact Hy.
  - apply IH; assumption.
Qed.

Lemma slice_prefix {A : Type} (n : nat) (l : list A) :
  slice 0 (Z.of_nat n) l = firstn n l.
Proof.
  unfold slice, slice_index.
  destruct (Z.ltb_spec 0 0); [lia|]. destruct (Z.ltb_spec (Z.of_nat n) 0); [lia|].
  replace (Z.to_nat (Z.min 0 (Z.of_nat (List.length l)))) with 0%nat by lia.
  cbn [skipn].
  destruct (Nat.le_gt_cases n (List.length l)).
  - f_equal. lia.
  - rewrite !firstn_all2 by lia. reflexivity.
Qed.

(** X25: unless all items are asked for, the detail view of a product of a
    returned analysis lists its first twenty line items, and these are the
    most urgent ones: no listed item has more days remaining than an item
    left out. *)
Theorem listed_items_are_most_urgent (hoje : datetime) (df : DataFrame) (a : Analise)
  (Hrun : process_data hoje df = Ok a) (p : Produto)
  (Hp : In p (produtos_criticos a)) :
  items_to_show false (itens_detalhados p) = firstn 20 (itens_detalhados p)
  /\ (List.length (items_to_show false (itens_detalhados p))
      = Nat.min 20 (List.length (itens_detalhados p)))
  /\ forall i j,
       In i (items_to_show false (itens_detalhados p)) ->
       In j (skipn 20 (itens_detalhados p)) ->
       dias_restantes i <= dias_restantes j.
Proof.
  assert (Hshow : items_to_show false (itens_detalhados p) = firstn 20 (itens_detalhados p)).
  { unfold items_to_show. exact (slice_prefix 20 (itens_detalhados p)). }
  rewrite Hshow. split; [reflexivity|]. split; [apply length_firstn|].
  destruct (product_of_run hoje df a Hrun p Hp) as [q [-> _]].
  assert (Hsorted : StronglySorted (fun i j => dias_restantes i <= dias_restantes j)
                      (itens_detalhados (finalizar q))).
  { cbn [finalizar itens_detalhados].
    apply Sorted_StronglySorted; [intros x y z; lia|].
    apply Sorted_weaken with (R := fun i j => item_le i j = true).
    - intros i j _ _. apply Z.leb_le.
    - apply sort_sorted, item_le_total. }
  rewrite <- (firstn_skipn 20 (itens_detalhados (finalizar q))) in Hsorted.
  intros i j Hi Hj. exact (sorted_app_le _ _ _ Hsorted i j Hi Hj).
Qed.

Lemma listed_items_are_most_urgent_witness :
  match process_data hoje_ex df_ex with
  | Ok a =>
      forall p, In p (produtos_criticos a) ->
        items_to_show false (itens_detalhados p) = firstn 20 (itens_detalhados p)
  | Raise _ => False
  end.
Proof.
  destruct (process_data hoje_ex df_ex) as [a|e] eqn:Hrun.
  - intros p Hp. exact (proj1 (listed_items_are_most_urgent hoje_ex df_ex a Hrun p Hp)).
  - vm_compute in Hrun. discriminate Hrun.
Defined.
